(** * MT5 provisioning script ([Metatrader/start.py]): download manager,
      process supervisor and installation step, embedded in Rocq.

    The script is effectful Python: it reads and writes files, talks to an
    HTTP server, spawns processes, raises and catches exceptions and polls a
    flag that a signal handler sets.  The embedding is a state-and-exception
    monad over an explicit world state.  Everything the script does not
    define itself (hashlib, json, datetime parsing, the HTTP server, the
    external commands) is a field of the class [World]; the imported
    [settings] object is an argument of the functions that read it. *)

From Stdlib Require Import ZArith Ascii String DecimalString.
From stdpp Require Import gmap strings list pretty.

Set Warnings "-register-all".
Local Open Scope Z_scope.

(** ** Exceptions *)

(** The exception classes that the modelled operations raise, together with
    the two [BaseException]-only classes that [except Exception] lets
    through.  (SIGINT does not raise KeyboardInterrupt here: GracefulKiller
    replaces its handler.) *)
Inductive exn : Type :=
  | JSONDecodeError        (* json.load on text that is not JSON *)
  | AttributeError         (* missing attribute, e.g. [.get] on a list *)
  | TypeError
  | ValueError
  | FileNotFoundError
  | FileExistsError
  | OSError                (* another failure of a file operation *)
  | RequestException       (* session.get: connection failure, timeout,
                              retry budget exhausted *)
  | HTTPError              (* response.raise_for_status() *)
  | ChunkedEncodingError   (* the body stream breaks while iterating *)
  | CalledProcessError
  | TimeoutExpired
  | KeyboardInterrupt
  | SystemExit.

(** [isinstance(e, Exception)]. *)
Definition is_Exception (e : exn) : bool :=
  match e with
  | KeyboardInterrupt | SystemExit => false
  | _ => true
  end.

(** How a call ends: it returns, or raises.  [Diverged] is the embedding's
    own third case, for a loop whose iteration budget ran out; the lemmas
    below show that the budgets used are never exhausted. *)
Inductive outcome (A : Type) : Type :=
  | Return (a : A)
  | Raise (e : exn)
  | Diverged.
Arguments Return {A} a.
Arguments Raise {A} e.
Arguments Diverged {A}.

(** ** Paths *)

(** A [pathlib.Path] is its normalised string.  [path_name] is [Path.name],
    the component after the last slash. *)
Fixpoint name_from (acc p : string) : string :=
  match p with
  | EmptyString => acc
  | String c rest =>
      if Ascii.eqb c "/"%char then name_from EmptyString rest
      else name_from (acc +:+ String c EmptyString) rest
  end.

Definition path_name (p : string) : string := name_from EmptyString p.

(** [dir / n]; joining the empty name gives the directory itself. *)
Definition path_join (dir n : string) : string :=
  if String.eqb n EmptyString then dir else dir +:+ "/" +:+ n.

(** ** File system with hard links

    Directory entries map a path to an inode number, inodes hold the
    content.  Two names of one inode are hard links of one file:
    [dest_path.link_to(cache_file)] creates exactly that.  All paths are
    taken to lie on one writable volume, and the directories that the
    file operations need ([/tmp], and the cache directory, which
    [__init__] makes) exist, so the operations fail only for the reasons
    written out below. *)
Record FS : Type := mkFS {
  names : gmap string nat;
  inodes : gmap nat string
}.

Definition empty_fs : FS := mkFS ∅ ∅.

(** [Path.exists()] *)
Definition path_exists (f : FS) (p : string) : bool :=
  bool_decide (is_Some (names f !! p)).

Definition inode_content (f : FS) (i : nat) : string :=
  default EmptyString (inodes f !! i).

(** The content read through a name, [None] when the name is absent. *)
Definition file_content (f : FS) (p : string) : option string :=
  inode_content f <$> names f !! p.

(** An inode number that no directory entry refers to. *)
Definition fresh_inode (f : FS) : nat :=
  fresh (map_img (names f) : gset nat).

(** [open(p, 'w')] / [open(p, 'wb')]: truncate the file behind the name, or
    create a fresh empty file.  Returns the inode the handle writes to. *)
Definition open_trunc (f : FS) (p : string) : FS * nat :=
  match names f !! p with
  | Some i => (mkFS (names f) (<[i := EmptyString]> (inodes f)), i)
  | None =>
      let i := fresh_inode f in
      (mkFS (<[p := i]> (names f)) (<[i := EmptyString]> (inodes f)), i)
  end.

(** [f.write(data)] on an open handle. *)
Definition append_inode (f : FS) (i : nat) (data : string) : FS :=
  mkFS (names f) (<[i := inode_content f i +:+ data]> (inodes f)).

(** [Path.unlink()] *)
Definition unlink (f : FS) (p : string) : option FS :=
  match names f !! p with
  | Some _ => Some (mkFS (delete p (names f)) (inodes f))
  | None => None
  end.

(** [src.rename(dst)], that is rename(2): a missing source fails; when
    both names already refer to the same file nothing happens and the call
    succeeds; otherwise the destination name is replaced and the source
    name disappears. *)
Definition rename (f : FS) (src dst : string) : option FS :=
  match names f !! src with
  | None => None
  | Some i =>
      if bool_decide (names f !! dst = Some i) then Some f
      else Some (mkFS (<[dst := i]> (delete src (names f))) (inodes f))
  end.

Inductive link_error : Type := LinkNoSource | LinkTargetExists.

(** [src.link_to(target)] of Python 3.8 to 3.11, that is
    [os.link(src, target)]: [target] becomes a second name of the file
    behind [src]; a [target] that exists already is an error. *)
Definition link_to (f : FS) (src target : string) : link_error + FS :=
  match names f !! src with
  | None => inl LinkNoSource
  | Some i =>
      match names f !! target with
      | Some _ => inl LinkTargetExists
      | None => inr (mkFS (<[target := i]> (names f)) (inodes f))
      end
  end.

(** ** JSON values, as [json.load] returns them *)
Inductive json : Type :=
  | JNull
  | JBool (b : bool)
  | JNum (n : Z)
  | JStr (s : string)
  | JArr (items : list json)
  | JObj (fields : list (string * json)).

(** Python truthiness of a loaded value: [None], [False], zero, the empty
    string, list and dict are falsy. *)
Definition truthy (j : json) : bool :=
  match j with
  | JNull => false
  | JBool b => b
  | JNum n => negb (n =? 0)
  | JStr s => negb (String.eqb s EmptyString)
  | JArr items => match items with [] => false | _ => true end
  | JObj fields => match fields with [] => false | _ => true end
  end.

(** Lookup in the field list of a loaded object; [json.load] keeps the last
    of several equal keys. *)
Fixpoint obj_lookup (fields : list (string * json)) (key : string) : option json :=
  match fields with
  | [] => None
  | (k, v) :: rest =>
      match obj_lookup rest key with
      | Some w => Some w
      | None => if String.eqb k key then Some v else None
      end
  end.

(** [value.get(key, dflt)]: only a dict has [get]. *)
Definition py_get (j : json) (key : string) (dflt : json) : outcome json :=
  match j with
  | JObj fields => Return (default dflt (obj_lookup fields key))
  | _ => Raise AttributeError
  end.

(** ** Time

    The clock counts microseconds, the resolution of [datetime].  A
    [datetime] is naive or carries a UTC offset; [datetime.now()] is
    naive, and subtracting an aware value from it is a [TypeError]. *)
Record datetime : Type := mkDatetime { ticks : Z; aware : bool }.

Definition seconds (n : Z) : Z := n * 1000000.

(** [timedelta(days=d)] *)
Definition timedelta_days (d : Z) : Z := seconds (d * 86400).

(** [now - t] for a naive [now]. *)
Definition datetime_sub (now : Z) (t : datetime) : outcome Z :=
  if aware t then Raise TypeError else Return (now - ticks t).

(** ** Settings

    The attributes of the imported [settings] object.  [wine_version] is
    optional: the fallback class [DefaultSettings] does not define it.
    [dict_method] says whether the object has the method [dict()], which
    [DefaultSettings] defines. *)
Record Settings : Type := mkSettings {
  wine_prefix : string;
  mt5_port : Z;
  log_level : string;
  max_retries : Z;
  download_timeout : Z;
  cache_enabled : bool;
  cache_ttl_days : Z;
  mono_url : string;
  python_url : string;
  mt5_download_url : string;
  required_packages : list string;
  wine_version : option string;
  dict_method : bool      (* the object has the method [dict()] *)
}.

(** [DefaultSettings], with the environment variables unset. *)
Definition DefaultSettings : Settings := {|
  wine_prefix := "/config/.wine";
  mt5_port := 8001;
  log_level := "INFO";
  max_retries := 3;
  download_timeout := 300;
  cache_enabled := true;
  cache_ttl_days := 7;
  mono_url := "https://dl.winehq.org/wine/wine-mono/8.0.0/wine-mono-8.0.0-x86.msi";
  python_url := "https://www.python.org/ftp/python/3.9.0/python-3.9.0.exe";
  mt5_download_url := "https://download.mql5.com/cdn/web/metaquotes.ltd/mt5/mt5setup.exe";
  required_packages := ["MetaTrader5==5.0.36"; "mt5linux"; "pyxdg"];
  wine_version := None;
  dict_method := true
|}.

(** [KNOWN_CHECKSUMS.get(filename)] *)
Definition KNOWN_CHECKSUMS (filename : string) : option string :=
  if String.eqb filename "wine-mono-8.0.0-x86.msi"
  then Some "3f7b1cd6b7842c09142082e50ece97abe848a033a0838f029c35ce973926c275"
  else if String.eqb filename "python-3.9.0.exe"
  then Some "fd2e4c52fb5a0f6c0d7f8c31131a21c57b0728d9e8b3ed7c207ceea8f1078918"
  else None.

(** ** The HTTP server, as [session.get(url, stream=True, timeout=...)]
       sees it

    The retries of the mounted adapter happen inside [session.get]; the
    download manager sees one call and its final outcome. *)
Inductive stream_item : Type :=
  | Chunk (data : string)   (* the next block from iter_content *)
  | Signal                  (* SIGINT/SIGTERM arrives while waiting for the
                               next block: the handler sets kill_now *)
  | StreamError             (* the connection breaks *)
  | WriteError.             (* the next block arrives but f.write fails,
                               e.g. the disk is full *)

Record response : Type := mkResponse {
  status_code : Z;
  (* the content-length header: absent, or present with the result of
     int() on it ([None] when int() raises ValueError) *)
  content_length : option (option Z);
  body : list stream_item
}.

Inductive http_outcome : Type :=
  | GetFails
  | GetResponds (r : response).

(** ** Child processes

    A [Popen] handle with what the operating system will do with the
    child: when it ends on its own, and how long it needs to go away once
    it is sent SIGTERM.  [calls] records the [terminate()] and [kill()]
    calls made on the handle. *)
Inductive handle_call : Type := Terminate | Kill.

Record Proc : Type := mkProc {
  args : list string;
  started_at : Z;          (* clock time of the Popen call *)
  exit_at : option Z;      (* clock time of its own exit; None: runs on *)
  term_delay : option Z;   (* time from SIGTERM to exit; None: ignores it *)
  term_at : option Z;      (* when SIGTERM reached the live process *)
  kill_at : option Z;      (* when SIGKILL reached the live process *)
  calls : list handle_call
}.

Definition opt_min (a b : option Z) : option Z :=
  match a, b with
  | Some x, Some y => Some (Z.min x y)
  | Some x, None => Some x
  | None, b => b
  end.

(** The moment the child is gone, if ever. *)
Definition death_time (p : Proc) : option Z :=
  opt_min (exit_at p)
    (opt_min (match term_at p, term_delay p with
              | Some t, Some d => Some (t + d)
              | _, _ => None
              end)
             (kill_at p)).

(** [process.poll() is None] at clock time [t]. *)
Definition running (p : Proc) (t : Z) : bool :=
  match death_time p with
  | Some d => t <? d
  | None => true
  end.

(** The handle after [terminate()] at time [t]. *)
Definition on_terminate (p : Proc) (t : Z) : Proc :=
  mkProc (args p) (started_at p) (exit_at p) (term_delay p)
    (if running p t then
       match term_at p with Some t0 => Some t0 | None => Some t end
     else term_at p)
    (kill_at p) (calls p ++ [Terminate]).

(** The handle after [kill()] at time [t]. *)
Definition on_kill (p : Proc) (t : Z) : Proc :=
  mkProc (args p) (started_at p) (exit_at p) (term_delay p) (term_at p)
    (if running p t then Some t else kill_at p)
    (calls p ++ [Kill]).

(** ** World state *)
Record State : Type := mkState {
  kill_now : bool;              (* GracefulKiller.kill_now *)
  signal_at : option Z;         (* a signal still to arrive at this time *)
  clock : Z;
  fs : FS;
  requests : list string;       (* URLs handed to session.get, in order *)
  commands : list (list string);(* external commands started, in order *)
  processes : list Proc;        (* MT5Installer.processes *)
  dirs : gset string            (* directories, besides those that have an
                                   entry or a directory below them *)
}.

Definition set_kill (b : bool) (st : State) : State :=
  mkState b (signal_at st) (clock st) (fs st) (requests st) (commands st)
    (processes st) (dirs st).
Definition set_clock (t : Z) (st : State) : State :=
  mkState (kill_now st) (signal_at st) t (fs st) (requests st) (commands st)
    (processes st) (dirs st).
Definition set_fs (f : FS) (st : State) : State :=
  mkState (kill_now st) (signal_at st) (clock st) f (requests st) (commands st)
    (processes st) (dirs st).
Definition set_requests (r : list string) (st : State) : State :=
  mkState (kill_now st) (signal_at st) (clock st) (fs st) r (commands st)
    (processes st) (dirs st).
Definition set_commands (c : list (list string)) (st : State) : State :=
  mkState (kill_now st) (signal_at st) (clock st) (fs st) (requests st) c
    (processes st) (dirs st).
Definition set_processes (ps : list Proc) (st : State) : State :=
  mkState (kill_now st) (signal_at st) (clock st) (fs st) (requests st)
    (commands st) ps (dirs st).
Definition set_dirs (ds : gset string) (st : State) : State :=
  mkState (kill_now st) (signal_at st) (clock st) (fs st) (requests st)
    (commands st) (processes st) ds.

(** ** The monad: state passing with exceptions *)
Definition M (A : Type) : Type := State -> State * outcome A.

Definition ret {A} (a : A) : M A := fun st => (st, Return a).
Definition raise {A} (e : exn) : M A := fun st => (st, Raise e).
Definition bind {A B} (c : M A) (k : A -> M B) : M B :=
  fun st =>
    match c st with
    | (st', Return a) => k a st'
    | (st', Raise e) => (st', Raise e)
    | (st', Diverged) => (st', Diverged)
    end.
Definition lift {A} (o : outcome A) : M A := fun st => (st, o).
Definition get_state : M State := fun st => (st, Return st).
Definition modify (f : State -> State) : M unit := fun st => (f st, Return tt).

(** [try: body except <class> as e: handler], the class given by its
    [isinstance] test: an exception outside the class passes through; the
    effects made before the raise stay. *)
Definition try_except {A} (body : M A) (isinstance : exn -> bool)
    (handler : exn -> M A) : M A :=
  fun st =>
    match body st with
    | (st', Return a) => (st', Return a)
    | (st', Raise e) => if isinstance e then handler e st' else (st', Raise e)
    | (st', Diverged) => (st', Diverged)
    end.

Declare Scope py_scope.
Delimit Scope py_scope with py.
Notation "x <- c ;; k" := (bind c (fun x => k))
  (at level 100, c at next level, right associativity) : py_scope.
Notation "c ;; k" := (bind c (fun _ => k))
  (at level 100, right associativity) : py_scope.
Local Open Scope py_scope.

(** Time passes ([time.sleep], a blocking wait): the clock moves, and a
    signal due by then has run its handler. *)
Definition advance (dt : Z) : M unit :=
  modify (fun st =>
    let t := clock st + dt in
    let st1 := set_clock t st in
    match signal_at st with
    | Some s => if s <=? t then set_kill true st1 else st1
    | None => st1
    end).

(** File-system operations lifted into the monad, with the exception each
    raises. *)
Definition unlink_path (p : string) : M unit :=
  fun st =>
    match unlink (fs st) p with
    | Some f => (set_fs f st, Return tt)
    | None => (st, Raise FileNotFoundError)
    end.

Definition rename_path (src dst : string) : M unit :=
  fun st =>
    match rename (fs st) src dst with
    | Some f => (set_fs f st, Return tt)
    | None => (st, Raise FileNotFoundError)
    end.

Definition link_path (src target : string) : M unit :=
  fun st =>
    match link_to (fs st) src target with
    | inr f => (set_fs f st, Return tt)
    | inl LinkNoSource => (st, Raise FileNotFoundError)
    | inl LinkTargetExists => (st, Raise FileExistsError)
    end.

(** [open(p, 'w')] followed by one write of [text]. *)
Definition write_text (p text : string) : M unit :=
  modify (fun st =>
    let '(f, i) := open_trunc (fs st) p in
    set_fs (append_inode f i text) st).

(** [q] lies below [p]. *)
Definition is_below (p q : string) : bool := String.prefix (p +:+ "/") q.

(** The paths that have a directory entry. *)
Definition entries (st : State) : list string :=
  (map_to_list (names (fs st))).*1.

(** [Path.is_dir()]: a directory known as such, or a path with a
    directory or an entry below it. *)
Definition is_dir (st : State) (p : string) : bool :=
  bool_decide (p ∈ dirs st) ||
  existsb (is_below p) (elements (dirs st)) ||
  existsb (is_below p) (entries st).

(** [Path(p).mkdir(parents=True, exist_ok=True)]: nothing happens when
    [p] is a directory already; a [p] that exists without being one is a
    FileExistsError, an ancestor that is a file a NotADirectoryError (an
    OSError), and nothing is made then; otherwise [p] is made, and with it
    the ancestors it lacks. *)
Definition mkdir_parents (p : string) : M unit :=
  fun st =>
    if is_dir st p then (st, Return tt)
    else if path_exists (fs st) p then (st, Raise FileExistsError)
    else if existsb (fun q => is_below q p && negb (is_dir st q)) (entries st)
    then (st, Raise OSError)
    else (set_dirs ({[ p ]} ∪ dirs st) st, Return tt).

(** [a or b] on optional strings: [None] and the empty string are falsy. *)
Definition py_or (a b : option string) : option string :=
  match a with
  | Some s => if String.eqb s EmptyString then b else Some s
  | None => b
  end.

(** [response.raise_for_status()] *)
Definition raise_for_status (r : response) : M unit :=
  if (400 <=? status_code r) && (status_code r <? 600)
  then raise HTTPError else ret tt.

(** [int(response.headers.get('content-length', 0))] *)
Definition total_size_of (r : response) : M Z :=
  match content_length r with
  | None => ret 0
  | Some None => raise ValueError
  | Some (Some n) => ret n
  end.

(** [self.cache_dir] *)
Definition cache_dir : string := "/config/.cache".

(** What [subprocess.run(cmd, capture_output=True, text=True)] comes back
    with, and how long the command took. *)
Record run_result : Type := mkRun {
  returncode : Z;
  stdout : string;
  stderr : string;
  took : Z
}.

(** ** What the script does not define itself

    The library functions it calls and the outside world it talks to. *)
Class World : Type := {
  sha256_hex : string -> string;   (* hashlib.sha256(..).hexdigest() *)
  md5_hex : string -> string;      (* hashlib.md5(..).hexdigest() *)
  json_load : string -> option json;           (* None: JSONDecodeError *)
  json_dump : json -> string;
  fromisoformat : string -> option datetime;   (* None: ValueError *)
  isoformat : Z -> string;         (* datetime.isoformat() *)
  (* the answer to session.get(url, timeout=...) *)
  server : string -> Z -> http_outcome;
  (* subprocess.run; None: the program cannot be started
     (FileNotFoundError) *)
  run_oracle : list string -> option run_result;
  (* Popen; None as above, else how long the child runs on its own and how
     long it needs to exit on SIGTERM *)
  spawn_oracle : list string -> option (option Z * option Z)
}.

Section Installer.

Context {W : World}.

(** [self.cache_dir / f"{md5(url).hexdigest()}.meta"] *)
Definition meta_path (url : string) : string :=
  path_join cache_dir (md5_hex url +:+ ".meta").

(** [self.cache_dir / dest_path.name] *)
Definition cache_path (dest_path : string) : string :=
  path_join cache_dir (path_name dest_path).

(** [_calculate_checksum]: the digest of the whole content, read in
    blocks of 4096 bytes. *)
Definition _calculate_checksum (file_path : string) : M string :=
  fun st =>
    match file_content (fs st) file_path with
    | Some c => (st, Return (sha256_hex c))
    | None => (st, Raise FileNotFoundError)
    end.

(** [_verify_checksum] *)
Definition _verify_checksum (file_path : string)
    (expected_checksum : option string) : M bool :=
  match expected_checksum with
  | None => ret true
  | Some expected =>
      if String.eqb expected EmptyString then ret true
      else
        actual_checksum <- _calculate_checksum file_path ;;
        ret (String.eqb actual_checksum expected)
  end.

(** [_get_cache_metadata] *)
Definition _get_cache_metadata (url : string) : M json :=
  fun st =>
    match file_content (fs st) (meta_path url) with
    | Some text =>
        match json_load text with
        | Some j => (st, Return j)
        | None => (st, Raise JSONDecodeError)
        end
    | None => (st, Return (JObj []))
    end.

(** [_save_cache_metadata] *)
Definition _save_cache_metadata (url : string) (metadata : json) : M unit :=
  write_text (meta_path url) (json_dump metadata).

(** [datetime.fromisoformat(v)]: a non-string argument is a TypeError. *)
Definition datetime_fromisoformat (v : json) : M datetime :=
  match v with
  | JStr s =>
      match fromisoformat s with
      | Some t => ret t
      | None => raise ValueError
      end
  | _ => raise TypeError
  end.

(** [self.session.get(url, stream=True, timeout=timeout)] *)
Definition session_get (url : string) (timeout : Z) : M response :=
  fun st =>
    let st' := set_requests (requests st ++ [url]) st in
    match server url timeout with
    | GetFails => (st', Raise RequestException)
    | GetResponds r => (st', Return r)
    end.

(** The loop [for chunk in response.iter_content(chunk_size=8192)] inside
    [with open(dest_path, 'wb') as f], writing through the handle [ino].
    [None]: the loop ran to its end; [Some b]: the function returned [b]
    from inside the loop.  The progress lines only log. *)
Fixpoint write_chunks (ino : nat) (items : list stream_item) : M (option bool) :=
  match items with
  | [] => ret None
  | Signal :: rest => modify (set_kill true) ;; write_chunks ino rest
  | StreamError :: _ => raise ChunkedEncodingError
  | WriteError :: _ =>
      st <- get_state ;;
      if kill_now st then ret (Some false) else raise OSError
  | Chunk data :: rest =>
      st <- get_state ;;
      if kill_now st then ret (Some false)
      else
        (if String.eqb data EmptyString then ret tt
         else modify (fun s => set_fs (append_inode (fs s) ino data) s)) ;;
        write_chunks ino rest
  end.

(** The cache block of [download_file] (the lines under [# Check cache] and
    [# Use cache if it exists and is valid]): [true] stands for the
    [return True] after the rename, [false] for falling through to the
    download. *)
Definition use_cache (url dest_path : string) : M bool :=
  let cache_file := cache_path dest_path in
  cache_metadata <- _get_cache_metadata url ;;
  st <- get_state ;;
  if path_exists (fs st) cache_file && truthy cache_metadata then
    ts <- lift (py_get cache_metadata "timestamp" (JStr EmptyString)) ;;
    cache_time <- datetime_fromisoformat ts ;;
    now <- get_state ;;
    age <- lift (datetime_sub (clock now) cache_time) ;;
    if age <? timedelta_days 7 then
      rename_path cache_file dest_path ;; ret true
    else ret false
  else ret false.

(** [with open(dest_path, 'wb') as f]: the handle's inode. *)
Definition open_dest (dest_path : string) : M nat :=
  fun st =>
    let '(f, i) := open_trunc (fs st) dest_path in
    (set_fs f st, Return i).

(** The end of [download_file], from [# Verify checksum if available] to
    the final [return True]. *)
Definition verify_and_store (url dest_path : string)
    (expected_checksum : option string) : M bool :=
  let filename := path_name dest_path in
  let expected := py_or expected_checksum (KNOWN_CHECKSUMS filename) in
  ok <- _verify_checksum dest_path expected ;;
  if negb ok then unlink_path dest_path ;; ret false
  else
    let cache_file := cache_path dest_path in
    link_path dest_path cache_file ;;
    now <- get_state ;;
    checksum <- _calculate_checksum dest_path ;;
    _save_cache_metadata url
      (JObj [("timestamp", JStr (isoformat (clock now)));
             ("checksum", JStr checksum)]) ;;
    ret true.

(** [download_file] past the cache block: the request, the chunk loop,
    then [verify_and_store] unless the loop returned. *)
Definition fetch_and_store (settings : Settings) (url dest_path : string)
    (expected_checksum : option string) : M bool :=
  response <- session_get url (download_timeout settings) ;;
  raise_for_status response ;;
  total_size <- total_size_of response ;;
  ino <- open_dest dest_path ;;
  returned <- write_chunks ino (body response) ;;
  match returned with
  | Some b => ret b
  | None => verify_and_store url dest_path expected_checksum
  end.

(** The body of the [try] in [download_file]. *)
Definition download_file_body (settings : Settings) (url dest_path : string)
    (expected_checksum : option string) : M bool :=
  st <- get_state ;;
  if kill_now st then ret false
  else
    used_cache <- use_cache url dest_path ;;
    if (used_cache : bool) then ret true
    else fetch_and_store settings url dest_path expected_checksum.

(** [download_file] *)
Definition download_file (settings : Settings) (url dest_path : string)
    (expected_checksum : option string) : M bool :=
  try_except
    (download_file_body settings url dest_path expected_checksum)
    is_Exception
    (fun _ => ret false).

(** *** External commands *)

(** [subprocess.Popen(cmd, ...)] *)
Definition popen (cmd : list string) : M Proc :=
  fun st =>
    match spawn_oracle cmd with
    | None => (st, Raise FileNotFoundError)
    | Some (runtime, delay) =>
        (set_commands (commands st ++ [cmd]) st,
         Return (mkProc cmd (clock st) ((fun r => clock st + r) <$> runtime)
                        delay None None []))
    end.

(** [subprocess.run(cmd, check=check, ...)] *)
Definition subprocess_run (cmd : list string) (check : bool) : M run_result :=
  match run_oracle cmd with
  | None => raise FileNotFoundError
  | Some r =>
      modify (fun st => set_commands (commands st ++ [cmd]) st) ;;
      advance (took r) ;;
      if check && negb (returncode r =? 0) then raise CalledProcessError
      else ret r
  end.

(** [process.terminate()]: SIGTERM reaches the child if it is alive. *)
Definition proc_terminate (p : Proc) : M Proc :=
  st <- get_state ;;
  ret (on_terminate p (clock st)).

(** [process.kill()] *)
Definition proc_kill (p : Proc) : M Proc :=
  st <- get_state ;;
  ret (on_kill p (clock st)).

(** [process.wait(timeout=timeout)]: returns once the child is gone,
    raises TimeoutExpired when it is still there after [timeout]. *)
Definition proc_wait (p : Proc) (timeout : Z) : M unit :=
  st <- get_state ;;
  let t := clock st in
  match death_time p with
  | Some d =>
      if d <=? t + timeout then advance (Z.max 0 (d - t))
      else advance timeout ;; raise TimeoutExpired
  | None => advance timeout ;; raise TimeoutExpired
  end.

Inductive cmd_result : Type :=
  | NoResult                       (* None *)
  | Handle (p : Proc)              (* the Popen object *)
  | Completed (r : run_result).    (* the CompletedProcess *)

(** [run_command] *)
Definition run_command (cmd : list string) (check background : bool)
    : M cmd_result :=
  try_except
    (st <- get_state ;;
     if kill_now st then ret NoResult
     else if background then
       process <- popen cmd ;;
       modify (fun s => set_processes (processes s ++ [process]) s) ;;
       ret (Handle process)
     else
       result <- subprocess_run cmd check ;;
       ret (Completed result))
    (fun e => match e with CalledProcessError => true | _ => false end)
    (fun e => if check then raise e else ret NoResult).

(** How the waiting loop of [install_mt5] is left. *)
Inductive loop_exit : Type :=
  | LoopReturn     (* [return] from inside the loop *)
  | LoopEnd.       (* [break], or the condition became false *)

(** [while time.time() - start_time < timeout: ...] in [install_mt5], the
    handle threaded through.  [budget] bounds the iterations of the
    embedding; each iteration sleeps one second. *)
Fixpoint wait_for_installer (budget : nat) (process : Proc)
    (start_time timeout : Z) : M (loop_exit * Proc) :=
  fun st =>
    if clock st - start_time <? seconds timeout then
      match budget with
      | O => (st, Diverged)
      | S budget' =>
          if kill_now st then
            (process' <- proc_terminate process ;;
             ret (LoopReturn, process')) st
          else if negb (running process (clock st)) then
            (st, Return (LoopEnd, process))
          else
            (advance (seconds 1) ;;
             wait_for_installer budget' process start_time timeout) st
      end
    else (st, Return (LoopEnd, process)).

(** [Path(wine_prefix) / "drive_c" / "Program Files" / "MetaTrader 5" /
    "terminal64.exe"] *)
Definition mt5_exe_path (settings : Settings) : string :=
  path_join (path_join (path_join (path_join (wine_prefix settings)
    "drive_c") "Program Files") "MetaTrader 5") "terminal64.exe".

(** [self.settings.wine_version] *)
Definition get_wine_version (settings : Settings) : M string :=
  match wine_version settings with
  | Some v => ret v
  | None => raise AttributeError
  end.

(** The command that sets the Wine version in the registry. *)
Definition reg_add_command (version : string) : list string :=
  ["wine"; "reg"; "add"; "HKEY_CURRENT_USER\Software\Wine";
   "/v"; "Version"; "/t"; "REG_SZ"; "/d"; version; "/f"].

(** [Path("/tmp/mt5setup.exe")] and the command that runs it. *)
Definition mt5_installer : string := "/tmp/mt5setup.exe".
Definition installer_command : list string := ["wine"; mt5_installer; "/auto"].

(** The branch of [install_mt5] taken when the download succeeded, from
    [# Install MT5] on.  The handle of the installer is a local variable;
    its final state is returned for inspection.  The closing existence
    test only selects a log line. *)
Definition run_installer : M (option Proc) :=
  process <- popen installer_command ;;
  let timeout := 300 in
  start <- get_state ;;
  let start_time := clock start in
  left <- wait_for_installer 300 process start_time timeout ;;
  match left with
  | (LoopReturn, process') => ret (Some process')
  | (LoopEnd, process') =>
      st' <- get_state ;;
      process'' <-
        (if running process' (clock st') then proc_terminate process'
         else ret process') ;;
      unlink_path mt5_installer ;;
      ret (Some process'')
  end.

(** [install_mt5]; [None] when no installer was started. *)
Definition install_mt5 (settings : Settings) : M (option Proc) :=
  st <- get_state ;;
  if kill_now st then ret None
  else
    let mt5_exe := mt5_exe_path settings in
    if path_exists (fs st) mt5_exe then ret None
    else
      version <- get_wine_version settings ;;
      run_command (reg_add_command version) true false ;;
      downloaded <- download_file settings (mt5_download_url settings)
                      mt5_installer None ;;
      if (downloaded : bool) then run_installer else ret None.

(** The body of the loop of [cleanup] for one tracked handle. *)
Definition cleanup_one (process : Proc) : M Proc :=
  st <- get_state ;;
  if running process (clock st) then
    process' <- proc_terminate process ;;
    try_except
      (proc_wait process' (seconds 5) ;; ret process')
      (fun e => match e with TimeoutExpired => true | _ => false end)
      (fun _ => proc_kill process')
  else ret process.

Fixpoint cleanup_each (ps : list Proc) : M (list Proc) :=
  match ps with
  | [] => ret []
  | process :: rest =>
      process' <- cleanup_one process ;;
      rest' <- cleanup_each rest ;;
      ret (process' :: rest')
  end.

(** [cleanup]: [for process in self.processes: ...] *)
Definition cleanup : M unit :=
  st <- get_state ;;
  ps <- cleanup_each (processes st) ;;
  modify (set_processes ps).

(** *** The other installation steps *)

(** [Path(wine_prefix) / "drive_c" / "windows" / "mono"], the marker of an
    installed Mono; it is looked up like any other directory entry. *)
Definition mono_path (settings : Settings) : string :=
  path_join (path_join (path_join (wine_prefix settings) "drive_c")
    "windows") "mono".

Definition mono_installer : string := "/tmp/mono.msi".
Definition msiexec_command : list string :=
  ["wine"; "msiexec"; "/i"; mono_installer; "/qn"].

(** [install_mono] *)
Definition install_mono (settings : Settings) : M unit :=
  st <- get_state ;;
  if kill_now st then ret tt
  else if path_exists (fs st) (mono_path settings) then ret tt
  else
    downloaded <- download_file settings (mono_url settings)
                    mono_installer None ;;
    if (downloaded : bool) then
      run_command msiexec_command false false ;;
      unlink_path mono_installer
    else ret tt.

Definition python_probe : list string := ["wine"; "python"; "--version"].
Definition python_installer : string := "/tmp/python-installer.exe".
Definition python_setup_command : list string :=
  ["wine"; python_installer; "/quiet"; "InstallAllUsers=1"; "PrependPath=1"].
Definition pip_upgrade_command : list string :=
  ["wine"; "python"; "-m"; "pip"; "install"; "--upgrade"; "pip"].

(** [result and result.returncode == 0] *)
Definition probe_succeeded (result : cmd_result) : bool :=
  match result with
  | Completed r => returncode r =? 0
  | _ => false
  end.

(** [install_python_wine].  The [try] around the probe has a bare
    [except: pass], which absorbs every exception; [true] from that block
    stands for the [return] inside it. *)
Definition install_python_wine (settings : Settings) : M unit :=
  st <- get_state ;;
  if kill_now st then ret tt
  else
    installed <-
      try_except
        (result <- run_command python_probe false false ;;
         ret (probe_succeeded result))
        (fun _ => true)
        (fun _ => ret false) ;;
    if (installed : bool) then ret tt
    else
      downloaded <- download_file settings (python_url settings)
                      python_installer None ;;
      if (downloaded : bool) then
        run_command python_setup_command false false ;;
        unlink_path python_installer ;;
        run_command pip_upgrade_command false false ;;
        ret tt
      else ret tt.

Definition wine_pip_command (package : string) : list string :=
  ["wine"; "python"; "-m"; "pip"; "install"; "--no-cache-dir"; package].
Definition pip3_command (package : string) : list string :=
  ["pip3"; "install"; "--no-cache-dir"; package].

(** [for package in self.settings.required_packages: ...] *)
Fixpoint install_packages_loop (packages : list string) : M unit :=
  match packages with
  | [] => ret tt
  | package :: rest =>
      st <- get_state ;;
      if kill_now st then ret tt
      else
        run_command (wine_pip_command package) false false ;;
        run_command (pip3_command package) false false ;;
        install_packages_loop rest
  end.

(** [install_python_packages] *)
Definition install_python_packages (settings : Settings) : M unit :=
  st <- get_state ;;
  if kill_now st then ret tt
  else install_packages_loop (required_packages settings).

(** [start_mt5] *)
Definition start_mt5 (settings : Settings) : M unit :=
  st <- get_state ;;
  if kill_now st then ret tt
  else if path_exists (fs st) (mt5_exe_path settings) then
    run_command ["wine"; mt5_exe_path settings] true true ;;
    ret tt
  else ret tt.

Definition server_command (settings : Settings) : list string :=
  ["python3"; "-m"; "mt5linux"; "--host"; "0.0.0.0";
   "-p"; pretty (mt5_port settings); "-w"; "wine"; "python.exe"].
Definition ss_command : list string := ["ss"; "-tuln"].

(** [start_mt5_server].  The test on [result.stdout] only selects a log
    line. *)
Definition start_mt5_server (settings : Settings) : M unit :=
  st <- get_state ;;
  if kill_now st then ret tt
  else
    run_command (server_command settings) true true ;;
    advance (seconds 5) ;;
    run_command ss_command false false ;;
    ret tt.

(** *** The pipeline *)

(** [try: body finally: final]: [final] runs whether [body] returned or
    raised, and what it raises itself takes over. *)
Definition try_finally {A} (body : M A) (final : M unit) : M A :=
  fun st =>
    match body st with
    | (st1, Diverged) => (st1, Diverged)
    | (st1, o) =>
        match final st1 with
        | (st2, Return _) => (st2, o)
        | (st2, Raise e) => (st2, Raise e)
        | (st2, Diverged) => (st2, Diverged)
        end
    end.

(** [steps] in [run]; [install_mt5] hands back no value there. *)
Definition steps (settings : Settings) : list (M unit) :=
  [ install_mono settings;
    (install_mt5 settings ;; ret tt);
    install_python_wine settings;
    install_python_packages settings;
    start_mt5 settings;
    start_mt5_server settings ].

(** [for step in steps: if self.killer.kill_now: break; step()] *)
Fixpoint run_steps (todo : list (M unit)) : M unit :=
  match todo with
  | [] => ret tt
  | step :: rest =>
      st <- get_state ;;
      if kill_now st then ret tt
      else step ;; run_steps rest
  end.

(** [while not self.killer.kill_now: time.sleep(1)]; [budget] bounds the
    iterations of the embedding. *)
Fixpoint idle_loop (budget : nat) : M unit :=
  fun st =>
    if negb (kill_now st) then
      match budget with
      | O => (st, Diverged)
      | S budget' => (advance (seconds 1) ;; idle_loop budget') st
      end
    else (st, Return tt).

(** [self.settings.dict()], whose result is only logged; an object
    without the method raises AttributeError. *)
Definition settings_dict (settings : Settings) : M unit :=
  if dict_method settings then ret tt else raise AttributeError.

(** [run]; [except Exception as e: ...; raise] logs and raises again. *)
Definition run (settings : Settings) (budget : nat) : M unit :=
  try_finally
    (try_except
       (settings_dict settings ;;
        mkdir_parents (wine_prefix settings) ;;
        run_steps (steps settings) ;;
        st <- get_state ;;
        if negb (kill_now st) then idle_loop budget else ret tt)
       is_Exception
       (fun e => raise e))
    cleanup.

(** *** Notions used to state the properties *)

(** The locator [url] has a cache entry for [dest_path] of age [age]: the
    cached file is present, and the metadata record is there, parses to a
    non-empty object and carries a naive ISO timestamp, [age] before now. *)
Definition cache_entry (st : State) (url dest_path : string) (age : Z) : Prop :=
  path_exists (fs st) (cache_path dest_path) = true /\
  exists text meta ts t,
    file_content (fs st) (meta_path url) = Some text /\
    json_load text = Some meta /\
    truthy meta = true /\
    py_get meta "timestamp" (JStr EmptyString) = Return (JStr ts) /\
    fromisoformat ts = Some t /\
    aware t = false /\
    age = clock st - ticks t.

End Installer.

(** ** Summaries of a transfer *)

(** What the chunk loop makes of a body, starting with the flag [killed]
    and [acc] already in the file. *)
Inductive transfer : Type :=
  | Finished (content : string)   (* the loop ran to its end *)
  | Cancelled (partial : string)  (* a flag check stopped it *)
  | Broken (partial : string) (e : exn).   (* the loop raised *)

Fixpoint transfer_of (killed : bool) (acc : string)
    (items : list stream_item) : transfer :=
  match items with
  | [] => Finished acc
  | Signal :: rest => transfer_of true acc rest
  | StreamError :: _ => Broken acc ChunkedEncodingError
  | WriteError :: _ => if killed then Cancelled acc else Broken acc OSError
  | Chunk data :: rest =>
      if killed then Cancelled acc
      else transfer_of false
             (if String.eqb data EmptyString then acc else acc +:+ data) rest
  end.

(** The flag when the loop is left. *)
Fixpoint flag_after (killed : bool) (items : list stream_item) : bool :=
  match items with
  | [] => killed
  | Signal :: rest => flag_after true rest
  | StreamError :: _ => killed
  | WriteError :: _ => killed
  | Chunk _ :: rest => if killed then true else flag_after false rest
  end.

(** The state when the loop is left: the flag, and what the handle [ino]
    has written. *)
Definition after_transfer (st : State) (ino : nat) (flag : bool)
    (written : string) : State :=
  set_kill flag
    (set_fs (mkFS (names (fs st)) (<[ino := written]> (inodes (fs st)))) st).

(** A signal arrives at some point of the body. *)
Definition signalled (items : list stream_item) : bool :=
  existsb (fun i => match i with Signal => true | _ => false end) items.

(** The response passes [raise_for_status] and the [int()] of its
    content-length header. *)
Definition http_ok (r : response) : bool :=
  negb ((400 <=? status_code r) && (status_code r <? 600)) &&
  match content_length r with Some None => false | _ => true end.

(** [p] and [q] name the same file: the same path, or hard links of one
    inode. *)
Definition same_file (f : FS) (p q : string) : bool :=
  String.eqb p q ||
  match names f !! p, names f !! q with
  | Some i, Some j => Nat.eqb i j
  | _, _ => false
  end.

(** ** A small concrete world, for evaluating the embedding *)

(** The digests are the identity, so two contents have the same digest
    exactly when they are equal. *)
Definition ex_sha256 (content : string) : string := content.
Definition ex_md5 (url : string) : string := url.

(** Metadata records are written as the timestamp, a space and the
    checksum; the timestamp is the decimal count of microseconds. *)
Fixpoint split_space (acc s : string) : option (string * string) :=
  match s with
  | EmptyString => None
  | String c rest =>
      if Ascii.eqb c " "%char then Some (acc, rest)
      else split_space (acc +:+ String c EmptyString) rest
  end.

Definition ex_json_load (text : string) : option json :=
  if String.eqb text "{}" then Some (JObj [])
  else
    match split_space EmptyString text with
    | Some (t, c) => Some (JObj [("timestamp", JStr t); ("checksum", JStr c)])
    | None => None
    end.

Definition ex_json_dump (j : json) : string :=
  match j with
  | JObj fields =>
      match obj_lookup fields "timestamp", obj_lookup fields "checksum" with
      | Some (JStr t), Some (JStr c) => t +:+ " " +:+ c
      | _, _ => "{}"
      end
  | _ => "null"
  end.

Definition ex_fromisoformat (s : string) : option datetime :=
  match NilZero.int_of_string s with
  | Some n => Some (mkDatetime (Z.of_int n) false)
  | None => None
  end.

Definition ex_isoformat (t : Z) : string := NilZero.string_of_int (Z.to_int t).

(** The concrete world: the server answers every request with status 200
    and the given body; no program can be started. *)
Definition ex_world (items : list stream_item) : World := {|
  sha256_hex := ex_sha256;
  md5_hex := ex_md5;
  json_load := ex_json_load;
  json_dump := ex_json_dump;
  fromisoformat := ex_fromisoformat;
  isoformat := ex_isoformat;
  server := fun _ _ => GetResponds (mkResponse 200 None items);
  run_oracle := fun _ => None;
  spawn_oracle := fun _ => None
|}.

(** A second concrete world, in which every program can be started: the
    version probe of Python exits with code 0, every other command with
    code 1 after one second; a spawned child runs until it is signalled
    and needs two seconds to exit on SIGTERM. *)
Definition ex_tools_world (items : list stream_item) : World := {|
  sha256_hex := ex_sha256;
  md5_hex := ex_md5;
  json_load := ex_json_load;
  json_dump := ex_json_dump;
  fromisoformat := ex_fromisoformat;
  isoformat := ex_isoformat;
  server := fun _ _ => GetResponds (mkResponse 200 None items);
  run_oracle := fun cmd =>
    Some (mkRun (if bool_decide (cmd = python_probe) then 0 else 1)
                EmptyString EmptyString (seconds 1));
  spawn_oracle := fun _ => Some (None, Some (seconds 2))
|}.

(** A third concrete world, in which the server gives the same given
    answer to every request and no program can be started. *)
Definition ex_server_world (answer : http_outcome) : World := {|
  sha256_hex := ex_sha256;
  md5_hex := ex_md5;
  json_load := ex_json_load;
  json_dump := ex_json_dump;
  fromisoformat := ex_fromisoformat;
  isoformat := ex_isoformat;
  server := fun _ _ => answer;
  run_oracle := fun _ => None;
  spawn_oracle := fun _ => None
|}.

(** A fourth concrete world, in which every command exits with code 0
    after one second, a spawned child exits on its own after 42 seconds,
    and the server sends two bytes. *)
Definition ex_installer_world : World := {|
  sha256_hex := ex_sha256;
  md5_hex := ex_md5;
  json_load := ex_json_load;
  json_dump := ex_json_dump;
  fromisoformat := ex_fromisoformat;
  isoformat := ex_isoformat;
  server := fun _ _ => GetResponds (mkResponse 200 None [Chunk "MZ"]);
  run_oracle := fun _ => Some (mkRun 0 EmptyString EmptyString (seconds 1));
  spawn_oracle := fun _ => Some (Some (seconds 42), None)
|}.

(** A file system holding the downloaded installer only. *)
Definition ex_installer_fs : FS :=
  mkFS {[ "/tmp/mt5setup.exe" := 0%nat ]} {[ 0%nat := "MZ" ]}.

(** A fifth concrete world, with two locators for one artifact: the
    server sends the genuine content for [M] and another body for every
    other locator. *)
Definition ex_mirror_world : World := {|
  sha256_hex := ex_sha256;
  md5_hex := ex_md5;
  json_load := ex_json_load;
  json_dump := ex_json_dump;
  fromisoformat := ex_fromisoformat;
  isoformat := ex_isoformat;
  server := fun url _ =>
    GetResponds (mkResponse 200 None
      [Chunk (if String.eqb url "M" then "payload" else "tampered")]);
  run_oracle := fun _ => None;
  spawn_oracle := fun _ => None
|}.

(** A Wine prefix of [DefaultSettings] with the marker of Mono, and one
    with the terminal as well. *)
Definition ex_mono_fs : FS :=
  mkFS {[ "/config/.wine/drive_c/windows/mono" := 0%nat ]}
       {[ 0%nat := EmptyString ]}.
Definition ex_provisioned_fs : FS :=
  mkFS {[ "/config/.wine/drive_c/windows/mono" := 0%nat;
          "/config/.wine/drive_c/Program Files/MetaTrader 5/terminal64.exe" := 1%nat ]}
       {[ 0%nat := EmptyString; 1%nat := "MZ" ]}.

(** A state in which a signal is due at time [t]. *)
Definition ex_signal_state (t : Z) (f : FS) : State :=
  mkState false (Some t) 0 f [] [] [] ∅.

(** [DefaultSettings] with a Wine version, as an imported configuration
    would give it. *)
Definition ex_configured_settings : Settings :=
  mkSettings (wine_prefix DefaultSettings) (mt5_port DefaultSettings)
    (log_level DefaultSettings) (max_retries DefaultSettings)
    (download_timeout DefaultSettings) (cache_enabled DefaultSettings)
    (cache_ttl_days DefaultSettings) (mono_url DefaultSettings)
    (python_url DefaultSettings) (mt5_download_url DefaultSettings)
    (required_packages DefaultSettings) (Some "win10")
    (dict_method DefaultSettings).

(** [DefaultSettings] with another cache TTL. *)
Definition with_cache_ttl_days (d : Z) (s : Settings) : Settings :=
  mkSettings (wine_prefix s) (mt5_port s) (log_level s) (max_retries s)
    (download_timeout s) (cache_enabled s) d (mono_url s) (python_url s)
    (mt5_download_url s) (required_packages s) (wine_version s)
    (dict_method s).

(** A cache directory holding the cached file of destination [x] and a
    metadata record for the locator [L] with the given text. *)
Definition ex_cached_fs (meta_text : string) : FS :=
  mkFS {[ "/config/.cache/x" := 0%nat; "/config/.cache/L.meta" := 1%nat ]}
       {[ 0%nat := "payload"; 1%nat := meta_text ]}.


(** Three tracked handles at time 0, started at time -9: one whose child
    ended at time -1,
    one that exits two seconds after SIGTERM, one that ignores SIGTERM. *)
Definition ex_processes : list Proc :=
  [ mkProc ["gone"] (-9) (Some (-1)) None None None [];
    mkProc ["polite"] (-9) None (Some (seconds 2)) None None [];
    mkProc ["stubborn"] (-9) None None None None [] ].

(** [download_file] in this world. *)
Definition ex_download (items : list stream_item) :=
  @download_file (ex_world items).

(** A state with the given clock and files, nothing requested or started. *)
Definition ex_state (t : Z) (f : FS) : State :=
  mkState false None t f [] [] [] ∅.

(** A computation that, from every state, returns or raises an exception
    of class [Exception]: what [except Exception] can absorb. *)
Definition raises_only_Exception {A} (c : M A) : Prop :=
  forall st,
    match (c st).2 with
    | Return _ => True
    | Raise e => is_Exception e = true
    | Diverged => False
    end.

(** A computation that starts no command and leaves the tracked handles
    alone. *)
Definition starts_nothing {A} (c : M A) : Prop :=
  forall st,
    commands (c st).1 = commands st /\ processes (c st).1 = processes st /\
    clock (c st).1 = clock st.

(** A computation that never clears the cancellation flag. *)
Definition keeps_flag {A} (c : M A) : Prop :=
  forall st, kill_now st = true -> kill_now (c st).1 = true.

(** * Properties *)

Section Properties.

Context {W : World}.

(** ** Which exceptions the download manager can raise *)

Lemma roe_ret {A} (a : A) : raises_only_Exception (ret a).
Proof. intros st. exact I. Qed.

Lemma roe_raise {A} (e : exn) :
  is_Exception e = true -> raises_only_Exception (@raise A e).
Proof. intros H st. exact H. Qed.

Lemma roe_bind {A B} (c : M A) (k : A -> M B) :
  raises_only_Exception c ->
  (forall a, raises_only_Exception (k a)) ->
  raises_only_Exception (bind c k).
Proof.
  intros Hc Hk st. unfold bind. specialize (Hc st).
  destruct (c st) as [st' [a | e |]]; simpl in *; [apply Hk | done | done].
Qed.

Lemma roe_get_state : raises_only_Exception get_state.
Proof. intros st. exact I. Qed.

Lemma roe_modify (f : State -> State) : raises_only_Exception (modify f).
Proof. intros st. exact I. Qed.

Lemma roe_lift {A} (o : outcome A) :
  match o with
  | Return _ => True
  | Raise e => is_Exception e = true
  | Diverged => False
  end ->
  raises_only_Exception (lift o).
Proof. intros H st. exact H. Qed.

Lemma roe_calculate_checksum p :
  raises_only_Exception (_calculate_checksum p).
Proof. intros st. unfold _calculate_checksum. by destruct (file_content _ _). Qed.

Lemma roe_get_cache_metadata url :
  raises_only_Exception (_get_cache_metadata url).
Proof.
  intros st. unfold _get_cache_metadata.
  destruct (file_content _ _); [destruct (json_load _) |]; done.
Qed.

Lemma roe_write_chunks ino items : raises_only_Exception (write_chunks ino items).
Proof.
  induction items as [| [data | | |] rest IH]; simpl.
  - apply roe_ret.
  - apply roe_bind; [apply roe_get_state |]. intros st.
    destruct (kill_now st); [apply roe_ret |].
    apply roe_bind; [| intros _; exact IH].
    destruct (String.eqb data EmptyString); [apply roe_ret | apply roe_modify].
  - apply roe_bind; [apply roe_modify | intros _; exact IH].
  - by apply roe_raise.
  - apply roe_bind; [apply roe_get_state |]. intros st.
    destruct (kill_now st); [apply roe_ret | by apply roe_raise].
Qed.

Lemma roe_use_cache url dest_path :
  raises_only_Exception (use_cache url dest_path).
Proof.
  unfold use_cache.
  apply roe_bind; [apply roe_get_cache_metadata | intros meta].
  apply roe_bind; [apply roe_get_state | intros st].
  destruct (path_exists _ _ && truthy meta); [| apply roe_ret].
  apply roe_bind; [apply roe_lift; by destruct meta | intros ts].
  apply roe_bind.
  { unfold datetime_fromisoformat.
    destruct ts; try (by apply roe_raise).
    destruct (fromisoformat s); [apply roe_ret | by apply roe_raise]. }
  intros t. apply roe_bind; [apply roe_get_state | intros now].
  apply roe_bind.
  { apply roe_lift. unfold datetime_sub. by destruct (aware t). }
  intros age. destruct (age <? _); [| apply roe_ret].
  apply roe_bind; [| intros _; apply roe_ret].
  intros s. unfold rename_path. by destruct (rename _ _ _).
Qed.

Lemma roe_verify_and_store url dest_path expected :
  raises_only_Exception (verify_and_store url dest_path expected).
Proof.
  unfold verify_and_store.
  apply roe_bind.
  { unfold _verify_checksum. destruct (py_or _ _) as [h |]; [| apply roe_ret].
    destruct (String.eqb h EmptyString); [apply roe_ret |].
    apply roe_bind; [apply roe_calculate_checksum | intros; apply roe_ret]. }
  intros ok. destruct ok; simpl.
  - apply roe_bind.
    { intros st. unfold link_path. by destruct (link_to _ _ _) as [[|] |]. }
    intros _. apply roe_bind; [apply roe_get_state | intros now].
    apply roe_bind; [apply roe_calculate_checksum | intros cs].
    apply roe_bind; [apply roe_modify | intros; apply roe_ret].
  - apply roe_bind; [| intros; apply roe_ret].
    intros st. unfold unlink_path. by destruct (unlink _ _).
Qed.

Lemma roe_fetch_and_store settings url dest_path expected :
  raises_only_Exception (fetch_and_store settings url dest_path expected).
Proof.
  unfold fetch_and_store.
  apply roe_bind.
  { intros st. unfold session_get. by destruct (server _ _). }
  intros r. apply roe_bind.
  { unfold raise_for_status. destruct (_ && _); [by apply roe_raise | apply roe_ret]. }
  intros _. apply roe_bind.
  { unfold total_size_of. destruct (content_length r) as [[n |] |];
      [apply roe_ret | by apply roe_raise | apply roe_ret]. }
  intros _. apply roe_bind.
  { intros st. unfold open_dest. by destruct (open_trunc _ _). }
  intros ino. apply roe_bind; [apply roe_write_chunks | intros [b |]];
    [apply roe_ret | apply roe_verify_and_store].
Qed.

Lemma roe_download_file_body settings url dest_path expected :
  raises_only_Exception (download_file_body settings url dest_path expected).
Proof.
  unfold download_file_body.
  apply roe_bind; [apply roe_get_state | intros st].
  destruct (kill_now st); [apply roe_ret |].
  apply roe_bind; [apply roe_use_cache | intros used].
  destruct used; [apply roe_ret | apply roe_fetch_and_store].
Qed.

(** C8.  Every call of [download_file] returns a boolean: whatever the
    state of the cache, the answer of the server, the body stream and the
    files involved, the call neither lets an exception out nor fails to
    return. *)
Theorem download_file_returns_bool settings url dest_path expected st :
  exists b st', download_file settings url dest_path expected st = (st', Return b).
Proof.
  unfold download_file, try_except.
  pose proof (roe_download_file_body settings url dest_path expected st) as H.
  destruct (download_file_body _ _ _ _ st) as [st' [b | e |]]; simpl in H.
  - by exists b, st'.
  - rewrite H. by exists false, st'.
  - done.
Qed.

(** C7.  With the cancellation flag set when the fetch begins,
    [download_file] returns [False] and leaves the whole state as it was:
    no request is added, no file or directory entry changes. *)
Theorem download_file_cancelled_at_start settings url dest_path expected st :
  kill_now st = true ->
  download_file settings url dest_path expected st = (st, Return false).
Proof.
  intros Hk.
  unfold download_file, try_except, download_file_body, bind, get_state.
  by rewrite Hk.
Qed.

(** ** The chunk loop *)

Lemma write_chunks_transfer ino items : forall st acc,
  inodes (fs st) !! ino = Some acc ->
  write_chunks ino items st =
  (after_transfer st ino (flag_after (kill_now st) items)
     match transfer_of (kill_now st) acc items with
     | Finished c | Cancelled c | Broken c _ => c
     end,
   match transfer_of (kill_now st) acc items with
   | Finished _ => Return None
   | Cancelled _ => Return (Some false)
   | Broken _ e => Raise e
   end).
Proof.
  assert (Hid : forall st acc, inodes (fs st) !! ino = Some acc ->
            after_transfer st ino (kill_now st) acc = st).
  { intros [k sg c [nm ind] rq cm ps ds] acc H. simpl in H.
    unfold after_transfer, set_kill, set_fs. simpl. by rewrite insert_id. }
  induction items as [| [data | | |] rest IH]; intros st acc Hacc; simpl.
  - unfold ret. by rewrite Hid.
  - unfold bind, get_state. destruct (kill_now st) eqn:Hk.
    + unfold ret. by rewrite <- Hk, Hid.
    + destruct (String.eqb data EmptyString).
      * unfold ret. rewrite (IH st acc Hacc), Hk. done.
      * unfold modify.
        rewrite (IH _ (acc +:+ data)).
        2:{ simpl. unfold inode_content. rewrite Hacc. simpl.
            apply lookup_insert_eq. }
        simpl. rewrite Hk. f_equal.
        unfold after_transfer, set_kill, set_fs. simpl.
        by rewrite insert_insert_eq.
  - unfold bind, modify.
    rewrite (IH (set_kill true st) acc Hacc). simpl. done.
  - unfold raise. by rewrite Hid.
  - unfold bind, get_state. destruct (kill_now st) eqn:Hk.
    + unfold ret. by rewrite <- Hk, Hid.
    + unfold raise. by rewrite <- Hk, Hid.
Qed.

(** ** The cache block *)

Lemma use_cache_hit url dest_path st age :
  cache_entry st url dest_path age ->
  age < timedelta_days 7 ->
  exists f', rename (fs st) (cache_path dest_path) dest_path = Some f' /\
             use_cache url dest_path st = (set_fs f' st, Return true).
Proof.
  intros (Hex & text & meta & ts & t & Htext & Hload & Htruthy & Hget & Hiso & Hnaive & Hage) Hlt.
  assert (Hren : is_Some (rename (fs st) (cache_path dest_path) dest_path)).
  { unfold rename. unfold path_exists in Hex. apply bool_decide_eq_true in Hex.
    destruct Hex as [i ->]. by destruct (bool_decide _). }
  destruct Hren as [f' Hren]. exists f'. split; [done |].
  unfold use_cache, bind, _get_cache_metadata, get_state.
  rewrite Htext, Hload, Hex, Htruthy. simpl.
  unfold lift. rewrite Hget. unfold datetime_fromisoformat. rewrite Hiso.
  unfold ret, datetime_sub. rewrite Hnaive.
  assert (Hb : (clock st - ticks t <? timedelta_days 7) = true) by (apply Z.ltb_lt; lia).
  rewrite Hb. unfold rename_path. by rewrite Hren.
Qed.

Lemma use_cache_expired url dest_path st age :
  cache_entry st url dest_path age ->
  timedelta_days 7 <= age ->
  use_cache url dest_path st = (st, Return false).
Proof.
  intros (Hex & text & meta & ts & t & Htext & Hload & Htruthy & Hget & Hiso & Hnaive & Hage) Hge.
  unfold use_cache, bind, _get_cache_metadata, get_state.
  rewrite Htext, Hload, Hex, Htruthy. simpl.
  unfold lift. rewrite Hget. unfold datetime_fromisoformat. rewrite Hiso.
  unfold ret, datetime_sub. rewrite Hnaive.
  assert (Hb : (clock st - ticks t <? timedelta_days 7) = false) by (apply Z.ltb_ge; lia).
  by rewrite Hb.
Qed.


(** ** The download *)

Lemma fresh_inode_unused f q : names f !! q <> Some (fresh_inode f).
Proof.
  intros H. apply (is_fresh (map_img (names f) : gset nat)).
  apply elem_of_map_img. by exists q.
Qed.

(** What [open(p, 'wb')] does to the directory and the inodes. *)
Lemma open_trunc_spec f p f1 ino :
  open_trunc f p = (f1, ino) ->
  names f1 !! p = Some ino /\
  inodes f1 = <[ino := EmptyString]> (inodes f) /\
  ((names f !! p = Some ino /\ names f1 = names f) \/
   (names f !! p = None /\ names f1 = <[p := ino]> (names f) /\
    forall q, names f !! q <> Some ino)).
Proof.
  unfold open_trunc. destruct (names f !! p) as [i |] eqn:Hp;
    intros [= <- <-]; simpl.
  - split; [done |]. split; [done |]. by left.
  - split; [apply lookup_insert_eq |]. split; [done |]. right.
    split; [done |]. split; [done |]. apply fresh_inode_unused.
Qed.

(** [fetch_and_store] up to the end of the chunk loop, for a server that
    answers with an acceptable response. *)
Lemma fetch_and_store_run settings url dest_path expected st r f1 ino :
  server url (download_timeout settings) = GetResponds r ->
  http_ok r = true ->
  open_trunc (fs st) dest_path = (f1, ino) ->
  fetch_and_store settings url dest_path expected st =
  let st2 c :=
    after_transfer (set_fs f1 (set_requests (requests st ++ [url]) st)) ino
      (flag_after (kill_now st) (body r)) c in
  match transfer_of (kill_now st) EmptyString (body r) with
  | Finished c => verify_and_store url dest_path expected (st2 c)
  | Cancelled c => (st2 c, Return false)
  | Broken c e => (st2 c, Raise e)
  end.
Proof.
  intros Hsrv Hok Hopen.
  apply andb_true_iff in Hok as [Hstatus Hlen].
  apply negb_true_iff in Hstatus.
  destruct (open_trunc_spec _ _ _ _ Hopen) as (_ & Hino & _).
  unfold fetch_and_store, bind at 1, session_get. rewrite Hsrv.
  unfold bind at 1, raise_for_status. rewrite Hstatus. unfold ret at 1.
  unfold bind at 1.
  assert (Hts : exists n, total_size_of r = ret n).
  { unfold total_size_of. destruct (content_length r) as [[n |] |]; eauto. done. }
  destruct Hts as [n ->]. unfold ret at 1.
  unfold bind at 1, open_dest. simpl. rewrite Hopen.
  unfold bind at 1.
  rewrite (write_chunks_transfer ino (body r) _ EmptyString).
  2:{ simpl. rewrite Hino. apply lookup_insert_eq. }
  simpl. by destruct (transfer_of _ _ _).
Qed.

Lemma transfer_cancelled_flag items : forall killed acc c,
  transfer_of killed acc items = Cancelled c -> flag_after killed items = true.
Proof.
  induction items as [| [data | | |] rest IH]; intros killed acc c; simpl;
    [done | | apply IH | done | by destruct killed].
  destruct killed; [done | apply IH].
Qed.

Lemma transfer_cancelled_signalled items : forall acc c,
  transfer_of false acc items = Cancelled c -> signalled items = true.
Proof.
  induction items as [| [data | | |] rest IH]; intros acc c; simpl;
    [done | apply IH | done | done | done].
Qed.


(** The downloaded file, read back through the destination path. *)
Lemma after_transfer_content st f1 ino flag c p :
  names f1 !! p = Some ino ->
  file_content (fs (after_transfer (set_fs f1 st) ino flag c)) p = Some c.
Proof.
  intros Hp. unfold file_content, after_transfer. simpl. rewrite Hp. simpl.
  unfold inode_content. simpl. by rewrite lookup_insert_eq.
Qed.

(** Files other than the destination keep their name and content through
    [open] and the chunk loop. *)
Lemma after_transfer_frame f dest_path f1 ino st0 flag c p :
  open_trunc f dest_path = (f1, ino) ->
  same_file f dest_path p = false ->
  names (fs (after_transfer (set_fs f1 st0) ino flag c)) !! p = names f !! p /\
  file_content (fs (after_transfer (set_fs f1 st0) ino flag c)) p
    = file_content f p.
Proof.
  intros Hopen Hsame.
  unfold same_file in Hsame. apply orb_false_iff in Hsame as [Hne Hino].
  apply String.eqb_neq in Hne.
  destruct (open_trunc_spec _ _ _ _ Hopen) as (_ & Hinodes & Hnames).
  assert (Hp : names f1 !! p = names f !! p).
  { destruct Hnames as [[_ ->] | (_ & -> & _)]; [done |].
    by rewrite lookup_insert_ne. }
  split; [done |].
  unfold file_content. simpl. rewrite Hp.
  destruct (names f !! p) as [j |] eqn:Hj; [| done]. simpl. f_equal.
  assert (j <> ino).
  { destruct Hnames as [[Hd _] | (_ & _ & Hfresh)].
    - rewrite Hd in Hino. apply Nat.eqb_neq in Hino. congruence.
    - intros ->. by apply (Hfresh p). }
  unfold inode_content. simpl. rewrite Hinodes.
  by rewrite !lookup_insert_ne.
Qed.

(** An expected hash, once resolved, is never the empty string. *)
Lemma py_or_known_nonempty expected filename h :
  py_or expected (KNOWN_CHECKSUMS filename) = Some h ->
  String.eqb h EmptyString = false.
Proof.
  unfold py_or, KNOWN_CHECKSUMS.
  destruct expected as [s |].
  - destruct (String.eqb s EmptyString) eqn:Hs; [| by intros [= <-]].
    repeat case_match; by intros [= <-].
  - repeat case_match; by intros [= <-].
Qed.

Lemma download_file_miss settings url dest_path expected st :
  kill_now st = false ->
  use_cache url dest_path st = (st, Return false) ->
  download_file settings url dest_path expected st =
  try_except (fetch_and_store settings url dest_path expected) is_Exception
    (fun _ => ret false) st.
Proof.
  intros Hk Huse.
  unfold download_file, try_except, download_file_body, bind, get_state.
  by rewrite Hk, Huse.
Qed.

(** A download that ran to its end and whose digest differs from the
    resolved expected hash: what verification sees, and the final state. *)
Lemma download_file_mismatch
    settings url dest_path expected st r content h f1 ino :
  kill_now st = false ->
  use_cache url dest_path st = (st, Return false) ->
  server url (download_timeout settings) = GetResponds r ->
  http_ok r = true ->
  transfer_of false EmptyString (body r) = Finished content ->
  py_or expected (KNOWN_CHECKSUMS (path_name dest_path)) = Some h ->
  sha256_hex content <> h ->
  open_trunc (fs st) dest_path = (f1, ino) ->
  let st_v :=
    after_transfer (set_fs f1 (set_requests (requests st ++ [url]) st))
      ino (flag_after false (body r)) content in
  file_content (fs st_v) dest_path = Some content /\
  _verify_checksum dest_path (Some h) st_v = (st_v, Return false) /\
  download_file settings url dest_path expected st
  = (set_fs (mkFS (delete dest_path (names f1)) (inodes (fs st_v))) st_v,
     Return false).
Proof.
  intros Hk Huse Hsrv Hok Htr Hexp Hsha Hopen st_v.
  destruct (open_trunc_spec _ _ _ _ Hopen) as (Hdest & _ & _).
  pose proof (py_or_known_nonempty _ _ _ Hexp) as Hne.
  assert (Hcontent : file_content (fs st_v) dest_path = Some content).
  { subst st_v. apply (after_transfer_content _ f1). exact Hdest. }
  assert (Hverify : _verify_checksum dest_path (Some h) st_v
                    = (st_v, Return false)).
  { unfold _verify_checksum. rewrite Hne.
    unfold bind, _calculate_checksum. rewrite Hcontent. unfold ret.
    apply String.eqb_neq in Hsha. by rewrite Hsha. }
  split; [done |]. split; [done |].
  rewrite (download_file_miss _ _ _ _ _ Hk Huse). unfold try_except.
  rewrite (fetch_and_store_run _ _ _ _ _ _ _ _ Hsrv Hok Hopen), Hk, Htr.
  simpl. fold st_v.
  unfold verify_and_store, bind at 1. rewrite Hexp, Hverify. simpl.
  unfold bind, unlink_path, unlink.
  assert (Hd : names (fs st_v) !! dest_path = Some ino) by exact Hdest.
  by rewrite Hd.
Qed.

(** X25.  The path taken when the destination has no other name.  When a
    download ran to its end and the digest of what was written differs
    from the expected hash (given explicitly or found in the table of
    known checksums), verification of the downloaded file returns
    [False] and the fetch returns [False]; afterwards the destination
    path is gone and the directory is otherwise as before the fetch, and
    every path that does not name the destination file keeps its content:
    neither a cache file nor a metadata record has been created. *)
Theorem mismatching_download_removes_destination
    settings url dest_path expected st r content h :
  kill_now st = false ->
  use_cache url dest_path st = (st, Return false) ->
  server url (download_timeout settings) = GetResponds r ->
  http_ok r = true ->
  transfer_of false EmptyString (body r) = Finished content ->
  py_or expected (KNOWN_CHECKSUMS (path_name dest_path)) = Some h ->
  sha256_hex content <> h ->
  exists st_v st',
    file_content (fs st_v) dest_path = Some content /\
    _verify_checksum dest_path (Some h) st_v = (st_v, Return false) /\
    download_file settings url dest_path expected st = (st', Return false) /\
    names (fs st') = delete dest_path (names (fs st)) /\
    requests st' = requests st ++ [url] /\
    forall p, same_file (fs st) dest_path p = false ->
      file_content (fs st') p = file_content (fs st) p.
Proof.
  intros Hk Huse Hsrv Hok Htr Hexp Hsha.
  destruct (open_trunc (fs st) dest_path) as [f1 ino] eqn:Hopen.
  destruct (download_file_mismatch _ _ _ _ _ _ _ _ _ _
              Hk Huse Hsrv Hok Htr Hexp Hsha Hopen) as (Hcontent & Hverify & Hdl).
  destruct (open_trunc_spec _ _ _ _ Hopen) as (_ & _ & Hnames).
  eexists _, _. split; [exact Hcontent |]. split; [exact Hverify |].
  split; [exact Hdl |]. simpl.
  split; [| split; [done |]].
  - destruct Hnames as [[Hex ->] | (_ & -> & _)]; [done |].
    apply delete_insert_eq.
  - intros p Hp.
    destruct (after_transfer_frame (fs st) dest_path f1 ino
                (set_requests (requests st ++ [url]) st)
                (flag_after false (body r)) content p Hopen Hp)
      as [Hn Hc].
    unfold same_file in Hp. apply orb_false_iff in Hp as [Hne _].
    apply String.eqb_neq in Hne.
    unfold file_content in *. simpl in *.
    rewrite lookup_delete_ne by done. exact Hc.
Qed.

(** C3.  A fetch that finds an expired cache entry does issue a request,
    but then fails: with the download complete and verification passed,
    hard-linking the file into the cache raises because the cached file is
    already there, and [download_file] returns [False].  The old cached
    file stays under its name. *)
Theorem expired_entry_refetch_fails
    settings url dest_path expected st age r content :
  kill_now st = false ->
  cache_entry st url dest_path age ->
  timedelta_days 7 <= age ->
  server url (download_timeout settings) = GetResponds r ->
  http_ok r = true ->
  transfer_of false EmptyString (body r) = Finished content ->
  (py_or expected (KNOWN_CHECKSUMS (path_name dest_path)) = None \/
   py_or expected (KNOWN_CHECKSUMS (path_name dest_path))
     = Some (sha256_hex content)) ->
  exists st',
    download_file settings url dest_path expected st = (st', Return false) /\
    requests st' = requests st ++ [url] /\
    is_Some (names (fs st) !! cache_path dest_path) /\
    names (fs st') !! cache_path dest_path
      = names (fs st) !! cache_path dest_path.
Proof.
  intros Hk Hentry Hage Hsrv Hok Htr Hexp.
  pose proof (use_cache_expired _ _ _ _ Hentry Hage) as Huse.
  destruct Hentry as [Hcache _].
  unfold path_exists in Hcache. apply bool_decide_eq_true in Hcache.
  destruct Hcache as [ic Hic].
  destruct (open_trunc (fs st) dest_path) as [f1 ino] eqn:Hopen.
  destruct (open_trunc_spec _ _ _ _ Hopen) as (Hdest & _ & Hnames).
  assert (Hc1 : names f1 !! cache_path dest_path = Some ic).
  { destruct Hnames as [[_ ->] | (Hno & -> & _)]; [done |].
    rewrite lookup_insert_ne; [done |]. intros Heq. rewrite <- Heq in Hic.
    congruence. }
  set (st_v := after_transfer (set_fs f1 (set_requests (requests st ++ [url]) st))
                 ino (flag_after false (body r)) content).
  assert (Hcontent : file_content (fs st_v) dest_path = Some content).
  { subst st_v. apply (after_transfer_content _ f1). exact Hdest. }
  exists st_v.
  rewrite (download_file_miss _ _ _ _ _ Hk Huse). unfold try_except.
  rewrite (fetch_and_store_run _ _ _ _ _ _ _ _ Hsrv Hok Hopen), Hk, Htr.
  simpl. fold st_v.
  assert (Hverify : _verify_checksum dest_path
            (py_or expected (KNOWN_CHECKSUMS (path_name dest_path))) st_v
            = (st_v, Return true)).
  { destruct Hexp as [-> | Hsome]; [done |].
    pose proof (py_or_known_nonempty _ _ _ Hsome) as Hne. rewrite Hsome.
    unfold _verify_checksum. rewrite Hne.
    unfold bind, _calculate_checksum. rewrite Hcontent. unfold ret.
    by rewrite String.eqb_refl. }
  unfold verify_and_store, bind at 1. rewrite Hverify. simpl.
  unfold bind, link_path, link_to.
  assert (Hd : names (fs st_v) !! dest_path = Some ino) by exact Hdest.
  assert (Hc : names (fs st_v) !! cache_path dest_path = Some ic) by exact Hc1.
  rewrite Hd, Hc. simpl.
  split; [done |]. split; [done |]. split; [by eexists |].
  transitivity (Some ic); [exact Hc1 | done].
Qed.

(** C10, as amended.  When the flag becomes set during the chunk loop and
    a further chunk arrives after that, so that the check at the head of
    the loop sees it, [download_file] returns [False] straight from the
    loop: the outcome does not depend on the expected hash, the
    destination file holds what was written so far, and every path that
    does not name the destination file (in particular the cache file and
    the metadata record, unless the destination is one of them or a hard
    link to it) keeps its directory entry and its content. *)
Theorem cancelled_transfer_leaves_cache_alone
    settings url dest_path st r partial :
  kill_now st = false ->
  use_cache url dest_path st = (st, Return false) ->
  server url (download_timeout settings) = GetResponds r ->
  http_ok r = true ->
  transfer_of false EmptyString (body r) = Cancelled partial ->
  exists st',
    signalled (body r) = true /\
    (forall expected, download_file settings url dest_path expected st
                      = (st', Return false)) /\
    kill_now st' = true /\
    file_content (fs st') dest_path = Some partial /\
    forall p, same_file (fs st) dest_path p = false ->
      names (fs st') !! p = names (fs st) !! p /\
      file_content (fs st') p = file_content (fs st) p.
Proof.
  intros Hk Huse Hsrv Hok Htr.
  destruct (open_trunc (fs st) dest_path) as [f1 ino] eqn:Hopen.
  destruct (open_trunc_spec _ _ _ _ Hopen) as (Hdest & _ & _).
  exists (after_transfer (set_fs f1 (set_requests (requests st ++ [url]) st))
            ino true partial).
  split; [by eapply transfer_cancelled_signalled |].
  split.
  { intros expected.
    rewrite (download_file_miss _ _ _ _ _ Hk Huse). unfold try_except.
    rewrite (fetch_and_store_run _ _ _ _ _ _ _ _ Hsrv Hok Hopen), Hk, Htr.
    simpl. by rewrite (transfer_cancelled_flag _ _ _ _ Htr). }
  split; [done |].
  split; [by apply (after_transfer_content _ f1) |].
  intros p Hp. by apply (after_transfer_frame (fs st) dest_path).
Qed.

(** ** Cache hits *)

Lemma download_file_hit settings url dest_path expected st age :
  kill_now st = false ->
  cache_entry st url dest_path age ->
  age < timedelta_days 7 ->
  exists f', rename (fs st) (cache_path dest_path) dest_path = Some f' /\
    download_file settings url dest_path expected st = (set_fs f' st, Return true).
Proof.
  intros Hk Hentry Hlt.
  destruct (use_cache_hit url dest_path st age Hentry Hlt) as (f' & Hren & Huse).
  exists f'. split; [done |].
  unfold download_file, try_except, download_file_body, bind, get_state.
  by rewrite Hk, Huse.
Qed.



(** C9.  The configured TTL is not consulted: an entry at least as old as
    the configured [cache_ttl_days] but younger than seven days is still
    served from the cache, with no request. *)
Theorem configured_ttl_is_ignored settings url dest_path expected st age :
  kill_now st = false ->
  cache_entry st url dest_path age ->
  timedelta_days (cache_ttl_days settings) <= age ->
  age < timedelta_days 7 ->
  exists st',
    download_file settings url dest_path expected st = (st', Return true) /\
    requests st' = requests st.
Proof.
  intros Hk Hentry _ Hlt.
  destruct (download_file_hit settings url dest_path expected st age Hk Hentry Hlt)
    as (f' & _ & Hdl).
  by exists (set_fs f' st).
Qed.

(** C4.  A metadata record that is there but does not parse makes the
    fetch fail: [download_file] returns [False] at once, with no request
    and no change to any file. *)
Theorem unparsable_metadata_fails_fetch settings url dest_path expected st text :
  kill_now st = false ->
  file_content (fs st) (meta_path url) = Some text ->
  json_load text = None ->
  download_file settings url dest_path expected st = (st, Return false).
Proof.
  intros Hk Htext Hload.
  unfold download_file, try_except, download_file_body, bind, get_state,
    use_cache, bind, _get_cache_metadata.
  by rewrite Hk, Htext, Hload.
Qed.

(** ** The installation step *)

(** C5.  With a settings object that has no [wine_version] attribute, as
    [DefaultSettings] has none, the executable absent and the flag clear,
    [install_mt5] raises AttributeError when it reads
    [settings.wine_version]: no command has been started, neither the one
    that sets the Wine version nor the installer, and nothing has been
    downloaded. *)
Theorem install_mt5_default_settings_raises settings st :
  wine_version settings = None ->
  kill_now st = false ->
  path_exists (fs st) (mt5_exe_path settings) = false ->
  install_mt5 settings st = (st, Raise AttributeError).
Proof.
  intros Hv Hk Hexe.
  unfold install_mt5, bind at 1, get_state. rewrite Hk, Hexe.
  unfold bind at 1, get_wine_version. by rewrite Hv.
Qed.

(** *** [download_file] starts no command *)

Lemma sn_ret {A} (a : A) : starts_nothing (ret a).
Proof. by intros st. Qed.

Lemma sn_raise {A} (e : exn) : starts_nothing (@raise A e).
Proof. by intros st. Qed.

Lemma sn_lift {A} (o : outcome A) : starts_nothing (lift o).
Proof. by intros st. Qed.

Lemma sn_get_state : starts_nothing get_state.
Proof. by intros st. Qed.

Lemma sn_bind {A B} (c : M A) (k : A -> M B) :
  starts_nothing c -> (forall a, starts_nothing (k a)) ->
  starts_nothing (bind c k).
Proof.
  intros Hc Hk st. unfold bind. specialize (Hc st).
  destruct (c st) as [st1 [a | e |]]; simpl in *; [| done | done].
  destruct (Hk a st1) as (-> & -> & ->). done.
Qed.

Lemma sn_try_except {A} (body : M A) isinstance (handler : exn -> M A) :
  starts_nothing body -> (forall e, starts_nothing (handler e)) ->
  starts_nothing (try_except body isinstance handler).
Proof.
  intros Hb Hh st. unfold try_except. specialize (Hb st).
  destruct (body st) as [st1 [a | e |]]; simpl in *; [done | | done].
  destruct (isinstance e); [| done].
  destruct (Hh e st1) as (-> & -> & ->). done.
Qed.

Lemma sn_write_chunks ino items : starts_nothing (write_chunks ino items).
Proof.
  induction items as [| [data | | |] rest IH]; simpl.
  - apply sn_ret.
  - apply sn_bind; [apply sn_get_state |]. intros st.
    destruct (kill_now st); [apply sn_ret |].
    apply sn_bind; [| intros _; exact IH].
    destruct (String.eqb data EmptyString); [apply sn_ret | by intros s].
  - apply sn_bind; [by intros s | intros _; exact IH].
  - apply sn_raise.
  - apply sn_bind; [apply sn_get_state |]. intros st.
    destruct (kill_now st); [apply sn_ret | apply sn_raise].
Qed.

Lemma sn_calculate_checksum p : starts_nothing (_calculate_checksum p).
Proof. intros st. unfold _calculate_checksum. by destruct (file_content _ _). Qed.

Lemma sn_use_cache url dest_path : starts_nothing (use_cache url dest_path).
Proof.
  unfold use_cache.
  apply sn_bind.
  { intros st. unfold _get_cache_metadata.
    destruct (file_content _ _); [destruct (json_load _) |]; done. }
  intros meta. apply sn_bind; [apply sn_get_state | intros st].
  destruct (path_exists _ _ && truthy meta); [| apply sn_ret].
  apply sn_bind; [apply sn_lift | intros ts].
  apply sn_bind.
  { unfold datetime_fromisoformat.
    destruct ts; try apply sn_raise.
    destruct (fromisoformat s); [apply sn_ret | apply sn_raise]. }
  intros t. apply sn_bind; [apply sn_get_state | intros now].
  apply sn_bind; [apply sn_lift | intros age].
  destruct (age <? _); [| apply sn_ret].
  apply sn_bind; [| intros _; apply sn_ret].
  intros s. unfold rename_path. by destruct (rename _ _ _).
Qed.

Lemma sn_verify_and_store url dest_path expected :
  starts_nothing (verify_and_store url dest_path expected).
Proof.
  unfold verify_and_store.
  apply sn_bind.
  { unfold _verify_checksum. destruct (py_or _ _) as [h |]; [| apply sn_ret].
    destruct (String.eqb h EmptyString); [apply sn_ret |].
    apply sn_bind; [apply sn_calculate_checksum | intros; apply sn_ret]. }
  intros ok. destruct ok; simpl.
  - apply sn_bind.
    { intros st. unfold link_path. by destruct (link_to _ _ _) as [[|] |]. }
    intros _. apply sn_bind; [apply sn_get_state | intros now].
    apply sn_bind; [apply sn_calculate_checksum | intros cs].
    apply sn_bind; [| intros; apply sn_ret].
    intros st. unfold _save_cache_metadata, write_text, modify. simpl.
    by destruct (open_trunc _ _).
  - apply sn_bind; [| intros; apply sn_ret].
    intros st. unfold unlink_path. by destruct (unlink _ _).
Qed.

Lemma sn_download_file settings url dest_path expected :
  starts_nothing (download_file settings url dest_path expected).
Proof.
  unfold download_file. apply sn_try_except; [| intros; apply sn_ret].
  unfold download_file_body.
  apply sn_bind; [apply sn_get_state | intros st].
  destruct (kill_now st); [apply sn_ret |].
  apply sn_bind; [apply sn_use_cache | intros used].
  destruct used; [apply sn_ret |].
  unfold fetch_and_store.
  apply sn_bind.
  { intros s. unfold session_get. by destruct (server _ _). }
  intros r. apply sn_bind.
  { unfold raise_for_status. destruct (_ && _); [apply sn_raise | apply sn_ret]. }
  intros _. apply sn_bind.
  { unfold total_size_of. destruct (content_length r) as [[n |] |];
      [apply sn_ret | apply sn_raise | apply sn_ret]. }
  intros _. apply sn_bind.
  { intros s. unfold open_dest. by destruct (open_trunc _ _). }
  intros ino. apply sn_bind; [apply sn_write_chunks | intros [b |]];
    [apply sn_ret | apply sn_verify_and_store].
Qed.

(** *** The waiting loop *)

(** The budget of 300 iterations is never exhausted, the loop is left at
    most 300 seconds after it was entered, and it hands back the handle
    as it was, or after [terminate()] when it returned on the flag. *)
Lemma wait_for_installer_total process start_time timeout :
  forall budget st k,
    clock st - start_time = seconds k ->
    timeout - k <= Z.of_nat budget ->
    exists st' left,
      wait_for_installer budget process start_time timeout st
        = (st', Return left) /\
      clock st <= clock st' /\
      (k <= timeout -> clock st' - start_time <= seconds timeout) /\
      commands st' = commands st /\
      (left = (LoopEnd, process) \/
       exists t, left = (LoopReturn, on_terminate process t)).
Proof.
  assert (Hadv : forall st, clock (advance (seconds 1) st).1 = clock st + seconds 1
                            /\ commands (advance (seconds 1) st).1 = commands st).
  { intros st. unfold advance, modify. simpl.
    destruct (signal_at st) as [s |]; [destruct (s <=? _) |]; done. }
  induction budget as [| budget IH]; intros st k Hk Hb; simpl.
  - assert (Hc : (clock st - start_time <? seconds timeout) = false).
    { apply Z.ltb_ge. rewrite Hk. unfold seconds. lia. }
    rewrite Hc. exists st, (LoopEnd, process).
    split; [done |]. split; [lia |].
    split; [intros; rewrite Hk; unfold seconds; lia |]. split; [done | by left].
  - destruct (clock st - start_time <? seconds timeout) eqn:Hc.
    + apply Z.ltb_lt in Hc.
      destruct (kill_now st).
      { eexists st, _. split; [reflexivity |]. split; [lia |].
        split; [intros; lia |]. split; [done |]. right. by eexists. }
      destruct (negb (running process (clock st))).
      { eexists st, _. split; [reflexivity |]. split; [lia |].
        split; [intros; lia |]. split; [done | by left]. }
      unfold bind. destruct (Hadv st) as [Hclock Hcmd].
      destruct (advance (seconds 1) st) as [st1 [[] | e |]] eqn:Ha;
        try (unfold advance, modify in Ha; discriminate Ha).
      simpl in Hclock, Hcmd.
      destruct (IH st1 (k + 1)) as (st' & left & Hrun & Hle & Hbound & Hcmds & Hleft).
      { rewrite Hclock. unfold seconds in *. lia. }
      { lia. }
      exists st', left. split; [done |].
      split; [unfold seconds in *; lia |].
      split; [| split; [congruence | done]].
      intros _. apply Hbound. rewrite Hk in Hc. unfold seconds in Hc. lia.
    + apply Z.ltb_ge in Hc.
      exists st, (LoopEnd, process).
      split; [done |]. split; [lia |].
      split; [intros; unfold seconds in *; lia |]. split; [done | by left].
Qed.

(** *** The step with a configured Wine version *)

Lemma bind_return {A B} (c : M A) (k : A -> M B) st st' a :
  c st = (st', Return a) -> bind c k st = k a st'.
Proof. intros H. unfold bind. by rewrite H. Qed.

Lemma bind_raise {A B} (c : M A) (k : A -> M B) st st' e :
  c st = (st', Raise e) -> bind c k st = (st', Raise e).
Proof. intros H. unfold bind. by rewrite H. Qed.

Lemma popen_spec cmd st :
  popen cmd st = (st, Raise FileNotFoundError) \/
  exists p,
    popen cmd st = (set_commands (commands st ++ [cmd]) st, Return p) /\
    args p = cmd /\ started_at p = clock st /\ calls p = [] /\
    term_at p = None /\ kill_at p = None.
Proof.
  unfold popen. destruct (spawn_oracle cmd) as [[runtime delay] |]; [| by left].
  right. eexists. split; [reflexivity |]. done.
Qed.

(** A foreground [run_command] with [check=True]: either the program
    could not be started and the call raised, or the command is the next
    entry of the log. *)
Lemma run_command_foreground_spec cmd st :
  kill_now st = false ->
  exists st1 o,
    run_command cmd true false st = (st1, o) /\
    o <> Diverged /\
    ((commands st1 = commands st /\ exists e, o = Raise e) \/
     commands st1 = commands st ++ [cmd]).
Proof.
  intros Hk.
  assert (Hadv : forall dt s, commands (advance dt s).1 = commands s).
  { intros dt s. unfold advance, modify. simpl.
    destruct (signal_at s) as [x |]; [destruct (x <=? _) |]; done. }
  unfold run_command, try_except, bind at 1, get_state. rewrite Hk.
  unfold subprocess_run. destruct (run_oracle cmd) as [r |].
  2:{ eexists _, _. split; [reflexivity |].
      split; [done |]. left. split; [done | by eexists]. }
  unfold bind at 1. unfold bind at 1. unfold modify at 1.
  unfold bind at 1.
  specialize (Hadv (took r) (set_commands (commands st ++ [cmd]) st)).
  destruct (advance (took r) (set_commands (commands st ++ [cmd]) st))
    as [st1 [[] | e |]] eqn:Ha;
    try (unfold advance, modify in Ha; discriminate Ha).
  simpl in Hadv.
  destruct (negb (returncode r =? 0)); simpl;
    eexists _, _; (split; [reflexivity |]); (split; [done |]); by right.
Qed.


(** The branch that runs the installer: it starts no command but the
    installer, never diverges, and when it hands back the handle at most
    300 seconds have passed since the installer was started and the child
    is gone or [terminate()] has been called on it. *)
Lemma run_installer_spec st :
  exists st' o,
    run_installer st = (st', o) /\
    o <> Diverged /\
    (commands st' = commands st \/
     commands st' = commands st ++ [installer_command]) /\
    forall p, o = Return (Some p) ->
      args p = installer_command /\
      clock st' - started_at p <= seconds 300 /\
      (running p (clock st') = false \/ calls p = [Terminate]).
Proof.
  unfold run_installer.
  destruct (popen_spec installer_command st) as [Hp | (p0 & Hp & Hargs & Hstart & Hcalls & _)].
  { rewrite (bind_raise _ _ _ _ _ Hp). eexists _, _. split; [reflexivity |].
    split; [done |]. split; [by left | done]. }
  rewrite (bind_return _ _ _ _ _ Hp).
  set (st1 := set_commands (commands st ++ [installer_command]) st).
  erewrite bind_return by reflexivity.
  destruct (wait_for_installer_total p0 (clock st1) 300 300%nat st1 0)
    as (st2 & left & Hrun & Hle & Hbound & Hcmd & Hleft);
    [unfold seconds; lia | lia |].
  rewrite (bind_return _ _ _ _ _ Hrun).
  assert (Hb : clock st2 - started_at p0 <= seconds 300).
  { rewrite Hstart. apply Hbound. lia. }
  destruct Hleft as [-> | [t ->]].
  - erewrite bind_return by reflexivity.
    assert (Hterm : exists p1,
              (if running p0 (clock st2) then proc_terminate p0 else ret p0) st2
                = (st2, Return p1) /\
              args p1 = installer_command /\ started_at p1 = started_at p0 /\
              (running p1 (clock st2) = false \/ calls p1 = [Terminate])).
    { destruct (running p0 (clock st2)) eqn:Hr.
      - eexists. split; [reflexivity |]. simpl. rewrite Hcalls. auto.
      - exists p0. split; [reflexivity |]. auto. }
    destruct Hterm as (p1 & Hp1 & Ha1 & Hs1 & Hd1).
    rewrite (bind_return _ _ _ _ _ Hp1).
    unfold bind, unlink_path. destruct (unlink (fs st2) mt5_installer) as [f |].
    + eexists _, _. split; [reflexivity |]. split; [done |].
      split; [right; exact Hcmd |].
      intros p [= <-]. simpl. rewrite Hs1. auto.
    + eexists _, _. split; [reflexivity |]. split; [done |].
      split; [right; exact Hcmd | done].
  - eexists _, _. split; [reflexivity |]. split; [done |].
    split; [right; exact Hcmd |].
    intros p [= <-]. simpl. rewrite Hcalls. auto.
Qed.

(** X24.  With a configured Wine version the step does what is asked of it: the
    command that sets the version, carrying the configured string, is
    started before the installer; the wait for the installer is bounded
    by 300 seconds, after which the installer is gone or has been sent
    [terminate()]. *)
Lemma install_mt5_configured settings version st :
  wine_version settings = Some version ->
  kill_now st = false ->
  path_exists (fs st) (mt5_exe_path settings) = false ->
  exists st' o,
    install_mt5 settings st = (st', o) /\
    o <> Diverged /\
    (commands st' = commands st \/
     commands st' = commands st ++ [reg_add_command version] \/
     commands st' = commands st ++ [reg_add_command version; installer_command]) /\
    forall p, o = Return (Some p) ->
      args p = installer_command /\
      clock st' - started_at p <= seconds 300 /\
      (running p (clock st') = false \/ calls p = [Terminate]).
Proof.
  intros Hv Hk Hexe. unfold install_mt5.
  erewrite bind_return by reflexivity. rewrite Hk, Hexe.
  erewrite bind_return by (unfold get_wine_version; rewrite Hv; reflexivity).
  destruct (run_command_foreground_spec (reg_add_command version) st Hk)
    as (st1 & o1 & Hrc & Hnd & Hcmd1).
  destruct o1 as [res | e |]; [| | done].
  2:{ rewrite (bind_raise _ _ _ _ _ Hrc). eexists _, _. split; [reflexivity |].
      split; [done |]. split; [| done].
      destruct Hcmd1 as [[-> _] | ->]; auto. }
  rewrite (bind_return _ _ _ _ _ Hrc).
  destruct Hcmd1 as [[_ [e He]] | Hcmd1]; [done |].
  assert (Hdl : exists b st2,
            download_file settings (mt5_download_url settings) mt5_installer None st1
              = (st2, Return b) /\ commands st2 = commands st1).
  { pose proof (sn_download_file settings (mt5_download_url settings)
                  mt5_installer None st1) as (Hc & _ & _).
    pose proof (roe_download_file_body settings (mt5_download_url settings)
                  mt5_installer None st1) as Hroe.
    unfold download_file, try_except in *.
    destruct (download_file_body _ _ _ _ st1) as [st2 [b | e |]]; simpl in Hroe.
    - by exists b, st2.
    - rewrite Hroe in *. by exists false, st2.
    - done. }
  destruct Hdl as (b & st2 & Hdl & Hcmd2).
  rewrite (bind_return _ _ _ _ _ Hdl).
  destruct b.
  - destruct (run_installer_spec st2) as (st' & o & Hri & Hnd' & Hcmd3 & Hp).
    exists st', o. split; [done |]. split; [done |]. split; [| done].
    rewrite Hcmd2, Hcmd1 in Hcmd3.
    destruct Hcmd3 as [-> | ->]; [auto |].
    right. right. by rewrite <- app_assoc.
  - eexists _, _. split; [reflexivity |]. split; [done |].
    split; [| done]. rewrite Hcmd2, Hcmd1. auto.
Qed.

(** A background [run_command] tracks the handle it returns. *)
Lemma run_command_background_tracks cmd check st runtime delay :
  kill_now st = false ->
  spawn_oracle cmd = Some (runtime, delay) ->
  exists st' p,
    run_command cmd check true st = (st', Return (Handle p)) /\
    processes st' = processes st ++ [p] /\
    commands st' = commands st ++ [cmd] /\
    args p = cmd /\ calls p = [].
Proof.
  intros Hk Hs. unfold run_command, try_except, bind, get_state, popen, modify.
  rewrite Hk, Hs. simpl. eexists _, _. split; [reflexivity |]. done.
Qed.

(** ** Cleanup *)

Lemma running_mono p t t' : running p t = false -> t <= t' -> running p t' = false.
Proof.
  unfold running. destruct (death_time p) as [d |]; [| done].
  intros H Hle. apply Z.ltb_ge in H. apply Z.ltb_ge. lia.
Qed.

Lemma advance_spec dt st :
  exists st', advance dt st = (st', Return tt) /\
    clock st' = clock st + dt /\ processes st' = processes st.
Proof.
  unfold advance, modify. eexists. split; [reflexivity |].
  destruct (signal_at st) as [s |]; [destruct (s <=? _) |]; done.
Qed.

Lemma opt_min_bound a m t :
  m <= t -> exists m', opt_min a (Some m) = Some m' /\ m' <= t.
Proof. intros H. destruct a as [x |]; simpl; eexists; split; try done; lia. Qed.

(** After [kill()] the child is gone. *)
Lemma on_kill_dead p t : running (on_kill p t) t = false.
Proof.
  destruct (running p t) eqn:Hr.
  - assert (Hd : exists d, death_time (on_kill p t) = Some d /\ d <= t).
    { unfold death_time, on_kill. simpl. rewrite Hr.
      destruct (opt_min_bound
                  (match term_at p, term_delay p with
                   | Some t0, Some d0 => Some (t0 + d0)
                   | _, _ => None
                   end) t t) as (m & -> & Hm); [lia |].
      by apply opt_min_bound. }
    destruct Hd as (d & Hd & Hle). unfold running. rewrite Hd.
    apply Z.ltb_ge. lia.
  - assert (Hd : death_time (on_kill p t) = death_time p).
    { unfold death_time, on_kill. simpl. by rewrite Hr. }
    unfold running. rewrite Hd. exact Hr.
Qed.

(** One turn of the loop of [cleanup]. *)
Lemma cleanup_one_spec p st :
  exists st' p',
    cleanup_one p st = (st', Return p') /\
    clock st <= clock st' <= clock st + seconds 5 /\
    processes st' = processes st /\
    running p' (clock st') = false /\
    calls p' = calls p ++
      (if running p (clock st) then
         Terminate :: (if running (on_terminate p (clock st)) (clock st + seconds 5)
                       then [Kill] else [])
       else []).
Proof.
  unfold cleanup_one, bind at 1, get_state.
  destruct (running p (clock st)) eqn:Hrun.
  2:{ exists st, p. rewrite app_nil_r. unfold seconds. repeat split; try done; lia. }
  unfold bind at 1, proc_terminate, bind at 1, get_state, ret at 1.
  set (p1 := on_terminate p (clock st)).
  unfold try_except, bind at 1, proc_wait, bind at 1, get_state.
  assert (Hgrace : running p1 (clock st + seconds 5)
                   = match death_time p1 with
                     | Some d => clock st + seconds 5 <? d
                     | None => true
                     end) by done.
  rewrite Hgrace. clear Hgrace.
  destruct (death_time p1) as [d |] eqn:Hd.
  - destruct (d <=? clock st + seconds 5) eqn:Hle.
    + apply Z.leb_le in Hle.
      destruct (advance_spec (Z.max 0 (d - clock st)) st) as (st' & -> & Hc & Hp).
      exists st', p1. split; [done |].
      assert (Hlt : (clock st + seconds 5 <? d) = false) by (apply Z.ltb_ge; lia).
      rewrite Hlt. unfold seconds in *.
      split; [lia |]. split; [done |].
      split; [unfold running; rewrite Hd; apply Z.ltb_ge; lia | done].
    + apply Z.leb_gt in Hle.
      unfold bind at 1.
      destruct (advance_spec (seconds 5) st) as (st' & -> & Hc & Hp).
      unfold raise. simpl.
      assert (Hlt : (clock st + seconds 5 <? d) = true) by (apply Z.ltb_lt; lia).
      rewrite Hlt. unfold proc_kill, bind, get_state, ret.
      exists st', (on_kill p1 (clock st')). split; [done |].
      split; [unfold seconds in *; lia |]. split; [done |].
      split; [apply on_kill_dead | simpl; by rewrite <- app_assoc].
  - unfold bind at 1.
    destruct (advance_spec (seconds 5) st) as (st' & -> & Hc & Hp).
    unfold raise. simpl. unfold proc_kill, bind, get_state, ret.
    exists st', (on_kill p1 (clock st')). split; [done |].
    split; [unfold seconds in *; lia |]. split; [done |].
    split; [apply on_kill_dead | simpl; by rewrite <- app_assoc].
Qed.

(** The loop of [cleanup]: every handle gets its turn, at some time [t]
    between [lo] and [hi], with at most five seconds spent on it. *)
Lemma cleanup_each_spec ps : forall st,
  exists st' ps',
    cleanup_each ps st = (st', Return ps') /\
    clock st <= clock st' <= clock st + seconds 5 * Z.of_nat (length ps) /\
    processes st' = processes st /\
    Forall2 (fun p p' => exists t t',
               clock st <= t /\ t <= t' <= t + seconds 5 /\ t' <= clock st' /\
               running p' t' = false /\
               calls p' = calls p ++
                 (if running p t then
                    Terminate :: (if running (on_terminate p t) (t + seconds 5)
                                  then [Kill] else [])
                  else []))
      ps ps'.
Proof.
  induction ps as [| p rest IH]; intros st; simpl.
  - exists st, []. unfold ret.
    split; [done |]. split; [unfold seconds; lia |]. split; [done | constructor].
  - destruct (cleanup_one_spec p st) as (st1 & p' & Hone & Hc1 & Hp1 & Hdead & Hcalls).
    destruct (IH st1) as (st' & rest' & Hrest & Hc & Hp & Hall).
    exists st', (p' :: rest'). unfold bind. rewrite Hone, Hrest. unfold ret.
    split; [done |]. split; [unfold seconds in *; lia |].
    split; [congruence |].
    constructor.
    + exists (clock st), (clock st1). repeat split; try done; lia.
    + eapply Forall2_impl; [exact Hall |].
      intros q q' (t & t' & H1 & H2 & H3 & H4 & H5).
      exists t, t'. repeat split; try done; lia.
Qed.

(** C6.  [cleanup] returns, and every tracked handle has its turn in the
    loop, from a time [t] to a time [t'] at most five seconds later: if
    the child is already gone at [t] no call is made on the handle; if it
    is still running it gets [terminate()], and [kill()] exactly once
    after that if it is still alive five seconds later, and no [kill()]
    otherwise.  At [t'], and at the end of [cleanup], the child is gone. *)
Theorem cleanup_terminates_tracked_processes st :
  exists st',
    cleanup st = (st', Return tt) /\
    clock st <= clock st' <= clock st + seconds 5 * Z.of_nat (length (processes st)) /\
    Forall (fun p' => running p' (clock st') = false) (processes st') /\
    Forall2 (fun p p' => exists t t',
               clock st <= t /\ t <= t' <= t + seconds 5 /\ t' <= clock st' /\
               running p' t' = false /\
               calls p' = calls p ++
                 (if running p t then
                    Terminate :: (if running (on_terminate p t) (t + seconds 5)
                                  then [Kill] else [])
                  else []))
      (processes st) (processes st').
Proof.
  destruct (cleanup_each_spec (processes st) st) as (st1 & ps' & Hrun & Hc & _ & Hall).
  exists (set_processes ps' st1).
  unfold cleanup, bind, get_state. rewrite Hrun. unfold modify. simpl.
  split; [done |]. split; [done |]. split; [| exact Hall].
  clear Hrun Hc.
  induction Hall as [| p p' l l' (t & t' & H1 & H2 & H3 & H4 & _) _ IH].
  - constructor.
  - constructor; [| exact IH]. by apply (running_mono p' t').
Qed.

End Properties.

(** * The properties at concrete inputs *)

Lemma download_file_cancelled_at_start_witness :
  ex_download [Chunk "abc"] DefaultSettings "L" "/tmp/x" None
    (set_kill true (ex_state 0 empty_fs))
  = (set_kill true (ex_state 0 empty_fs), Return false).
Proof.
  apply (@download_file_cancelled_at_start (ex_world [Chunk "abc"])).
  reflexivity.
Defined.

(** In the concrete world: an entry written at time 0 read at the given
    clock. *)
Lemma ex_cache_entry items (t : Z) :
  @cache_entry (ex_world items)
    (ex_state t (ex_cached_fs "0 payload")) "L" "/tmp/x" t.
Proof.
  split; [reflexivity |].
  exists "0 payload", (JObj [("timestamp", JStr "0"); ("checksum", JStr "payload")]),
    "0", (mkDatetime 0 false).
  repeat split; try reflexivity. simpl. lia.
Qed.



Lemma configured_ttl_is_ignored_witness :
  cache_ttl_days (with_cache_ttl_days 1 DefaultSettings) = 1 /\
  exists st',
    ex_download [] (with_cache_ttl_days 1 DefaultSettings) "L" "/tmp/x" None
      (ex_state (timedelta_days 3) (ex_cached_fs "0 payload"))
    = (st', Return true) /\
    requests st' = [].
Proof.
  split; [reflexivity |].
  apply (@configured_ttl_is_ignored (ex_world [])
           (with_cache_ttl_days 1 DefaultSettings) "L" "/tmp/x" None
           (ex_state (timedelta_days 3) (ex_cached_fs "0 payload"))
           (timedelta_days 3) eq_refl (ex_cache_entry [] (timedelta_days 3)));
    vm_compute; congruence.
Defined.

Lemma unparsable_metadata_fails_fetch_witness :
  ex_download [Chunk "payload"] DefaultSettings "L" "/tmp/x" None
    (ex_state 1000 (ex_cached_fs "garbage"))
  = (ex_state 1000 (ex_cached_fs "garbage"), Return false).
Proof.
  apply (@unparsable_metadata_fails_fetch (ex_world [Chunk "payload"])
           DefaultSettings "L" "/tmp/x" None
           (ex_state 1000 (ex_cached_fs "garbage")) "garbage");
    reflexivity.
Defined.

Lemma mismatching_download_removes_destination_witness :
  exists st_v st',
    file_content (fs st_v) "/tmp/x" = Some "tampered" /\
    @_verify_checksum (ex_world [Chunk "tampered"]) "/tmp/x" (Some "good") st_v
      = (st_v, Return false) /\
    ex_download [Chunk "tampered"] DefaultSettings "L" "/tmp/x" (Some "good")
      (ex_state 0 empty_fs) = (st', Return false) /\
    names (fs st') = delete "/tmp/x" (names empty_fs) /\
    requests st' = [] ++ ["L"] /\
    forall p, same_file empty_fs "/tmp/x" p = false ->
      file_content (fs st') p = file_content empty_fs p.
Proof.
  apply (@mismatching_download_removes_destination (ex_world [Chunk "tampered"])
           DefaultSettings "L" "/tmp/x" (Some "good") (ex_state 0 empty_fs)
           (mkResponse 200 None [Chunk "tampered"]) "tampered" "good");
    try reflexivity.
  intros H. discriminate H.
Defined.



(** C1, from an empty cache.  A first fetch of [M] to [/tmp/x] succeeds and
    links the file into the cache.  With [/tmp/x] still there, a fetch of
    [L] to the same destination, expecting the digest of the genuine
    content, receives another body: it returns [False] and removes
    [/tmp/x], but the cached file now holds the rejected body.  A third
    fetch, of [M] again and expecting the genuine digest, makes no
    request and returns [True] with the rejected body at [/tmp/x]. *)
Example tampered_download_poisons_cache :
  let fetch := @download_file ex_mirror_world DefaultSettings in
  let st1 := (fetch "M" "/tmp/x" None (ex_state 0 empty_fs)).1 in
  let res2 := fetch "L" "/tmp/x" (Some (ex_sha256 "payload")) st1 in
  let res3 := fetch "M" "/tmp/x" (Some (ex_sha256 "payload")) res2.1 in
  file_content (fs st1) "/config/.cache/x" = Some "payload" /\
  res2.2 = Return false /\
  file_content (fs res2.1) "/tmp/x" = None /\
  file_content (fs res2.1) "/config/.cache/x" = Some "tampered" /\
  res3.2 = Return true /\
  requests res3.1 = ["M"; "L"] /\
  file_content (fs res3.1) "/tmp/x" = Some "tampered".
Proof. repeat split; vm_compute; reflexivity. Qed.

Lemma expired_entry_refetch_fails_witness :
  exists st',
    ex_download [Chunk "payload"] DefaultSettings "L" "/tmp/x" None
      (ex_state (timedelta_days 8) (ex_cached_fs "0 payload"))
    = (st', Return false) /\
    requests st' = [] ++ ["L"] /\
    is_Some (names (ex_cached_fs "0 payload") !! "/config/.cache/x") /\
    names (fs st') !! "/config/.cache/x"
      = names (ex_cached_fs "0 payload") !! "/config/.cache/x".
Proof.
  apply (@expired_entry_refetch_fails (ex_world [Chunk "payload"])
           DefaultSettings "L" "/tmp/x" None
           (ex_state (timedelta_days 8) (ex_cached_fs "0 payload"))
           (timedelta_days 8) (mkResponse 200 None [Chunk "payload"]) "payload");
    try reflexivity.
  - apply ex_cache_entry.
  - vm_compute. congruence.
  - left. reflexivity.
Defined.

Lemma cancelled_transfer_leaves_cache_alone_witness :
  exists st',
    signalled [Chunk "pay"; Signal; Chunk "load"] = true /\
    (forall expected,
       ex_download [Chunk "pay"; Signal; Chunk "load"] DefaultSettings "L"
         "/tmp/x" expected (ex_state 0 (ex_cached_fs "{}"))
       = (st', Return false)) /\
    kill_now st' = true /\
    file_content (fs st') "/tmp/x" = Some "pay" /\
    forall p, same_file (ex_cached_fs "{}") "/tmp/x" p = false ->
      names (fs st') !! p = names (ex_cached_fs "{}") !! p /\
      file_content (fs st') p = file_content (ex_cached_fs "{}") p.
Proof.
  apply (@cancelled_transfer_leaves_cache_alone
           (ex_world [Chunk "pay"; Signal; Chunk "load"])
           DefaultSettings "L" "/tmp/x" (ex_state 0 (ex_cached_fs "{}"))
           (mkResponse 200 None [Chunk "pay"; Signal; Chunk "load"]) "pay");
    reflexivity.
Defined.

(** C10, the claim as stated fails.  The flag is clear when the fetch
    begins and the signal arrives during the chunk loop, after the last
    chunk has been handed over: no check follows, [download_file] goes on
    to verification, fills the cache, writes the metadata record and
    returns [True]. *)
Lemma signal_after_last_chunk_goes_unnoticed :
  let st := ex_state 0 empty_fs in
  let items := [Chunk "payload"; Signal] in
  let res := ex_download items DefaultSettings "L" "/tmp/x" None st in
  kill_now st = false /\
  signalled items = true /\
  kill_now res.1 = true /\
  res.2 = Return true /\
  path_exists (fs st) (cache_path "/tmp/x") = false /\
  path_exists (fs res.1) (cache_path "/tmp/x") = true /\
  file_content (fs st) (@meta_path (ex_world items) "L") = None /\
  file_content (fs res.1) (@meta_path (ex_world items) "L") = Some "0 payload".
Proof. repeat split; vm_compute; reflexivity. Qed.

Lemma install_mt5_default_settings_raises_witness :
  @install_mt5 (ex_world []) DefaultSettings (ex_state 0 empty_fs)
  = (ex_state 0 empty_fs, Raise AttributeError).
Proof.
  apply (@install_mt5_default_settings_raises (ex_world [])
           DefaultSettings (ex_state 0 empty_fs));
    reflexivity.
Defined.

(** [cleanup] on the three handles of [ex_processes]: the first is left
    alone, the second is terminated and exits in time, the third is
    terminated and, five seconds later, killed. *)
Example cleanup_three_handles :
  let st' := (cleanup (set_processes ex_processes (ex_state 0 empty_fs))).1 in
  map calls (processes st') = [[]; [Terminate]; [Terminate; Kill]] /\
  clock st' = seconds 7.
Proof. split; vm_compute; reflexivity. Qed.

(** * Further properties of the download manager *)

Section DownloadProperties.

Context {W : World}.

(** [verify_and_store] on a file that passes verification, with the cache
    path free. *)
Lemma verify_and_store_success url dest_path expected st ino content :
  names (fs st) !! dest_path = Some ino ->
  inodes (fs st) !! ino = Some content ->
  names (fs st) !! cache_path dest_path = None ->
  (py_or expected (KNOWN_CHECKSUMS (path_name dest_path)) = None \/
   py_or expected (KNOWN_CHECKSUMS (path_name dest_path))
     = Some (sha256_hex content)) ->
  verify_and_store url dest_path expected st =
  (let f2 := mkFS (<[cache_path dest_path := ino]> (names (fs st))) (inodes (fs st)) in
   let '(f3, j) := open_trunc f2 (meta_path url) in
   set_fs (append_inode f3 j
             (json_dump (JObj [("timestamp", JStr (isoformat (clock st)));
                               ("checksum", JStr (sha256_hex content))]))) st,
   Return true).
Proof.
  intros Hd Hc Hfree Hexp.
  assert (Hne : dest_path <> cache_path dest_path) by (intros Heq; congruence).
  assert (Hcontent : file_content (fs st) dest_path = Some content).
  { unfold file_content, inode_content. rewrite Hd. simpl. by rewrite Hc. }
  assert (Hverify : _verify_checksum dest_path
            (py_or expected (KNOWN_CHECKSUMS (path_name dest_path))) st
            = (st, Return true)).
  { destruct Hexp as [-> | Hsome]; [done |].
    pose proof (py_or_known_nonempty _ _ _ Hsome) as Hnz. rewrite Hsome.
    unfold _verify_checksum. rewrite Hnz.
    unfold bind, _calculate_checksum. rewrite Hcontent. unfold ret.
    by rewrite String.eqb_refl. }
  unfold verify_and_store.
  rewrite (bind_return _ _ _ _ _ Hverify). simpl.
  erewrite bind_return.
  2:{ unfold link_path, link_to. rewrite Hd, Hfree. reflexivity. }
  erewrite bind_return by reflexivity.
  erewrite bind_return.
  2:{ unfold _calculate_checksum, file_content, inode_content. simpl.
      rewrite lookup_insert_ne by done. rewrite Hd. simpl. rewrite Hc.
      reflexivity. }
  unfold bind, _save_cache_metadata, write_text, modify, ret. simpl.
  destruct (open_trunc _ _) as [f3 j]. done.
Qed.

(** The state after a download that succeeds and fills the cache. *)
Lemma download_success_state
    settings url dest_path expected st r content :
  kill_now st = false ->
  use_cache url dest_path st = (st, Return false) ->
  server url (download_timeout settings) = GetResponds r ->
  http_ok r = true ->
  transfer_of false EmptyString (body r) = Finished content ->
  (py_or expected (KNOWN_CHECKSUMS (path_name dest_path)) = None \/
   py_or expected (KNOWN_CHECKSUMS (path_name dest_path))
     = Some (sha256_hex content)) ->
  names (fs st) !! cache_path dest_path = None ->
  dest_path <> cache_path dest_path ->
  meta_path url <> cache_path dest_path ->
  same_file (fs st) dest_path (meta_path url) = false ->
  exists st' ino,
    download_file settings url dest_path expected st = (st', Return true) /\
    requests st' = requests st ++ [url] /\
    kill_now st' = flag_after false (body r) /\
    signal_at st' = signal_at st /\
    clock st' = clock st /\
    commands st' = commands st /\
    processes st' = processes st /\
    names (fs st') !! dest_path = Some ino /\
    names (fs st') !! cache_path dest_path = Some ino /\
    inodes (fs st') !! ino = Some content /\
    (forall p, p <> dest_path -> p <> cache_path dest_path ->
               p <> meta_path url ->
               names (fs st') !! p = names (fs st) !! p) /\
    file_content (fs st') (meta_path url)
      = Some (json_dump (JObj [("timestamp", JStr (isoformat (clock st)));
                               ("checksum", JStr (sha256_hex content))])).
Proof.
  intros Hk Huse Hsrv Hok Htr Hexp Hfree Hdc Hmc Hsame.
  destruct (open_trunc (fs st) dest_path) as [f1 ino] eqn:Hopen.
  destruct (open_trunc_spec _ _ _ _ Hopen) as (Hdest & Hinodes & Hnames).
  unfold same_file in Hsame. apply orb_false_iff in Hsame as [Hdm Hino].
  apply String.eqb_neq in Hdm.
  assert (Hc1 : names f1 !! cache_path dest_path = None).
  { destruct Hnames as [[_ ->] | (_ & -> & _)]; [done |].
    by rewrite lookup_insert_ne. }
  assert (Hm1 : names f1 !! meta_path url = names (fs st) !! meta_path url).
  { destruct Hnames as [[_ ->] | (_ & -> & _)]; [done |].
    by rewrite lookup_insert_ne. }
  assert (Hmino : names (fs st) !! meta_path url <> Some ino).
  { destruct Hnames as [[Hd _] | (_ & _ & Hfresh)]; [| apply Hfresh].
    rewrite Hd in Hino. destruct (names (fs st) !! meta_path url) as [j |]; [| done].
    apply Nat.eqb_neq in Hino. congruence. }
  set (st_v := after_transfer (set_fs f1 (set_requests (requests st ++ [url]) st))
                 ino (flag_after false (body r)) content).
  rewrite (download_file_miss _ _ _ _ _ Hk Huse). unfold try_except.
  rewrite (fetch_and_store_run _ _ _ _ _ _ _ _ Hsrv Hok Hopen), Hk, Htr.
  simpl. fold st_v.
  rewrite (verify_and_store_success url dest_path expected st_v ino content);
    [| exact Hdest | apply lookup_insert_eq | exact Hc1 | exact Hexp].
  simpl.
  set (f2 := mkFS (<[cache_path dest_path := ino]> (names f1))
                  (<[ino := content]> (inodes f1))).
  assert (Hm2 : names f2 !! meta_path url = names (fs st) !! meta_path url).
  { simpl. by rewrite lookup_insert_ne. }
  destruct (open_trunc f2 (meta_path url)) as [f3 j] eqn:Hopen2.
  destruct (open_trunc_spec _ _ _ _ Hopen2) as (Hmeta & Hinodes3 & Hnames3).
  assert (Hj : j <> ino).
  { destruct Hnames3 as [[Hd _] | (_ & _ & Hfresh)].
    - rewrite Hm2 in Hd. congruence.
    - intros ->. apply (Hfresh dest_path). simpl.
      by rewrite lookup_insert_ne. }
  assert (Hd3 : names f3 !! dest_path = Some ino).
  { destruct Hnames3 as [[_ ->] | (_ & -> & _)]; simpl.
    - by rewrite lookup_insert_ne.
    - rewrite lookup_insert_ne by done. by rewrite lookup_insert_ne. }
  assert (Hc3 : names f3 !! cache_path dest_path = Some ino).
  { destruct Hnames3 as [[_ ->] | (_ & -> & _)]; simpl.
    - apply lookup_insert_eq.
    - rewrite lookup_insert_ne by done. apply lookup_insert_eq. }
  eexists _, ino. split; [reflexivity |]. simpl.
  do 6 (split; [done |]).
  split; [exact Hd3 |]. split; [exact Hc3 |].
  split.
  { rewrite lookup_insert_ne by done. rewrite Hinodes3.
    rewrite lookup_insert_ne by done. simpl. by rewrite lookup_insert_eq. }
  split.
  { intros p Hp1 Hp2 Hp3.
    transitivity (names f2 !! p).
    - destruct Hnames3 as [[_ ->] | (_ & -> & _)]; [done |].
      by rewrite lookup_insert_ne.
    - simpl. rewrite lookup_insert_ne by done.
      destruct Hnames as [[_ ->] | (_ & -> & _)]; [done |].
      by rewrite lookup_insert_ne. }
  unfold file_content, inode_content. simpl. rewrite Hmeta. simpl.
  rewrite lookup_insert_eq. simpl. unfold inode_content. rewrite Hinodes3.
  by rewrite lookup_insert_eq.
Qed.

(** X1.  A fetch that is not answered from the cache, gets an acceptable
    response, receives the whole body and passes verification (or has no
    expected hash), while the cache path is free and the metadata file is
    neither the cache file nor the destination file, returns [True] after
    one request; the destination holds the body, the cache path is a hard
    link to the same file, and the metadata record holds the clock time
    and the digest of the body. *)
Theorem successful_download_fills_cache
    settings url dest_path expected st r content :
  kill_now st = false ->
  use_cache url dest_path st = (st, Return false) ->
  server url (download_timeout settings) = GetResponds r ->
  http_ok r = true ->
  transfer_of false EmptyString (body r) = Finished content ->
  (py_or expected (KNOWN_CHECKSUMS (path_name dest_path)) = None \/
   py_or expected (KNOWN_CHECKSUMS (path_name dest_path))
     = Some (sha256_hex content)) ->
  names (fs st) !! cache_path dest_path = None ->
  dest_path <> cache_path dest_path ->
  meta_path url <> cache_path dest_path ->
  same_file (fs st) dest_path (meta_path url) = false ->
  exists st',
    download_file settings url dest_path expected st = (st', Return true) /\
    requests st' = requests st ++ [url] /\
    file_content (fs st') dest_path = Some content /\
    is_Some (names (fs st') !! dest_path) /\
    names (fs st') !! cache_path dest_path = names (fs st') !! dest_path /\
    file_content (fs st') (meta_path url)
      = Some (json_dump (JObj [("timestamp", JStr (isoformat (clock st)));
                               ("checksum", JStr (sha256_hex content))])).
Proof.
  intros Hk Huse Hsrv Hok Htr Hexp Hfree Hdc Hmc Hsame.
  destruct (download_success_state settings url dest_path expected st r content
              Hk Huse Hsrv Hok Htr Hexp Hfree Hdc Hmc Hsame)
    as (st' & ino & Hdl & Hreq & _ & _ & _ & _ & _ & Hd & Hc & Hi & _ & Hm).
  exists st'. split; [exact Hdl |]. split; [exact Hreq |].
  split.
  { unfold file_content, inode_content. rewrite Hd. simpl. by rewrite Hi. }
  split; [by eexists |]. split; [by rewrite Hc, Hd | exact Hm].
Qed.

Lemma verify_checksum_state p expected st :
  exists o, _verify_checksum p expected st = (st, o).
Proof.
  unfold _verify_checksum. destruct expected as [h |]; [| by eexists].
  destruct (String.eqb h EmptyString); [by eexists |].
  unfold bind, _calculate_checksum.
  destruct (file_content (fs st) p); by eexists.
Qed.

(** With the destination linked and the cache path taken,
    [verify_and_store] cannot return [True]. *)
Lemma verify_and_store_taken url dest_path expected st :
  is_Some (names (fs st) !! dest_path) ->
  is_Some (names (fs st) !! cache_path dest_path) ->
  (verify_and_store url dest_path expected st).2 <> Return true.
Proof.
  intros [i Hd] [j Hc]. unfold verify_and_store.
  destruct (verify_checksum_state dest_path
              (py_or expected (KNOWN_CHECKSUMS (path_name dest_path))) st)
    as [o Ho].
  unfold bind at 1. rewrite Ho. destruct o as [[|] | e |]; simpl; try done.
  - unfold bind at 1, link_path, link_to. by rewrite Hd, Hc.
  - unfold bind, unlink_path, unlink. by rewrite Hd.
Qed.

Lemma http_ok_true r :
  (400 <=? status_code r) && (status_code r <? 600) = false ->
  content_length r <> Some None ->
  http_ok r = true.
Proof.
  intros Hs Hl. unfold http_ok. rewrite Hs. simpl.
  by destruct (content_length r) as [[n |] |].
Qed.

(** A response that does not pass [raise_for_status] or the parsing of
    its content-length makes [fetch_and_store] raise before the
    destination is opened. *)
Lemma fetch_and_store_rejected settings url dest_path expected st r :
  server url (download_timeout settings) = GetResponds r ->
  http_ok r = false ->
  exists e, is_Exception e = true /\
    fetch_and_store settings url dest_path expected st
    = (set_requests (requests st ++ [url]) st, Raise e).
Proof.
  intros Hsrv Hok. unfold fetch_and_store, bind at 1, session_get. rewrite Hsrv.
  unfold bind at 1, raise_for_status.
  destruct ((400 <=? status_code r) && (status_code r <? 600)) eqn:Hs.
  { by exists HTTPError. }
  unfold ret at 1. unfold bind at 1, total_size_of.
  destruct (content_length r) as [[n |] |] eqn:Hl.
  - rewrite http_ok_true in Hok; [done | done | by rewrite Hl].
  - by exists ValueError.
  - rewrite http_ok_true in Hok; [done | done | by rewrite Hl].
Qed.

(** X2.  A fetch that is not answered from the cache never succeeds while
    the cache path is taken (by a stale or orphaned cached file, or by the
    destination itself): whatever the server answers and whatever hash is
    expected, [download_file] returns [False]. *)
Theorem download_fails_while_cache_path_is_taken
    settings url dest_path expected st :
  use_cache url dest_path st = (st, Return false) ->
  is_Some (names (fs st) !! cache_path dest_path) \/
    dest_path = cache_path dest_path ->
  exists st', download_file settings url dest_path expected st
              = (st', Return false).
Proof.
  intros Huse Htaken.
  destruct (kill_now st) eqn:Hk.
  { exists st. unfold download_file, try_except, download_file_body, bind, get_state.
    by rewrite Hk. }
  rewrite (download_file_miss _ _ _ _ _ Hk Huse). unfold try_except.
  pose proof (roe_fetch_and_store settings url dest_path expected st) as Hroe.
  assert (Hnot : (fetch_and_store settings url dest_path expected st).2
                 <> Return true).
  { destruct (server url (download_timeout settings)) as [| r] eqn:Hsrv.
    { unfold fetch_and_store, bind at 1, session_get. by rewrite Hsrv. }
    destruct (http_ok r) eqn:Hok.
    2:{ destruct (fetch_and_store_rejected settings url dest_path expected st r
                    Hsrv Hok) as (e & _ & ->). done. }
    destruct (open_trunc (fs st) dest_path) as [f1 ino] eqn:Hopen.
    destruct (open_trunc_spec _ _ _ _ Hopen) as (Hdest & _ & Hnames).
    rewrite (fetch_and_store_run _ _ _ _ _ _ _ _ Hsrv Hok Hopen), Hk.
    destruct (transfer_of false EmptyString (body r)) as [c | c | c e]; simpl;
      try done.
    apply verify_and_store_taken; simpl; [by eexists |].
    destruct Htaken as [[i Hi] | <-]; [| by eexists].
    destruct Hnames as [[_ ->] | (Hno & -> & _)]; [by eexists |].
    rewrite lookup_insert_ne; [by eexists |]. intros Heq.
    rewrite <- Heq in Hi. congruence. }
  destruct (fetch_and_store settings url dest_path expected st)
    as [st' [[|] | e |]]; simpl in *; try done.
  - by exists st'.
  - rewrite Hroe. by exists st'.
Qed.

(** X3.  When the request fails, or the response has an error status or
    a content-length that is no number, a fetch that is not answered from
    the cache returns [False] with the request logged and every file,
    the destination included, as it was. *)
Theorem rejected_response_leaves_files_untouched
    settings url dest_path expected st :
  kill_now st = false ->
  use_cache url dest_path st = (st, Return false) ->
  server url (download_timeout settings) = GetFails \/
    (exists r, server url (download_timeout settings) = GetResponds r /\
               http_ok r = false) ->
  download_file settings url dest_path expected st
  = (set_requests (requests st ++ [url]) st, Return false).
Proof.
  intros Hk Huse Hbad.
  rewrite (download_file_miss _ _ _ _ _ Hk Huse). unfold try_except.
  destruct Hbad as [Hsrv | (r & Hsrv & Hok)].
  - unfold fetch_and_store, bind at 1, session_get. by rewrite Hsrv.
  - destruct (fetch_and_store_rejected settings url dest_path expected st r
                Hsrv Hok) as (e & He & ->).
    by rewrite He.
Qed.

Lemma transfer_broken_exn items : forall killed acc c e,
  transfer_of killed acc items = Broken c e -> is_Exception e = true.
Proof.
  induction items as [| [data | | |] rest IH]; intros killed acc c e; simpl.
  - done.
  - destruct killed; [done | apply IH].
  - apply IH.
  - by intros [= _ <-].
  - destruct killed; [done | by intros [= _ <-]].
Qed.

(** X4.  When the body stream breaks or a write fails during the chunk
    loop, [download_file] returns [False] and leaves the destination file
    with what was written up to then; every path that does not name the
    destination file keeps its directory entry and its content. *)
Theorem broken_transfer_leaves_partial_file
    settings url dest_path expected st r partial e :
  kill_now st = false ->
  use_cache url dest_path st = (st, Return false) ->
  server url (download_timeout settings) = GetResponds r ->
  http_ok r = true ->
  transfer_of false EmptyString (body r) = Broken partial e ->
  exists st',
    download_file settings url dest_path expected st = (st', Return false) /\
    requests st' = requests st ++ [url] /\
    file_content (fs st') dest_path = Some partial /\
    forall p, same_file (fs st) dest_path p = false ->
      names (fs st') !! p = names (fs st) !! p /\
      file_content (fs st') p = file_content (fs st) p.
Proof.
  intros Hk Huse Hsrv Hok Htr.
  destruct (open_trunc (fs st) dest_path) as [f1 ino] eqn:Hopen.
  destruct (open_trunc_spec _ _ _ _ Hopen) as (Hdest & _ & _).
  exists (after_transfer (set_fs f1 (set_requests (requests st ++ [url]) st))
            ino (flag_after false (body r)) partial).
  split.
  { rewrite (download_file_miss _ _ _ _ _ Hk Huse). unfold try_except.
    rewrite (fetch_and_store_run _ _ _ _ _ _ _ _ Hsrv Hok Hopen), Hk, Htr.
    simpl. by rewrite (transfer_broken_exn _ _ _ _ _ Htr). }
  split; [done |].
  split; [by apply (after_transfer_content _ f1) |].
  intros p Hp. by apply (after_transfer_frame (fs st) dest_path).
Qed.

(** X5.  A cache hit does not look at the expected hash: with a fresh
    cache entry, [download_file] returns [True] for every expected hash,
    with no request, and the destination then holds whatever content the
    cached file had. *)
Theorem cache_hit_skips_verification settings url dest_path st age cached :
  kill_now st = false ->
  cache_entry st url dest_path age ->
  age < timedelta_days 7 ->
  file_content (fs st) (cache_path dest_path) = Some cached ->
  exists st',
    (forall expected,
       download_file settings url dest_path expected st = (st', Return true)) /\
    requests st' = requests st /\
    file_content (fs st') dest_path = Some cached.
Proof.
  intros Hk Hentry Hlt Hcached.
  destruct (use_cache_hit url dest_path st age Hentry Hlt) as (f' & Hren & Huse).
  exists (set_fs f' st). split.
  { intros expected.
    unfold download_file, try_except, download_file_body, bind, get_state.
    by rewrite Hk, Huse. }
  split; [done |]. simpl.
  unfold rename in Hren. unfold file_content in *.
  destruct (names (fs st) !! cache_path dest_path) as [i |] eqn:Hc; [| done].
  destruct (bool_decide (names (fs st) !! dest_path = Some i)) eqn:Hd;
    injection Hren as <-.
  - apply bool_decide_eq_true in Hd. by rewrite Hd.
  - simpl. rewrite lookup_insert_eq. exact Hcached.
Qed.

(** X6.  With the cached file present, a metadata record that parses to a
    non-empty value but yields no usable timestamp (it is no object, or
    its timestamp is no string, does not parse, or carries a UTC offset)
    makes the fetch fail: [download_file] returns [False] with no request
    and no change. *)
Theorem unusable_metadata_fails_fetch
    settings url dest_path expected st text meta :
  kill_now st = false ->
  path_exists (fs st) (cache_path dest_path) = true ->
  file_content (fs st) (meta_path url) = Some text ->
  json_load text = Some meta ->
  truthy meta = true ->
  match py_get meta "timestamp" (JStr EmptyString) with
  | Return (JStr s) =>
      match fromisoformat s with
      | Some t => aware t = true
      | None => True
      end
  | _ => True
  end ->
  download_file settings url dest_path expected st = (st, Return false).
Proof.
  intros Hk Hex Htext Hload Htruthy Hbad.
  unfold download_file, try_except, download_file_body, bind at 1, get_state.
  rewrite Hk. unfold bind at 1, use_cache, bind at 1, _get_cache_metadata.
  rewrite Htext, Hload. unfold bind at 1, get_state.
  rewrite Hex, Htruthy. simpl. unfold bind at 1, lift.
  destruct (py_get meta "timestamp" (JStr EmptyString)) as [v | e |] eqn:Hget.
  - unfold bind at 1, datetime_fromisoformat.
    destruct v as [| b | n | s | items | fields]; try done.
    destruct (fromisoformat s) as [t |]; [| done].
    unfold ret at 1. unfold bind at 1, get_state. unfold bind at 1, datetime_sub.
    by rewrite Hbad.
  - destruct meta; simpl in Hget; try (injection Hget as <-); done.
  - by destruct meta.
Qed.

(** X7.  Saving a metadata record and loading it again gives the record
    back, provided the JSON library reads back what it wrote. *)
Theorem metadata_save_then_load url metadata st :
  json_load (json_dump metadata) = Some metadata ->
  exists st',
    _save_cache_metadata url metadata st = (st', Return tt) /\
    _get_cache_metadata url st' = (st', Return metadata) /\
    requests st' = requests st /\
    forall p, same_file (fs st) (meta_path url) p = false ->
      names (fs st') !! p = names (fs st) !! p /\
      file_content (fs st') p = file_content (fs st) p.
Proof.
  intros Hrt. unfold _save_cache_metadata, write_text, modify.
  destruct (open_trunc (fs st) (meta_path url)) as [f1 j] eqn:Hopen.
  destruct (open_trunc_spec _ _ _ _ Hopen) as (Hmeta & Hinodes & Hnames).
  eexists. split; [reflexivity |]. split.
  { unfold _get_cache_metadata, file_content, inode_content. simpl.
    rewrite Hmeta. simpl. rewrite lookup_insert_eq. simpl.
    unfold inode_content. rewrite Hinodes, lookup_insert_eq. simpl.
    change (EmptyString +:+ json_dump metadata) with (json_dump metadata).
    by rewrite Hrt. }
  split; [done |].
  intros p Hp. unfold same_file in Hp. apply orb_false_iff in Hp as [Hne Hino].
  apply String.eqb_neq in Hne. simpl.
  assert (Hp : names f1 !! p = names (fs st) !! p).
  { destruct Hnames as [[_ ->] | (_ & -> & _)]; [done |].
    by rewrite lookup_insert_ne. }
  split; [done |].
  unfold file_content. simpl. rewrite Hp.
  destruct (names (fs st) !! p) as [i |] eqn:Hi; [| done]. simpl. f_equal.
  assert (i <> j).
  { destruct Hnames as [[Hd _] | (_ & _ & Hfresh)].
    - rewrite Hd in Hino. apply Nat.eqb_neq in Hino. congruence.
    - intros ->. by apply (Hfresh p). }
  unfold inode_content. simpl. rewrite lookup_insert_ne by done.
  rewrite Hinodes. by rewrite lookup_insert_ne.
Qed.

(** X8.  Fetch, use, fetch again.  After a download that filled the cache
    and once the caller has removed the destination file (as the
    installation steps do), a second fetch of the same locator to the same
    destination within seven days is served from the cache: no request,
    the destination holds the body again, and the cached file is used up.
    The JSON and datetime libraries are taken to read back the record and
    the timestamp that the first fetch wrote. *)
Theorem refetch_after_success_is_served_from_cache
    settings url dest_path expected expected2 st r content st2 :
  kill_now st = false ->
  use_cache url dest_path st = (st, Return false) ->
  server url (download_timeout settings) = GetResponds r ->
  http_ok r = true ->
  transfer_of false EmptyString (body r) = Finished content ->
  (py_or expected (KNOWN_CHECKSUMS (path_name dest_path)) = None \/
   py_or expected (KNOWN_CHECKSUMS (path_name dest_path))
     = Some (sha256_hex content)) ->
  names (fs st) !! cache_path dest_path = None ->
  dest_path <> cache_path dest_path ->
  meta_path url <> cache_path dest_path ->
  same_file (fs st) dest_path (meta_path url) = false ->
  json_load (json_dump (JObj [("timestamp", JStr (isoformat (clock st)));
                              ("checksum", JStr (sha256_hex content))]))
    = Some (JObj [("timestamp", JStr (isoformat (clock st)));
                  ("checksum", JStr (sha256_hex content))]) ->
  fromisoformat (isoformat (clock st)) = Some (mkDatetime (clock st) false) ->
  unlink (fs (download_file settings url dest_path expected st).1) dest_path
    = Some (fs st2) ->
  kill_now st2 = false ->
  clock st2 - clock st < timedelta_days 7 ->
  exists st3,
    download_file settings url dest_path expected2 st2 = (st3, Return true) /\
    requests st3 = requests st2 /\
    file_content (fs st3) dest_path = Some content /\
    names (fs st3) !! cache_path dest_path = None.
Proof.
  intros Hk Huse Hsrv Hok Htr Hexp Hfree Hdc Hmc Hsame Hjson Hiso Hunlink Hk2 Hage.
  destruct (download_success_state settings url dest_path expected st r content
              Hk Huse Hsrv Hok Htr Hexp Hfree Hdc Hmc Hsame)
    as (st1 & ino & Hdl & _ & _ & _ & _ & _ & _ & Hd & Hc & Hi & _ & Hm).
  rewrite Hdl in Hunlink. simpl in Hunlink.
  unfold unlink in Hunlink. rewrite Hd in Hunlink. injection Hunlink as Hfs2.
  assert (Hdm : dest_path <> meta_path url).
  { unfold same_file in Hsame. apply orb_false_iff in Hsame as [Hne _].
    by apply String.eqb_neq in Hne. }
  assert (Hc2 : names (fs st2) !! cache_path dest_path = Some ino).
  { rewrite <- Hfs2. simpl. by rewrite lookup_delete_ne. }
  assert (Hd2 : names (fs st2) !! dest_path = None).
  { rewrite <- Hfs2. simpl. apply lookup_delete_eq. }
  assert (Hi2 : inodes (fs st2) !! ino = Some content).
  { by rewrite <- Hfs2. }
  assert (Hentry : cache_entry st2 url dest_path (clock st2 - clock st)).
  { split.
    - unfold path_exists. apply bool_decide_eq_true. by eexists.
    - eexists _, _, _, _. split.
      { rewrite <- Hm. rewrite <- Hfs2. unfold file_content, inode_content. simpl.
        by rewrite lookup_delete_ne. }
      split; [exact Hjson |]. split; [done |].
      split; [reflexivity |]. split; [exact Hiso |]. done. }
  destruct (use_cache_hit url dest_path st2 _ Hentry Hage) as (f' & Hren & Huse2).
  exists (set_fs f' st2). split.
  { unfold download_file, try_except, download_file_body, bind, get_state.
    by rewrite Hk2, Huse2. }
  split; [done |]. simpl.
  unfold rename in Hren. rewrite Hc2, Hd2 in Hren.
  rewrite bool_decide_eq_false_2 in Hren by done. injection Hren as <-.
  split.
  - unfold file_content, inode_content. simpl. rewrite lookup_insert_eq. simpl.
    by rewrite Hi2.
  - simpl. rewrite lookup_insert_ne by done. apply lookup_delete_eq.
Qed.

End DownloadProperties.

(** * Further properties of the supervisor, the steps and the pipeline *)

Section PipelineProperties.

Context {W : World}.

(** ** The cancellation flag is never cleared *)

Lemma kf_ret {A} (a : A) : keeps_flag (ret a).
Proof. by intros st. Qed.

Lemma kf_raise {A} (e : exn) : keeps_flag (@raise A e).
Proof. by intros st. Qed.

Lemma kf_lift {A} (o : outcome A) : keeps_flag (lift o).
Proof. by intros st. Qed.

Lemma kf_get_state : keeps_flag get_state.
Proof. by intros st. Qed.

Lemma kf_bind {A B} (c : M A) (k : A -> M B) :
  keeps_flag c -> (forall a, keeps_flag (k a)) -> keeps_flag (bind c k).
Proof.
  intros Hc Hk st H. unfold bind. specialize (Hc st H).
  destruct (c st) as [st1 [a | e |]]; simpl in *; [| done | done].
  by apply Hk.
Qed.

Lemma kf_try_except {A} (body : M A) isinstance (handler : exn -> M A) :
  keeps_flag body -> (forall e, keeps_flag (handler e)) ->
  keeps_flag (try_except body isinstance handler).
Proof.
  intros Hb Hh st H. unfold try_except. specialize (Hb st H).
  destruct (body st) as [st1 [a | e |]]; simpl in *; [done | | done].
  destruct (isinstance e); [by apply Hh | done].
Qed.

Lemma kf_try_finally {A} (body : M A) (final : M unit) :
  keeps_flag body -> keeps_flag final -> keeps_flag (try_finally body final).
Proof.
  intros Hb Hf st H. unfold try_finally. specialize (Hb st H).
  destruct (body st) as [st1 [a | e |]]; simpl in *; [| | done];
    specialize (Hf st1 Hb); by destruct (final st1) as [st2 [[] | e' |]].
Qed.

Lemma kf_modify (f : State -> State) :
  (forall st, kill_now st = true -> kill_now (f st) = true) ->
  keeps_flag (modify f).
Proof. intros Hf st H. by apply Hf. Qed.

Lemma kf_advance dt : keeps_flag (advance dt).
Proof.
  apply kf_modify. intros st H. cbv zeta.
  destruct (signal_at st) as [s |]; [destruct (s <=? clock st + dt) |];
    simpl; done.
Qed.

(** The primitives that touch only files, requests, commands or handles. *)
Lemma kf_same {A} (c : M A) :
  (forall st, kill_now (c st).1 = kill_now st) -> keeps_flag c.
Proof. intros Hc st H. by rewrite Hc. Qed.

Lemma kf_unlink_path p : keeps_flag (unlink_path p).
Proof. apply kf_same. intros st. unfold unlink_path. by destruct (unlink _ _). Qed.

Lemma kf_write_chunks ino items : keeps_flag (write_chunks ino items).
Proof.
  induction items as [| [data | | |] rest IH]; simpl.
  - apply kf_ret.
  - apply kf_bind; [apply kf_get_state |]. intros st.
    destruct (kill_now st); [apply kf_ret |].
    apply kf_bind; [| intros _; exact IH].
    destruct (String.eqb data EmptyString); [apply kf_ret | by apply kf_modify].
  - apply kf_bind; [by apply kf_modify | intros _; exact IH].
  - apply kf_raise.
  - apply kf_bind; [apply kf_get_state |]. intros st.
    destruct (kill_now st); [apply kf_ret | apply kf_raise].
Qed.

Lemma kf_calculate_checksum p : keeps_flag (_calculate_checksum p).
Proof.
  apply kf_same. intros st. unfold _calculate_checksum.
  by destruct (file_content _ _).
Qed.

Lemma kf_download_file settings url dest_path expected :
  keeps_flag (download_file settings url dest_path expected).
Proof.
  unfold download_file. apply kf_try_except; [| intros; apply kf_ret].
  unfold download_file_body.
  apply kf_bind; [apply kf_get_state | intros st].
  destruct (kill_now st); [apply kf_ret |].
  apply kf_bind.
  { unfold use_cache. apply kf_bind.
    { apply kf_same. intros s. unfold _get_cache_metadata.
      destruct (file_content _ _); [destruct (json_load _) |]; done. }
    intros meta. apply kf_bind; [apply kf_get_state | intros s].
    destruct (_ && _); [| apply kf_ret].
    apply kf_bind; [apply kf_lift | intros ts].
    apply kf_bind.
    { unfold datetime_fromisoformat. destruct ts; try apply kf_raise.
      destruct (fromisoformat s0); [apply kf_ret | apply kf_raise]. }
    intros t. apply kf_bind; [apply kf_get_state | intros now].
    apply kf_bind; [apply kf_lift | intros age].
    destruct (age <? _); [| apply kf_ret].
    apply kf_bind; [| intros; apply kf_ret].
    apply kf_same. intros s1. unfold rename_path. by destruct (rename _ _ _). }
  intros used. destruct used; [apply kf_ret |].
  unfold fetch_and_store.
  apply kf_bind.
  { apply kf_same. intros s. unfold session_get. by destruct (server _ _). }
  intros r. apply kf_bind.
  { unfold raise_for_status. destruct (_ && _); [apply kf_raise | apply kf_ret]. }
  intros _. apply kf_bind.
  { unfold total_size_of. destruct (content_length r) as [[n |] |];
      [apply kf_ret | apply kf_raise | apply kf_ret]. }
  intros _. apply kf_bind.
  { apply kf_same. intros s. unfold open_dest. by destruct (open_trunc _ _). }
  intros ino. apply kf_bind; [apply kf_write_chunks | intros [b |]];
    [apply kf_ret |].
  unfold verify_and_store. apply kf_bind.
  { unfold _verify_checksum. destruct (py_or _ _) as [h |]; [| apply kf_ret].
    destruct (String.eqb h EmptyString); [apply kf_ret |].
    apply kf_bind; [apply kf_calculate_checksum | intros; apply kf_ret]. }
  intros ok. destruct ok; simpl.
  - apply kf_bind.
    { apply kf_same. intros s. unfold link_path.
      by destruct (link_to _ _ _) as [[|] |]. }
    intros _. apply kf_bind; [apply kf_get_state | intros now].
    apply kf_bind; [apply kf_calculate_checksum | intros cs].
    apply kf_bind; [| intros; apply kf_ret].
    apply kf_same. intros s. unfold _save_cache_metadata, write_text, modify.
    simpl. by destruct (open_trunc _ _).
  - apply kf_bind; [apply kf_unlink_path | intros; apply kf_ret].
Qed.

Lemma kf_popen cmd : keeps_flag (popen cmd).
Proof.
  apply kf_same. intros st. unfold popen.
  by destruct (spawn_oracle cmd) as [[runtime delay] |].
Qed.

Lemma kf_run_command cmd check background :
  keeps_flag (run_command cmd check background).
Proof.
  unfold run_command. apply kf_try_except.
  - apply kf_bind; [apply kf_get_state | intros st].
    destruct (kill_now st); [apply kf_ret |].
    destruct background.
    + apply kf_bind; [apply kf_popen | intros p].
      apply kf_bind; [by apply kf_modify | intros; apply kf_ret].
    + apply kf_bind; [| intros; apply kf_ret].
      unfold subprocess_run. destruct (run_oracle cmd) as [r |]; [| apply kf_raise].
      apply kf_bind; [by apply kf_modify | intros _].
      apply kf_bind; [apply kf_advance | intros _].
      destruct (_ && _); [apply kf_raise | apply kf_ret].
  - intros e. destruct check; [apply kf_raise | apply kf_ret].
Qed.

Lemma kf_proc_terminate p : keeps_flag (proc_terminate p).
Proof. unfold proc_terminate. apply kf_bind; [apply kf_get_state | intros; apply kf_ret]. Qed.

Lemma kf_wait_for_installer process start_time timeout :
  forall budget, keeps_flag (wait_for_installer budget process start_time timeout).
Proof.
  induction budget as [| budget IH]; intros st H; simpl.
  - by destruct (_ <? _).
  - destruct (_ <? _); [| done]. rewrite H.
    by apply (kf_bind (proc_terminate process) _ (kf_proc_terminate process)
                (fun _ => kf_ret _)).
Qed.

Lemma kf_run_installer : keeps_flag run_installer.
Proof.
  unfold run_installer.
  apply kf_bind; [apply kf_popen | intros p].
  apply kf_bind; [apply kf_get_state | intros start].
  apply kf_bind; [apply kf_wait_for_installer | intros [[|] p']];
    [apply kf_ret |].
  apply kf_bind; [apply kf_get_state | intros st'].
  apply kf_bind.
  { destruct (running _ _); [apply kf_proc_terminate | apply kf_ret]. }
  intros p''. apply kf_bind; [apply kf_unlink_path | intros; apply kf_ret].
Qed.

Lemma kf_install_mt5 settings : keeps_flag (install_mt5 settings).
Proof.
  unfold install_mt5.
  apply kf_bind; [apply kf_get_state | intros st].
  destruct (kill_now st); [apply kf_ret |].
  destruct (path_exists _ _); [apply kf_ret |].
  apply kf_bind.
  { unfold get_wine_version. destruct (wine_version settings);
      [apply kf_ret | apply kf_raise]. }
  intros v. apply kf_bind; [apply kf_run_command | intros _].
  apply kf_bind; [apply kf_download_file | intros b].
  destruct b; [apply kf_run_installer | apply kf_ret].
Qed.

Lemma kf_install_mono settings : keeps_flag (install_mono settings).
Proof.
  unfold install_mono.
  apply kf_bind; [apply kf_get_state | intros st].
  destruct (kill_now st); [apply kf_ret |].
  destruct (path_exists _ _); [apply kf_ret |].
  apply kf_bind; [apply kf_download_file | intros b].
  destruct b; [| apply kf_ret].
  apply kf_bind; [apply kf_run_command | intros; apply kf_unlink_path].
Qed.

Lemma kf_install_python_wine settings : keeps_flag (install_python_wine settings).
Proof.
  unfold install_python_wine.
  apply kf_bind; [apply kf_get_state | intros st].
  destruct (kill_now st); [apply kf_ret |].
  apply kf_bind.
  { apply kf_try_except; [| intros; apply kf_ret].
    apply kf_bind; [apply kf_run_command | intros; apply kf_ret]. }
  intros installed. destruct installed; [apply kf_ret |].
  apply kf_bind; [apply kf_download_file | intros b].
  destruct b; [| apply kf_ret].
  apply kf_bind; [apply kf_run_command | intros _].
  apply kf_bind; [apply kf_unlink_path | intros _].
  apply kf_bind; [apply kf_run_command | intros; apply kf_ret].
Qed.

Lemma kf_install_packages_loop packages : keeps_flag (install_packages_loop packages).
Proof.
  induction packages as [| package rest IH]; simpl; [apply kf_ret |].
  apply kf_bind; [apply kf_get_state | intros st].
  destruct (kill_now st); [apply kf_ret |].
  apply kf_bind; [apply kf_run_command | intros _].
  apply kf_bind; [apply kf_run_command | intros _; exact IH].
Qed.

Lemma kf_install_python_packages settings :
  keeps_flag (install_python_packages settings).
Proof.
  unfold install_python_packages.
  apply kf_bind; [apply kf_get_state | intros st].
  destruct (kill_now st); [apply kf_ret | apply kf_install_packages_loop].
Qed.

Lemma kf_start_mt5 settings : keeps_flag (start_mt5 settings).
Proof.
  unfold start_mt5.
  apply kf_bind; [apply kf_get_state | intros st].
  destruct (kill_now st); [apply kf_ret |].
  destruct (path_exists _ _); [| apply kf_ret].
  apply kf_bind; [apply kf_run_command | intros; apply kf_ret].
Qed.

Lemma kf_start_mt5_server settings : keeps_flag (start_mt5_server settings).
Proof.
  unfold start_mt5_server.
  apply kf_bind; [apply kf_get_state | intros st].
  destruct (kill_now st); [apply kf_ret |].
  apply kf_bind; [apply kf_run_command | intros _].
  apply kf_bind; [apply kf_advance | intros _].
  apply kf_bind; [apply kf_run_command | intros; apply kf_ret].
Qed.

Lemma kf_cleanup_each ps : keeps_flag (cleanup_each ps).
Proof.
  induction ps as [| p rest IH]; simpl; [apply kf_ret |].
  apply kf_bind.
  { unfold cleanup_one. apply kf_bind; [apply kf_get_state | intros st].
    destruct (running _ _); [| apply kf_ret].
    apply kf_bind; [apply kf_proc_terminate | intros p'].
    apply kf_try_except.
    - apply kf_bind; [| intros; apply kf_ret].
      unfold proc_wait. apply kf_bind; [apply kf_get_state | intros s].
      destruct (death_time p') as [d |].
      + destruct (d <=? _); [apply kf_advance |].
        apply kf_bind; [apply kf_advance | intros; apply kf_raise].
      + apply kf_bind; [apply kf_advance | intros; apply kf_raise].
    - intros e. unfold proc_kill.
      apply kf_bind; [apply kf_get_state | intros; apply kf_ret]. }
  intros p'. apply kf_bind; [exact IH | intros; apply kf_ret].
Qed.

Lemma kf_cleanup : keeps_flag cleanup.
Proof.
  unfold cleanup. apply kf_bind; [apply kf_get_state | intros st].
  apply kf_bind; [apply kf_cleanup_each | intros ps]. by apply kf_modify.
Qed.

Lemma kf_run_steps todo :
  Forall keeps_flag todo -> keeps_flag (run_steps todo).
Proof.
  induction 1 as [| step rest Hstep _ IH]; simpl; [apply kf_ret |].
  apply kf_bind; [apply kf_get_state | intros st].
  destruct (kill_now st); [apply kf_ret |].
  apply kf_bind; [exact Hstep | intros _; exact IH].
Qed.

Lemma kf_idle_loop budget : keeps_flag (idle_loop budget).
Proof. intros st H. destruct budget; simpl; by rewrite H. Qed.

Lemma kf_settings_dict settings : keeps_flag (settings_dict settings).
Proof.
  unfold settings_dict. destruct (dict_method settings);
    [apply kf_ret | apply kf_raise].
Qed.

Lemma kf_mkdir_parents p : keeps_flag (mkdir_parents p).
Proof.
  apply kf_same. intros st. unfold mkdir_parents.
  by repeat case_match.
Qed.

Lemma kf_steps settings : Forall keeps_flag (steps settings).
Proof.
  repeat constructor.
  - apply kf_install_mono.
  - apply kf_bind; [apply kf_install_mt5 | intros; apply kf_ret].
  - apply kf_install_python_wine.
  - apply kf_install_python_packages.
  - apply kf_start_mt5.
  - apply kf_start_mt5_server.
Qed.

(** X9.  Once set, the cancellation flag stays set: no method of the
    installer, from a single download to the whole [run], ends in a state
    with the flag clear when it started with the flag set. *)
Theorem kill_flag_is_never_cleared :
  (forall settings url dest_path expected,
     keeps_flag (download_file settings url dest_path expected)) /\
  (forall cmd check background, keeps_flag (run_command cmd check background)) /\
  (forall settings,
     keeps_flag (install_mono settings) /\
     keeps_flag (install_mt5 settings) /\
     keeps_flag (install_python_wine settings) /\
     keeps_flag (install_python_packages settings) /\
     keeps_flag (start_mt5 settings) /\
     keeps_flag (start_mt5_server settings)) /\
  keeps_flag cleanup /\
  (forall settings budget, keeps_flag (run settings budget)).
Proof.
  split; [apply kf_download_file |]. split; [apply kf_run_command |].
  split.
  { intros settings. pose proof (kf_steps settings) as Hs.
    repeat split; [apply kf_install_mono | apply kf_install_mt5
      | apply kf_install_python_wine | apply kf_install_python_packages
      | apply kf_start_mt5 | apply kf_start_mt5_server]. }
  split; [apply kf_cleanup |].
  intros settings budget. unfold run.
  apply kf_try_finally; [| apply kf_cleanup].
  apply kf_try_except; [| intros; apply kf_raise].
  apply kf_bind; [apply kf_settings_dict | intros _].
  apply kf_bind; [apply kf_mkdir_parents | intros _].
  apply kf_bind; [apply kf_run_steps, kf_steps | intros _].
  apply kf_bind; [apply kf_get_state | intros st].
  destruct (negb (kill_now st)); [apply kf_idle_loop | apply kf_ret].
Qed.

(** ** Foreground commands *)

Lemma advance_quiet dt st :
  signal_at st = None ->
  advance dt st = (set_clock (clock st + dt) st, Return tt).
Proof. intros H. unfold advance, modify. by rewrite H. Qed.

Lemma advance_frame dt st :
  exists st', advance dt st = (st', Return tt) /\
    fs st' = fs st /\ requests st' = requests st /\
    commands st' = commands st /\ processes st' = processes st /\
    clock st' = clock st + dt /\ signal_at st' = signal_at st.
Proof.
  unfold advance, modify. eexists. split; [reflexivity |]. cbv zeta.
  destruct (signal_at st) as [s |] eqn:Hs;
    [destruct (s <=? clock st + dt) |]; simpl; by rewrite ?Hs.
Qed.

(** A foreground command that can be started, run with [check=False]:
    the result is handed back whatever the exit code. *)
Lemma run_command_unchecked cmd st r :
  kill_now st = false ->
  run_oracle cmd = Some r ->
  exists st',
    run_command cmd false false st = (st', Return (Completed r)) /\
    commands st' = commands st ++ [cmd] /\
    fs st' = fs st /\ requests st' = requests st /\
    processes st' = processes st /\
    clock st' = clock st + took r /\
    signal_at st' = signal_at st /\
    (signal_at st = None -> kill_now st' = false).
Proof.
  intros Hk Hr. unfold run_command, try_except, bind at 1, get_state.
  rewrite Hk. unfold subprocess_run. rewrite Hr.
  unfold bind at 1. unfold bind at 1. unfold modify at 1. unfold bind at 1.
  destruct (advance_frame (took r) (set_commands (commands st ++ [cmd]) st))
    as (st' & Ha & Hfs & Hrq & Hcm & Hps & Hcl & Hsg).
  rewrite Ha. simpl.
  exists st'. split; [done |]. repeat (split; [done |]).
  intros Hnone.
  rewrite (advance_quiet (took r) (set_commands (commands st ++ [cmd]) st) Hnone)
    in Ha.
  by injection Ha as <-.
Qed.


(** ** The package step *)

Lemma install_packages_loop_spec packages : forall st,
  kill_now st = false ->
  signal_at st = None ->
  Forall (fun package =>
            is_Some (run_oracle (wine_pip_command package)) /\
            is_Some (run_oracle (pip3_command package))) packages ->
  exists st',
    install_packages_loop packages st = (st', Return tt) /\
    commands st' = commands st ++
      flat_map (fun package => [wine_pip_command package; pip3_command package])
        packages /\
    fs st' = fs st /\ requests st' = requests st /\
    processes st' = processes st /\
    kill_now st' = false /\ signal_at st' = None.
Proof.
  induction packages as [| package rest IH]; intros st Hk Hs Hall; simpl.
  - exists st. by rewrite app_nil_r.
  - apply Forall_cons in Hall as [[[r1 Hr1] [r2 Hr2]] Hrest].
    erewrite bind_return by reflexivity. rewrite Hk.
    destruct (run_command_unchecked _ st r1 Hk Hr1)
      as (st1 & Hrun1 & Hc1 & Hf1 & Hq1 & Hp1 & _ & Hs1 & Hk1).
    rewrite (bind_return _ _ _ _ _ Hrun1).
    destruct (run_command_unchecked _ st1 r2 (Hk1 Hs) Hr2)
      as (st2 & Hrun2 & Hc2 & Hf2 & Hq2 & Hp2 & _ & Hs2 & Hk2).
    rewrite (bind_return _ _ _ _ _ Hrun2).
    destruct (IH st2) as (st' & Hrun & Hc & Hf & Hq & Hp & Hk' & Hs');
      [apply Hk2; congruence | congruence | done |].
    exists st'. split; [done |].
    split; [rewrite Hc, Hc2, Hc1; by rewrite <- !app_assoc |].
    repeat split; congruence.
Qed.

(** X11.  With the flag clear, no signal on its way and every pip command
    startable, [install_python_packages] runs, for each required package
    in order, the install inside Wine and then the install on the host,
    whatever the exit codes; it returns normally and touches no file. *)
Theorem install_python_packages_runs_both_installs settings st :
  kill_now st = false ->
  signal_at st = None ->
  Forall (fun package =>
            is_Some (run_oracle (wine_pip_command package)) /\
            is_Some (run_oracle (pip3_command package)))
    (required_packages settings) ->
  exists st',
    install_python_packages settings st = (st', Return tt) /\
    commands st' = commands st ++
      flat_map (fun package => [wine_pip_command package; pip3_command package])
        (required_packages settings) /\
    fs st' = fs st /\ requests st' = requests st.
Proof.
  intros Hk Hs Hall. unfold install_python_packages.
  erewrite bind_return by reflexivity. rewrite Hk.
  destruct (install_packages_loop_spec _ st Hk Hs Hall)
    as (st' & Hrun & Hc & Hf & Hq & _).
  by exists st'.
Qed.

(** ** The Mono step *)


(** ** The Python step *)

(** X13.  When the version probe of Python inside Wine exits with code 0,
    [install_python_wine] is done: the probe is the only command started,
    nothing is requested and no file changes. *)
Theorem install_python_wine_skips_when_probe_succeeds settings st r :
  kill_now st = false ->
  run_oracle python_probe = Some r ->
  returncode r = 0 ->
  exists st',
    install_python_wine settings st = (st', Return tt) /\
    commands st' = commands st ++ [python_probe] /\
    requests st' = requests st /\
    fs st' = fs st.
Proof.
  intros Hk Hr Hrc. unfold install_python_wine.
  erewrite bind_return by reflexivity. rewrite Hk.
  destruct (run_command_unchecked _ st r Hk Hr)
    as (st1 & Hrun & Hc1 & Hf1 & Hq1 & _).
  erewrite bind_return.
  2:{ unfold try_except. rewrite (bind_return _ _ _ _ _ Hrun).
      unfold ret. simpl. rewrite Hrc. reflexivity. }
  simpl. by exists st1.
Qed.

(** X14.  When the probe cannot even be started, the bare [except] of
    [install_python_wine] absorbs the error and the step goes on to fetch
    the installer; if that request fails too, the step returns normally
    with nothing installed, no command started and no file changed. *)
Theorem install_python_wine_survives_missing_probe settings st :
  kill_now st = false ->
  run_oracle python_probe = None ->
  use_cache (python_url settings) python_installer st = (st, Return false) ->
  server (python_url settings) (download_timeout settings) = GetFails ->
  install_python_wine settings st
  = (set_requests (requests st ++ [python_url settings]) st, Return tt).
Proof.
  intros Hk Hr Huse Hsrv. unfold install_python_wine.
  erewrite bind_return by reflexivity. rewrite Hk.
  erewrite bind_return.
  2:{ unfold try_except at 1. erewrite bind_raise.
      2:{ unfold run_command, try_except, bind at 1, get_state. rewrite Hk.
          unfold subprocess_run. rewrite Hr. reflexivity. }
      reflexivity. }
  simpl.
  erewrite bind_return.
  2:{ rewrite (download_file_miss _ _ _ _ _ Hk Huse). unfold try_except.
      unfold fetch_and_store, bind at 1, session_get. rewrite Hsrv. reflexivity. }
  reflexivity.
Qed.

(** ** Starting the bridge server *)

(** X15.  [start_mt5_server] spawns the server in the background and
    tracks its handle, waits five seconds and runs [ss]; what [ss]
    prints and how it exits do not matter: the step returns normally. *)
Theorem start_mt5_server_tracks_server settings st runtime delay r :
  kill_now st = false ->
  signal_at st = None ->
  spawn_oracle (server_command settings) = Some (runtime, delay) ->
  run_oracle ss_command = Some r ->
  exists st' p,
    start_mt5_server settings st = (st', Return tt) /\
    processes st' = processes st ++ [p] /\
    args p = server_command settings /\ calls p = [] /\
    commands st' = commands st ++ [server_command settings; ss_command] /\
    clock st' = clock st + seconds 5 + took r.
Proof.
  intros Hk Hs Hspawn Hr. unfold start_mt5_server.
  erewrite bind_return by reflexivity. rewrite Hk.
  destruct (run_command_background_tracks _ true st runtime delay Hk Hspawn)
    as (st1 & p & Hrun & Hp1 & Hc1 & Hargs & Hcalls).
  rewrite (bind_return _ _ _ _ _ Hrun).
  assert (Hk1 : kill_now st1 = false /\ signal_at st1 = None /\ clock st1 = clock st).
  { revert Hrun. unfold run_command, try_except, bind, get_state, popen, modify.
    rewrite Hk, Hspawn. simpl. intros [= <- _]. done. }
  destruct Hk1 as (Hk1 & Hs1 & Hcl1).
  rewrite (bind_return _ _ _ _ _ (advance_quiet (seconds 5) st1 Hs1)).
  destruct (run_command_unchecked ss_command
              (set_clock (clock st1 + seconds 5) st1) r Hk1 Hr)
    as (st2 & Hrun2 & Hc2 & _ & _ & Hp2 & Hcl2 & _).
  rewrite (bind_return _ _ _ _ _ Hrun2).
  exists st2, p. split; [done |]. simpl in *.
  split; [congruence |]. split; [done |]. split; [done |].
  split; [rewrite Hc2, Hc1; by rewrite <- app_assoc |].
  rewrite Hcl2, Hcl1. done.
Qed.

(** ** Cleanup, again *)

(** [cleanup] ends with no tracked child running, and touches neither
    files nor logs. *)
Lemma cleanup_result st :
  exists st',
    cleanup st = (st', Return tt) /\
    Forall (fun p => running p (clock st') = false) (processes st') /\
    fs st' = fs st /\ requests st' = requests st /\
    commands st' = commands st.
Proof.
  assert (Hframe : forall ps s,
            fs (cleanup_each ps s).1 = fs s /\
            requests (cleanup_each ps s).1 = requests s /\
            commands (cleanup_each ps s).1 = commands s).
  { induction ps as [| p rest IH]; intros s; simpl; [done |].
    destruct (cleanup_one_spec p s) as (s1 & p' & Hone & _).
    assert (Hs1 : fs s1 = fs s /\ requests s1 = requests s /\
                  commands s1 = commands s).
    { revert Hone. unfold cleanup_one, bind at 1, get_state.
      destruct (running p (clock s)); [| by intros [= <- _]].
      unfold bind at 1, proc_terminate, bind at 1, get_state, ret at 1.
      unfold try_except, bind at 1, proc_wait, bind at 1, get_state.
      destruct (death_time (on_terminate p (clock s))) as [d |].
      - destruct (d <=? clock s + seconds 5).
        + destruct (advance_frame (Z.max 0 (d - clock s)) s)
            as (s' & -> & Hf & Hq & Hc & _).
          by intros [= <- _].
        + unfold bind at 1.
          destruct (advance_frame (seconds 5) s) as (s' & -> & Hf & Hq & Hc & _).
          unfold raise. simpl. unfold proc_kill, bind, get_state, ret.
          by intros [= <- _].
      - unfold bind at 1.
        destruct (advance_frame (seconds 5) s) as (s' & -> & Hf & Hq & Hc & _).
        unfold raise. simpl. unfold proc_kill, bind, get_state, ret.
        by intros [= <- _]. }
    unfold bind. rewrite Hone.
    destruct (cleanup_each_spec rest s1) as (s2 & rest' & Hrest & _).
    specialize (IH s1). rewrite Hrest in *. simpl in *.
    destruct IH as (-> & -> & ->). done. }
  destruct (cleanup_each_spec (processes st) st) as (st1 & ps' & Hrun & _ & _ & Hall).
  specialize (Hframe (processes st) st). rewrite Hrun in Hframe. simpl in Hframe.
  exists (set_processes ps' st1).
  unfold cleanup, bind, get_state. rewrite Hrun. unfold modify. simpl.
  split; [done |]. split; [| done].
  clear Hrun Hframe.
  induction Hall as [| p p' l l' (t & t' & H1 & H2 & H3 & H4 & _) _ IH].
  - constructor.
  - constructor; [| exact IH]. by apply (running_mono p' t').
Qed.



(** ** The pipeline *)

(** X17.  Whenever [run] ends, by returning or by raising, [cleanup] has
    run: no tracked child is running in the final state. *)
Theorem run_always_cleans_up settings budget st :
  (run settings budget st).2 <> Diverged ->
  Forall (fun p => running p (clock (run settings budget st).1) = false)
    (processes (run settings budget st).1).
Proof.
  unfold run, try_finally.
  destruct (try_except _ _ _ st) as [st1 [[] | e |]]; [| | done];
    destruct (cleanup_result st1) as (st2 & -> & Hdead & _); intros _; exact Hdead.
Qed.

Lemma idle_loop_exit budget : forall st st',
  idle_loop budget st = (st', Return tt) -> kill_now st' = true.
Proof.
  induction budget as [| budget IH]; intros st st'; simpl.
  - destruct (kill_now st) eqn:Hk; simpl; [by intros [= <-] | done].
  - destruct (kill_now st) eqn:Hk; simpl; [by intros [= <-] |].
    unfold bind.
    destruct (advance_frame (seconds 1) st) as (s1 & -> & _).
    apply IH.
Qed.

(** X18.  [run] returns normally only on cancellation: if it returns, the
    flag is set.  Without a signal the pipeline ends in the idle loop or
    with an exception. *)
Theorem run_returns_only_when_cancelled settings budget st st' :
  run settings budget st = (st', Return tt) ->
  kill_now st' = true.
Proof.
  unfold run, try_finally.
  destruct (try_except _ _ _ st) as [st1 [[] | e |]] eqn:Hbody; [| | done].
  2:{ destruct (cleanup_result st1) as (st2 & -> & _). done. }
  assert (Hk1 : kill_now st1 = true).
  { revert Hbody. unfold try_except.
    destruct (bind _ _ st) as [s1 [[] | e |]] eqn:Hb; [| | done].
    2:{ destruct (is_Exception e); done. }
    intros [= <-]. revert Hb. unfold bind at 1.
    destruct (settings_dict settings st) as [sa [[] | e |]]; [| done | done].
    unfold bind at 1.
    destruct (mkdir_parents (wine_prefix settings) sa) as [sb [[] | e |]];
      [| done | done].
    unfold bind at 1.
    destruct (run_steps (steps settings) sb) as [s0 [[] | e |]]; [| done | done].
    unfold bind, get_state.
    destruct (kill_now s0) eqn:Hk0; simpl.
    - by intros [= <-].
    - apply idle_loop_exit. }
  pose proof (kf_cleanup st1 Hk1) as Hkf.
  destruct (cleanup st1) as [st2 [[] | e |]]; [| done | done].
  by intros [= <-].
Qed.

(** *** The directory of the Wine prefix *)

Lemma append_assoc_string (a b c : string) :
  (a +:+ b) +:+ c = a +:+ (b +:+ c).
Proof.
  induction a as [| x a IH]; [reflexivity |].
  change (String x ((a +:+ b) +:+ c) = String x (a +:+ b +:+ c)).
  by rewrite IH.
Qed.

Lemma prefix_append (a b : string) : String.prefix a (a +:+ b) = true.
Proof.
  induction a as [| x a IH]; [by destruct b |].
  change (String.prefix (String x a) (String x (a +:+ b)) = true).
  simpl. by destruct (ascii_dec x x).
Qed.

(** The marker of Mono lies below the Wine prefix. *)
Lemma mono_below_prefix settings :
  is_below (wine_prefix settings) (mono_path settings) = true.
Proof.
  unfold is_below, mono_path, path_join. simpl.
  rewrite !append_assoc_string. simpl.
  change (wine_prefix settings +:+ "/drive_c/windows/mono")
    with (wine_prefix settings +:+ "/" +:+ "drive_c/windows/mono").
  rewrite <- append_assoc_string. apply prefix_append.
Qed.

(** A path with an entry below it is a directory. *)
Lemma entry_below_is_dir st p q :
  path_exists (fs st) q = true -> is_below p q = true -> is_dir st p = true.
Proof.
  intros Hq Hb. unfold path_exists in Hq. apply bool_decide_eq_true in Hq.
  destruct Hq as [i Hi].
  unfold is_dir. apply orb_true_iff. right.
  apply existsb_exists. exists q. split; [| done].
  apply list_elem_of_In. unfold entries. apply list_elem_of_fmap.
  exists (q, i). split; [done |]. by apply elem_of_map_to_list.
Qed.

(** What [mkdir] does: it touches nothing but the set of directories,
    and either leaves [p] a directory or raises with nothing made. *)
Lemma mkdir_parents_spec p st :
  exists st' o,
    mkdir_parents p st = (st', o) /\
    (o = Return tt /\ is_dir st' p = true /\
       (dirs st' = dirs st \/ dirs st' = {[ p ]} ∪ dirs st) \/
     (o = Raise FileExistsError \/ o = Raise OSError) /\ dirs st' = dirs st) /\
    kill_now st' = kill_now st /\ signal_at st' = signal_at st /\
    clock st' = clock st /\ fs st' = fs st /\ requests st' = requests st /\
    commands st' = commands st /\ processes st' = processes st.
Proof.
  unfold mkdir_parents.
  destruct (is_dir st p) eqn:Hdir.
  { exists st, (Return tt). split; [done |]. split; [| done].
    left. auto. }
  destruct (path_exists (fs st) p).
  { exists st, (Raise FileExistsError). split; [done |]. split; [| done].
    right. auto. }
  destruct (existsb _ (entries st)).
  { exists st, (Raise OSError). split; [done |]. split; [| done].
    right. auto. }
  eexists _, _. split; [reflexivity |]. split; [| done].
  left. split; [done |]. split; [| by right].
  unfold is_dir. simpl.
  rewrite bool_decide_eq_true_2; [done | set_solver].
Qed.

Lemma cleanup_dirs st : dirs (cleanup st).1 = dirs st.
Proof.
  assert (Hadv : forall dt s, dirs (advance dt s).1 = dirs s).
  { intros dt s. unfold advance, modify. simpl.
    destruct (signal_at s) as [x |]; [destruct (x <=? _) |]; done. }
  assert (Hone : forall p s, dirs (cleanup_one p s).1 = dirs s).
  { intros p s. unfold cleanup_one, bind at 1, get_state.
    destruct (running p (clock s)); [| done].
    unfold bind at 1, proc_terminate, bind at 1, get_state, ret at 1.
    unfold try_except, bind at 1, proc_wait, bind at 1, get_state.
    destruct (death_time (on_terminate p (clock s))) as [d |].
    - destruct (d <=? clock s + seconds 5).
      + pose proof (Hadv (Z.max 0 (d - clock s)) s) as Ha.
        destruct (advance_frame (Z.max 0 (d - clock s)) s) as (s' & Hs' & _).
        rewrite Hs' in *. done.
      + unfold bind at 1. pose proof (Hadv (seconds 5) s) as Ha.
        destruct (advance_frame (seconds 5) s) as (s' & Hs' & _).
        rewrite Hs' in *. done.
    - unfold bind at 1. pose proof (Hadv (seconds 5) s) as Ha.
      destruct (advance_frame (seconds 5) s) as (s' & Hs' & _).
      rewrite Hs' in *. done. }
  assert (Heach : forall ps s, dirs (cleanup_each ps s).1 = dirs s).
  { induction ps as [| p rest IH]; intros s; simpl; [done |].
    unfold bind at 1. specialize (Hone p s).
    destruct (cleanup_one_spec p s) as (s1 & p' & Hrun & _).
    rewrite Hrun in *. simpl in Hone.
    unfold bind. specialize (IH s1).
    destruct (cleanup_each_spec rest s1) as (s2 & rest' & Hrest & _).
    rewrite Hrest in *. simpl in *. congruence. }
  unfold cleanup, bind, get_state. specialize (Heach (processes st) st).
  destruct (cleanup_each_spec (processes st) st) as (s1 & ps' & Hrun & _).
  rewrite Hrun in *. done.
Qed.

(** With the flag set, the steps and the idle loop are skipped. *)
Lemma run_steps_cancelled settings budget st :
  kill_now st = true ->
  (run_steps (steps settings) ;;
   st0 <- get_state ;;
   if negb (kill_now st0) then idle_loop budget else ret tt) st
  = (st, Return tt).
Proof.
  intros Hk. unfold steps. simpl.
  erewrite bind_return; [| erewrite bind_return by reflexivity;
                           rewrite Hk; reflexivity].
  erewrite bind_return by reflexivity. by rewrite Hk.
Qed.

(** X19.  With the flag set before [run] begins, no step is started.
    [run] still logs the configuration and makes the directory of the
    Wine prefix if it is not there yet; it then returns after [cleanup],
    or raises again what the log line or the [mkdir] raised.  Either way
    no command is started, no request is made and no file is created,
    changed or removed. *)
Theorem run_cancelled_at_start_starts_nothing settings budget st :
  kill_now st = true ->
  exists st' o,
    run settings budget st = (st', o) /\
    (o = Return tt /\ is_dir st' (wine_prefix settings) = true \/
     (exists e, o = Raise e /\ is_Exception e = true) /\ dirs st' = dirs st) /\
    (dirs st' = dirs st \/ dirs st' = {[ wine_prefix settings ]} ∪ dirs st) /\
    commands st' = commands st /\ requests st' = requests st /\
    fs st' = fs st.
Proof.
  intros Hk.
  destruct (dict_method settings) eqn:Hdm.
  2:{ assert (Hbody : (settings_dict settings ;;
                       mkdir_parents (wine_prefix settings) ;;
                       run_steps (steps settings) ;;
                       st0 <- get_state ;;
                       if negb (kill_now st0) then idle_loop budget else ret tt) st
                      = (st, Raise AttributeError)).
      { unfold settings_dict. by rewrite Hdm. }
      unfold run, try_finally, try_except. rewrite Hbody. simpl.
      unfold raise.
      pose proof (cleanup_dirs st) as Hd.
      destruct (cleanup_result st) as (st' & Hrun & _ & Hf & Hq & Hc).
      rewrite Hrun in *. simpl in Hd.
      exists st', (Raise AttributeError). split; [done |].
      split; [right; split; [by eexists | done] |].
      split; [by left | done]. }
  destruct (mkdir_parents_spec (wine_prefix settings) st)
    as (sb & o & Hmk & Hcase & Hkb & _ & _ & Hfb & Hqb & Hcb & _).
  assert (Hbody : (settings_dict settings ;;
                   mkdir_parents (wine_prefix settings) ;;
                   run_steps (steps settings) ;;
                   st0 <- get_state ;;
                   if negb (kill_now st0) then idle_loop budget else ret tt) st
                  = (sb, o)).
  { erewrite bind_return by (unfold settings_dict; rewrite Hdm; reflexivity).
    destruct Hcase as [(-> & _) | [[-> | ->] _]].
    - rewrite (bind_return _ _ _ _ _ Hmk).
      apply run_steps_cancelled. congruence.
    - by rewrite (bind_raise _ _ _ _ _ Hmk).
    - by rewrite (bind_raise _ _ _ _ _ Hmk). }
  unfold run, try_finally, try_except. rewrite Hbody.
  pose proof (cleanup_dirs sb) as Hd.
  destruct (cleanup_result sb) as (st' & Hrun & _ & Hf & Hq & Hc).
  rewrite Hrun in Hd. simpl in Hd.
  destruct Hcase as [(-> & Hdir & Hdirs) | [[-> | ->] Hdirs]].
  - rewrite Hrun.
    exists st', (Return tt). split; [done |].
    split.
    { left. split; [done |]. revert Hdir. unfold is_dir, entries.
      by rewrite Hd, Hf. }
    split; [rewrite Hd; exact Hdirs |].
    split; [congruence |]. split; congruence.
  - simpl. unfold raise. rewrite Hrun.
    exists st', (Raise FileExistsError). split; [done |].
    split; [right; split; [by eexists | congruence] |].
    split; [left; congruence |].
    split; [congruence |]. split; congruence.
  - simpl. unfold raise. rewrite Hrun.
    exists st', (Raise OSError). split; [done |].
    split; [right; split; [by eexists | congruence] |].
    split; [left; congruence |].
    split; [congruence |]. split; congruence.
Qed.

(** X20.  With a settings object that has no [wine_version], as
    [DefaultSettings], Mono already installed and the terminal not, [run]
    cannot provision: the second step raises AttributeError, [run] raises
    it again after [cleanup], and no command was started and nothing was
    requested. *)
Theorem run_without_wine_version_aborts settings budget st :
  wine_version settings = None ->
  kill_now st = false ->
  path_exists (fs st) (mono_path settings) = true ->
  path_exists (fs st) (mt5_exe_path settings) = false ->
  exists st',
    run settings budget st = (st', Raise AttributeError) /\
    commands st' = commands st /\ requests st' = requests st /\
    Forall (fun p => running p (clock st') = false) (processes st').
Proof.
  intros Hv Hk Hmono Hexe. unfold run, try_finally, try_except.
  assert (Hbody : (settings_dict settings ;;
                   mkdir_parents (wine_prefix settings) ;;
                   run_steps (steps settings) ;;
                   st0 <- get_state ;;
                   if negb (kill_now st0) then idle_loop budget else ret tt) st
                  = (st, Raise AttributeError)).
  { unfold settings_dict. destruct (dict_method settings); [| done].
    erewrite bind_return by reflexivity.
    erewrite bind_return.
    2:{ unfold mkdir_parents.
        by rewrite (entry_below_is_dir st _ _ Hmono (mono_below_prefix settings)). }
    unfold steps. simpl. erewrite bind_raise; [reflexivity |].
    erewrite bind_return by reflexivity. rewrite Hk.
    erewrite bind_return.
    2:{ unfold install_mono. erewrite bind_return by reflexivity.
        rewrite Hk, Hmono. reflexivity. }
    erewrite bind_return by reflexivity. rewrite Hk.
    erewrite bind_raise; [reflexivity |].
    erewrite bind_raise; [reflexivity |].
    unfold install_mt5. erewrite bind_return by reflexivity.
    rewrite Hk, Hexe. erewrite bind_raise; [reflexivity |].
    unfold get_wine_version. rewrite Hv. reflexivity. }
  rewrite Hbody. simpl.
  destruct (cleanup_result st) as (st' & -> & Hdead & _ & Hq & Hc).
  by exists st'.
Qed.

(** ** The steps on a provisioned host *)

Lemma run_command_background_state cmd check st runtime delay :
  kill_now st = false ->
  spawn_oracle cmd = Some (runtime, delay) ->
  exists p,
    run_command cmd check true st
    = (set_processes (processes st ++ [p])
         (set_commands (commands st ++ [cmd]) st), Return (Handle p)).
Proof.
  intros Hk Hs. unfold run_command, try_except, bind, get_state, popen, modify.
  rewrite Hk, Hs. simpl. by eexists.
Qed.

(** X21.  On a host that is already provisioned (Mono marker and terminal
    present, Python answering the probe with exit code 0), with no
    cancellation and every program startable, the six steps request
    nothing and change no file: they run the probe, both installs of every
    required package, and launch the terminal and the bridge server in the
    background, whose binding is then looked up with [ss]. *)
Theorem steps_on_provisioned_host
    settings st probe ss_result runtime1 delay1 runtime2 delay2 :
  kill_now st = false ->
  signal_at st = None ->
  path_exists (fs st) (mono_path settings) = true ->
  path_exists (fs st) (mt5_exe_path settings) = true ->
  run_oracle python_probe = Some probe ->
  returncode probe = 0 ->
  Forall (fun package =>
            is_Some (run_oracle (wine_pip_command package)) /\
            is_Some (run_oracle (pip3_command package)))
    (required_packages settings) ->
  spawn_oracle ["wine"; mt5_exe_path settings] = Some (runtime1, delay1) ->
  spawn_oracle (server_command settings) = Some (runtime2, delay2) ->
  run_oracle ss_command = Some ss_result ->
  exists st',
    run_steps (steps settings) st = (st', Return tt) /\
    requests st' = requests st /\
    fs st' = fs st /\
    commands st' = commands st ++ [python_probe] ++
      flat_map (fun package => [wine_pip_command package; pip3_command package])
        (required_packages settings) ++
      [["wine"; mt5_exe_path settings]; server_command settings; ss_command] /\
    length (processes st') = (length (processes st) + 2)%nat /\
    kill_now st' = false.
Proof.
  intros Hk Hs Hmono Hexe Hprobe Hrc Hpkgs Hsp1 Hsp2 Hss.
  unfold steps. simpl.
  (* install_mono *)
  erewrite bind_return by reflexivity. rewrite Hk.
  erewrite bind_return.
  2:{ unfold install_mono. erewrite bind_return by reflexivity.
      rewrite Hk, Hmono. reflexivity. }
  (* install_mt5 *)
  erewrite bind_return by reflexivity. rewrite Hk.
  erewrite bind_return.
  2:{ erewrite bind_return; [reflexivity |].
      unfold install_mt5. erewrite bind_return by reflexivity.
      rewrite Hk, Hexe. reflexivity. }
  (* install_python_wine *)
  erewrite bind_return by reflexivity. rewrite Hk.
  destruct (run_command_unchecked _ st probe Hk Hprobe)
    as (st1 & Hrun1 & Hc1 & Hf1 & Hq1 & Hp1 & _ & Hs1 & Hk1).
  specialize (Hk1 Hs). rewrite Hs in Hs1.
  erewrite bind_return.
  2:{ unfold install_python_wine. erewrite bind_return by reflexivity.
      rewrite Hk. erewrite bind_return.
      2:{ unfold try_except. rewrite (bind_return _ _ _ _ _ Hrun1).
          unfold ret. simpl. rewrite Hrc. reflexivity. }
      reflexivity. }
  (* install_python_packages *)
  erewrite bind_return by reflexivity. rewrite Hk1.
  destruct (install_packages_loop_spec _ st1 Hk1 Hs1 Hpkgs)
    as (st2 & Hrun2 & Hc2 & Hf2 & Hq2 & Hp2 & Hk2 & Hs2).
  erewrite bind_return.
  2:{ unfold install_python_packages. erewrite bind_return by reflexivity.
      rewrite Hk1. exact Hrun2. }
  (* start_mt5 *)
  erewrite bind_return by reflexivity. rewrite Hk2.
  destruct (run_command_background_state _ true st2 runtime1 delay1 Hk2 Hsp1)
    as (p1 & Hrun3).
  erewrite bind_return.
  2:{ unfold start_mt5. erewrite bind_return by reflexivity.
      rewrite Hk2. rewrite Hf2, Hf1, Hexe.
      rewrite (bind_return _ _ _ _ _ Hrun3). reflexivity. }
  set (st3 := set_processes (processes st2 ++ [p1])
                (set_commands (commands st2 ++ [["wine"; mt5_exe_path settings]]) st2)).
  (* start_mt5_server *)
  erewrite bind_return by reflexivity.
  assert (Hk3 : kill_now st3 = false) by exact Hk2. rewrite Hk3.
  destruct (run_command_background_state _ true st3 runtime2 delay2 Hk3 Hsp2)
    as (p2 & Hrun4).
  set (st4 := set_processes (processes st3 ++ [p2])
                (set_commands (commands st3 ++ [server_command settings]) st3))
    in Hrun4.
  assert (Hs4 : signal_at st4 = None) by exact Hs2.
  destruct (run_command_unchecked ss_command
              (set_clock (clock st4 + seconds 5) st4) ss_result Hk2 Hss)
    as (st5 & Hrun5 & Hc5 & Hf5 & Hq5 & Hp5 & _ & _ & Hk5).
  erewrite bind_return.
  2:{ unfold start_mt5_server. erewrite bind_return by reflexivity.
      rewrite Hk3. rewrite (bind_return _ _ _ _ _ Hrun4).
      rewrite (bind_return _ _ _ _ _ (advance_quiet (seconds 5) st4 Hs4)).
      rewrite (bind_return _ _ _ _ _ Hrun5). reflexivity. }
  exists st5. split; [reflexivity |]. simpl in *.
  split; [congruence |]. split; [congruence |].
  split.
  { rewrite Hc5, Hc2, Hc1. rewrite <- !app_assoc. done. }
  split; [| by apply Hk5].
  rewrite Hp5, !length_app, Hp2, Hp1. simpl. lia.
Qed.

(** ** Requests *)

Lemma requests_write_chunks ino items :
  forall st, requests (write_chunks ino items st).1 = requests st.
Proof.
  induction items as [| [data | | |] rest IH]; intros st; simpl; try done.
  - unfold bind, get_state. destruct (kill_now st); [done |].
    destruct (String.eqb data EmptyString); unfold ret, modify; by rewrite IH.
  - unfold bind, modify. by rewrite IH.
  - unfold bind, get_state. by destruct (kill_now st).
Qed.

Lemma requests_verify_and_store url dest_path expected st :
  requests (verify_and_store url dest_path expected st).1 = requests st.
Proof.
  unfold verify_and_store, _verify_checksum, _calculate_checksum,
    _save_cache_metadata, write_text, link_path, unlink_path,
    bind, get_state, modify, ret.
  repeat case_match; simplify_eq/=; done.
Qed.

Lemma requests_use_cache url dest_path st :
  requests (use_cache url dest_path st).1 = requests st.
Proof.
  unfold use_cache, _get_cache_metadata, datetime_fromisoformat, rename_path,
    lift, bind, get_state, ret, raise.
  repeat case_match; simplify_eq/=; done.
Qed.

(** X22.  One call of [download_file] calls [session.get] at most once,
    and then with the given locator: whatever the cache holds, whatever
    the answer and however the transfer ends, [download_file] itself
    repeats nothing (retries are the business of the session's adapter). *)
Theorem download_file_requests_once settings url dest_path expected st :
  requests (download_file settings url dest_path expected st).1 = requests st \/
  requests (download_file settings url dest_path expected st).1
    = requests st ++ [url].
Proof.
  assert (Hfetch : forall s,
            requests (fetch_and_store settings url dest_path expected s).1
              = requests s ++ [url]).
  { intros s. unfold fetch_and_store, bind at 1, session_get.
    destruct (server url (download_timeout settings)) as [| r]; [done |].
    unfold bind at 1, raise_for_status.
    destruct ((400 <=? status_code r) && (status_code r <? 600)); [done |].
    unfold ret at 1. unfold bind at 1, total_size_of.
    destruct (content_length r) as [[n |] |]; try done;
      unfold ret at 1; unfold bind at 1, open_dest; simpl;
      destruct (open_trunc (fs s) dest_path) as [f i]; simpl;
      unfold bind;
      match goal with
      | |- context [write_chunks i (body r) ?s0] =>
          pose proof (requests_write_chunks i (body r) s0) as Hw;
          destruct (write_chunks i (body r) s0) as [s2 [[b |] | e |]]
      end; simpl in *; try done;
      by rewrite requests_verify_and_store. }
  assert (Hbody :
            requests (download_file_body settings url dest_path expected st).1
              = requests st \/
            requests (download_file_body settings url dest_path expected st).1
              = requests st ++ [url]).
  { unfold download_file_body, bind, get_state.
    destruct (kill_now st); [by left |].
    pose proof (requests_use_cache url dest_path st) as Hc.
    destruct (use_cache url dest_path st) as [s1 [[] | e |]]; simpl in *;
      [by left | | by left | by left].
    right. by rewrite Hfetch, Hc. }
  unfold download_file, try_except.
  destruct (download_file_body settings url dest_path expected st)
    as [s1 [b | e |]]; simpl in *; [done | | done].
  by destruct (is_Exception e).
Qed.

(** ** An installer that finishes in time *)

(** The waiting loop around an installer that exits on its own within the
    300 seconds, when no signal arrives: the loop is left by its [break]
    (or by its condition, at 300 seconds exactly), less than a second
    after the installer has gone. *)
Lemma wait_for_finishing_installer st runtime delay :
  0 <= runtime <= seconds 300 ->
  forall budget s k,
    clock s = clock st + seconds k ->
    0 <= k ->
    (k = 0 \/ seconds (k - 1) < runtime) ->
    kill_now s = false ->
    signal_at s = None ->
    300 - k <= Z.of_nat budget ->
    exists s',
      wait_for_installer budget
        (mkProc installer_command (clock st) (Some (clock st + runtime))
           delay None None [])
        (clock st) 300 s
      = (s', Return (LoopEnd,
                     mkProc installer_command (clock st)
                       (Some (clock st + runtime)) delay None None [])) /\
      clock st + runtime <= clock s' < clock st + runtime + seconds 1 /\
      fs s' = fs s /\ commands s' = commands s.
Proof.
  intros Hr.
  set (p0 := mkProc installer_command (clock st) (Some (clock st + runtime))
               delay None None []).
  assert (Hrunning : forall t, running p0 t = (t <? clock st + runtime))
    by reflexivity.
  assert (Hend : forall s k,
            clock s = clock st + seconds k ->
            0 <= k ->
            (k = 0 \/ seconds (k - 1) < runtime) ->
            clock st + runtime <= clock s ->
            clock st + runtime <= clock s < clock st + runtime + seconds 1).
  { intros s k Hc Hk0 Halive Hdead. unfold seconds in *. lia. }
  induction budget as [| budget IH]; intros s k Hc Hk0 Halive Hkill Hsig Hb;
    simpl.
  - assert (Hcond : (clock s - clock st <? seconds 300) = false).
    { apply Z.ltb_ge. rewrite Hc. unfold seconds. lia. }
    rewrite Hcond. exists s. split; [done |]. split; [| done].
    apply (Hend s k); try done. rewrite Hc. unfold seconds in *. lia.
  - destruct (clock s - clock st <? seconds 300) eqn:Hcond.
    + rewrite Hkill. rewrite Hrunning.
      destruct (clock s <? clock st + runtime) eqn:Hrn; simpl.
      * apply Z.ltb_lt in Hrn.
        unfold bind. rewrite (advance_quiet (seconds 1) s Hsig).
        destruct (IH (set_clock (clock s + seconds 1) s) (k + 1))
          as (s' & Hrun & Hclock & Hfs & Hcmd); try done.
        { simpl. rewrite Hc. unfold seconds. lia. }
        { lia. }
        { right. replace (k + 1 - 1) with k by lia. lia. }
        { lia. }
        exists s'. split; [exact Hrun |]. done.
      * apply Z.ltb_ge in Hrn. exists s. split; [done |]. split; [| done].
        by apply (Hend s k).
    + apply Z.ltb_ge in Hcond. exists s. split; [done |]. split; [| done].
      apply (Hend s k); try done. unfold seconds in *. lia.
Qed.

(** X23.  When the installer exits on its own within the 300 seconds and
    no signal arrives, the branch of [install_mt5] that runs it starts
    the installer and nothing else, never calls [terminate()] on it,
    goes on less than a second after the installer has gone, and removes
    the downloaded installer file. *)
Theorem installer_finishing_in_time_is_not_terminated st runtime delay i :
  kill_now st = false ->
  signal_at st = None ->
  spawn_oracle installer_command = Some (Some runtime, delay) ->
  0 <= runtime <= seconds 300 ->
  names (fs st) !! mt5_installer = Some i ->
  exists st' p,
    run_installer st = (st', Return (Some p)) /\
    calls p = [] /\
    clock st + runtime <= clock st' < clock st + runtime + seconds 1 /\
    names (fs st') !! mt5_installer = None /\
    commands st' = commands st ++ [installer_command].
Proof.
  intros Hk Hs Hsp Hr Hi. unfold run_installer.
  erewrite bind_return by (unfold popen; rewrite Hsp; reflexivity).
  set (st1 := set_commands (commands st ++ [installer_command]) st).
  erewrite bind_return by reflexivity.
  destruct (wait_for_finishing_installer st runtime delay Hr 300%nat st1 0)
    as (s' & Hrun & Hclock & Hfs & Hcmd);
    [simpl; unfold seconds; lia | lia | by left | exact Hk | exact Hs | lia |].
  simpl. change (clock st1) with (clock st).
  rewrite (bind_return _ _ _ _ _ Hrun).
  erewrite bind_return by reflexivity.
  assert (Hdead : running
            (mkProc installer_command (clock st) (Some (clock st + runtime))
               delay None None []) (clock s') = false).
  { unfold running. simpl. apply Z.ltb_ge. lia. }
  rewrite Hdead.
  erewrite bind_return by reflexivity.
  unfold bind, unlink_path, unlink. rewrite Hfs. simpl. rewrite Hi.
  eexists _, _. split; [reflexivity |]. simpl.
  split; [done |]. split; [done |].
  split; [apply lookup_delete_eq | exact Hcmd].
Qed.

End PipelineProperties.

(** * The further properties at concrete inputs *)

Lemma successful_download_fills_cache_witness :
  exists st',
    ex_download [Chunk "pay"; Chunk "load"] DefaultSettings "L" "/tmp/x" None
      (ex_state 5 empty_fs) = (st', Return true) /\
    requests st' = [] ++ ["L"] /\
    file_content (fs st') "/tmp/x" = Some "payload" /\
    is_Some (names (fs st') !! "/tmp/x") /\
    names (fs st') !! "/config/.cache/x" = names (fs st') !! "/tmp/x" /\
    file_content (fs st') "/config/.cache/L.meta" = Some "5 payload".
Proof.
  apply (@successful_download_fills_cache (ex_world [Chunk "pay"; Chunk "load"])
           DefaultSettings "L" "/tmp/x" None (ex_state 5 empty_fs)
           (mkResponse 200 None [Chunk "pay"; Chunk "load"]) "payload");
    try reflexivity; try (by left); done.
Defined.

Lemma download_fails_while_cache_path_is_taken_witness :
  exists st',
    ex_download [Chunk "payload"] DefaultSettings "L" "/tmp/x" None
      (ex_state 5 (ex_cached_fs "{}")) = (st', Return false).
Proof.
  apply (@download_fails_while_cache_path_is_taken (ex_world [Chunk "payload"])
           DefaultSettings "L" "/tmp/x" None (ex_state 5 (ex_cached_fs "{}")));
    [reflexivity |].
  left. by eexists.
Defined.

Lemma rejected_response_leaves_files_untouched_witness :
  @download_file (ex_server_world (GetResponds (mkResponse 503 None [])))
    DefaultSettings "L" "/tmp/x" None (ex_state 5 empty_fs)
  = (set_requests ([] ++ ["L"]) (ex_state 5 empty_fs), Return false).
Proof.
  apply (@rejected_response_leaves_files_untouched
           (ex_server_world (GetResponds (mkResponse 503 None [])))
           DefaultSettings "L" "/tmp/x" None (ex_state 5 empty_fs));
    [reflexivity | reflexivity |].
  right. eexists. split; reflexivity.
Defined.

Lemma broken_transfer_leaves_partial_file_witness :
  exists st',
    ex_download [Chunk "pay"; StreamError; Chunk "load"] DefaultSettings
      "L" "/tmp/x" None (ex_state 5 empty_fs) = (st', Return false) /\
    requests st' = [] ++ ["L"] /\
    file_content (fs st') "/tmp/x" = Some "pay" /\
    forall p, same_file empty_fs "/tmp/x" p = false ->
      names (fs st') !! p = names empty_fs !! p /\
      file_content (fs st') p = file_content empty_fs p.
Proof.
  apply (@broken_transfer_leaves_partial_file
           (ex_world [Chunk "pay"; StreamError; Chunk "load"])
           DefaultSettings "L" "/tmp/x" None (ex_state 5 empty_fs)
           (mkResponse 200 None [Chunk "pay"; StreamError; Chunk "load"])
           "pay" ChunkedEncodingError);
    reflexivity.
Defined.

Lemma cache_hit_skips_verification_witness :
  exists st',
    (forall expected,
       ex_download [] DefaultSettings "L" "/tmp/x" expected
         (ex_state 1000 (ex_cached_fs "0 payload")) = (st', Return true)) /\
    requests st' = [] /\
    file_content (fs st') "/tmp/x" = Some "payload".
Proof.
  apply (@cache_hit_skips_verification (ex_world []) DefaultSettings
           "L" "/tmp/x" (ex_state 1000 (ex_cached_fs "0 payload")) 1000 "payload");
    try reflexivity.
  apply ex_cache_entry.
Defined.

Lemma unusable_metadata_fails_fetch_witness :
  ex_download [Chunk "payload"] DefaultSettings "L" "/tmp/x" None
    (ex_state 1000 (ex_cached_fs "yesterday payload"))
  = (ex_state 1000 (ex_cached_fs "yesterday payload"), Return false).
Proof.
  apply (@unusable_metadata_fails_fetch (ex_world [Chunk "payload"])
           DefaultSettings "L" "/tmp/x" None
           (ex_state 1000 (ex_cached_fs "yesterday payload"))
           "yesterday payload"
           (JObj [("timestamp", JStr "yesterday"); ("checksum", JStr "payload")]));
    reflexivity.
Defined.

Lemma metadata_save_then_load_witness :
  exists st',
    @_save_cache_metadata (ex_world []) "L"
      (JObj [("timestamp", JStr "5"); ("checksum", JStr "abc")])
      (ex_state 5 empty_fs) = (st', Return tt) /\
    @_get_cache_metadata (ex_world []) "L" st'
      = (st', Return (JObj [("timestamp", JStr "5"); ("checksum", JStr "abc")])) /\
    requests st' = [] /\
    forall p, same_file empty_fs "/config/.cache/L.meta" p = false ->
      names (fs st') !! p = names empty_fs !! p /\
      file_content (fs st') p = file_content empty_fs p.
Proof.
  apply (@metadata_save_then_load (ex_world []) "L"
           (JObj [("timestamp", JStr "5"); ("checksum", JStr "abc")])
           (ex_state 5 empty_fs)).
  reflexivity.
Defined.

Lemma refetch_after_success_is_served_from_cache_witness :
  let st1 := (ex_download [Chunk "payload"] DefaultSettings "L" "/tmp/x" None
                (ex_state 5 empty_fs)).1 in
  let st2 := set_clock 1000
               (set_fs (mkFS (delete "/tmp/x" (names (fs st1))) (inodes (fs st1)))
                  st1) in
  exists st3,
    ex_download [Chunk "payload"] DefaultSettings "L" "/tmp/x" (Some "other") st2
      = (st3, Return true) /\
    requests st3 = requests st2 /\
    file_content (fs st3) "/tmp/x" = Some "payload" /\
    names (fs st3) !! "/config/.cache/x" = None.
Proof.
  apply (@refetch_after_success_is_served_from_cache (ex_world [Chunk "payload"])
           DefaultSettings "L" "/tmp/x" None (Some "other") (ex_state 5 empty_fs)
           (mkResponse 200 None [Chunk "payload"]) "payload");
    try reflexivity; try (by left); done.
Defined.


Lemma install_python_packages_runs_both_installs_witness :
  exists st',
    @install_python_packages (ex_tools_world []) DefaultSettings
      (ex_state 0 empty_fs) = (st', Return tt) /\
    commands st' = [] ++
      flat_map (fun package => [wine_pip_command package; pip3_command package])
        ["MetaTrader5==5.0.36"; "mt5linux"; "pyxdg"] /\
    fs st' = empty_fs /\ requests st' = [].
Proof.
  apply (@install_python_packages_runs_both_installs (ex_tools_world [])
           DefaultSettings (ex_state 0 empty_fs));
    try reflexivity.
  repeat constructor; by eexists.
Defined.


Lemma install_python_wine_skips_when_probe_succeeds_witness :
  exists st',
    @install_python_wine (ex_tools_world []) DefaultSettings (ex_state 0 empty_fs)
      = (st', Return tt) /\
    commands st' = [] ++ [python_probe] /\
    requests st' = [] /\
    fs st' = empty_fs.
Proof.
  apply (@install_python_wine_skips_when_probe_succeeds (ex_tools_world [])
           DefaultSettings (ex_state 0 empty_fs)
           (mkRun 0 EmptyString EmptyString (seconds 1)));
    reflexivity.
Defined.

Lemma install_python_wine_survives_missing_probe_witness :
  @install_python_wine (ex_server_world GetFails) DefaultSettings
    (ex_state 0 empty_fs)
  = (set_requests ([] ++ [python_url DefaultSettings]) (ex_state 0 empty_fs),
     Return tt).
Proof.
  apply (@install_python_wine_survives_missing_probe (ex_server_world GetFails)
           DefaultSettings (ex_state 0 empty_fs));
    reflexivity.
Defined.

Lemma start_mt5_server_tracks_server_witness :
  exists st' p,
    @start_mt5_server (ex_tools_world []) DefaultSettings (ex_state 0 empty_fs)
      = (st', Return tt) /\
    processes st' = [] ++ [p] /\
    args p = server_command DefaultSettings /\ calls p = [] /\
    commands st' = [] ++ [server_command DefaultSettings; ss_command] /\
    clock st' = 0 + seconds 5 + seconds 1.
Proof.
  apply (@start_mt5_server_tracks_server (ex_tools_world []) DefaultSettings
           (ex_state 0 empty_fs) None (Some (seconds 2))
           (mkRun 1 EmptyString EmptyString (seconds 1)));
    reflexivity.
Defined.

Lemma run_always_cleans_up_witness :
  Forall (fun p => running p
            (clock (@run (ex_tools_world []) DefaultSettings 100
                      (set_processes ex_processes (ex_signal_state (seconds 3)
                                                     ex_provisioned_fs))).1)
            = false)
    (processes (@run (ex_tools_world []) DefaultSettings 100
                  (set_processes ex_processes (ex_signal_state (seconds 3)
                                                 ex_provisioned_fs))).1).
Proof.
  apply (@run_always_cleans_up (ex_tools_world []) DefaultSettings 100%nat
           (set_processes ex_processes
              (ex_signal_state (seconds 3) ex_provisioned_fs))).
  vm_compute. congruence.
Defined.

Lemma run_returns_only_when_cancelled_witness :
  exists st',
    @run (ex_tools_world []) DefaultSettings 100
      (ex_signal_state (seconds 60) ex_provisioned_fs) = (st', Return tt) /\
    kill_now st' = true /\
    length (commands st') = 10%nat /\
    length (processes st') = 2%nat.
Proof.
  eexists. split; [vm_compute; reflexivity |].
  split; [| split; reflexivity].
  apply (@run_returns_only_when_cancelled (ex_tools_world []) DefaultSettings
           100%nat (ex_signal_state (seconds 60) ex_provisioned_fs)).
  vm_compute. reflexivity.
Defined.

Lemma run_cancelled_at_start_starts_nothing_witness :
  exists st' o,
    @run (ex_tools_world []) DefaultSettings 0
      (set_kill true (ex_state 0 empty_fs)) = (st', o) /\
    (o = Return tt /\ is_dir st' "/config/.wine" = true \/
     (exists e, o = Raise e /\ is_Exception e = true) /\ dirs st' = ∅) /\
    (dirs st' = ∅ \/ dirs st' = {[ "/config/.wine" ]} ∪ ∅) /\
    commands st' = [] /\ requests st' = [] /\ fs st' = empty_fs.
Proof.
  apply (@run_cancelled_at_start_starts_nothing (ex_tools_world [])
           DefaultSettings 0%nat (set_kill true (ex_state 0 empty_fs))).
  reflexivity.
Defined.

(** At that input [run] returns, and the directory of the Wine prefix is
    the one thing it has made. *)
Example run_cancelled_makes_prefix_directory :
  let res := @run (ex_tools_world []) DefaultSettings 0
               (set_kill true (ex_state 0 empty_fs)) in
  res.2 = Return tt /\
  dirs res.1 = {[ "/config/.wine" ]} /\
  fs res.1 = empty_fs /\ commands res.1 = [].
Proof. repeat split; vm_compute; reflexivity. Qed.

Lemma run_without_wine_version_aborts_witness :
  exists st',
    @run (ex_tools_world []) DefaultSettings 0 (ex_state 0 ex_mono_fs)
      = (st', Raise AttributeError) /\
    commands st' = [] /\ requests st' = [] /\
    Forall (fun p => running p (clock st') = false) (processes st').
Proof.
  apply (@run_without_wine_version_aborts (ex_tools_world []) DefaultSettings
           0%nat (ex_state 0 ex_mono_fs));
    reflexivity.
Defined.

Lemma steps_on_provisioned_host_witness :
  exists st',
    run_steps (@steps (ex_tools_world []) DefaultSettings)
      (ex_state 0 ex_provisioned_fs) = (st', Return tt) /\
    requests st' = [] /\
    fs st' = ex_provisioned_fs /\
    commands st' = [] ++ [python_probe] ++
      flat_map (fun package => [wine_pip_command package; pip3_command package])
        (required_packages DefaultSettings) ++
      [["wine"; mt5_exe_path DefaultSettings];
       server_command DefaultSettings; ss_command] /\
    length (processes st') = (0 + 2)%nat /\
    kill_now st' = false.
Proof.
  apply (@steps_on_provisioned_host (ex_tools_world []) DefaultSettings
           (ex_state 0 ex_provisioned_fs)
           (mkRun 0 EmptyString EmptyString (seconds 1))
           (mkRun 1 EmptyString EmptyString (seconds 1))
           None (Some (seconds 2)) None (Some (seconds 2)));
    try reflexivity.
  apply Forall_forall. intros package _. split; eexists; reflexivity.
Defined.

Lemma installer_finishing_in_time_is_not_terminated_witness :
  exists st' p,
    @run_installer ex_installer_world (ex_state 0 ex_installer_fs)
      = (st', Return (Some p)) /\
    calls p = [] /\
    0 + seconds 42 <= clock st' < 0 + seconds 42 + seconds 1 /\
    names (fs st') !! mt5_installer = None /\
    commands st' = [] ++ [installer_command].
Proof.
  apply (@installer_finishing_in_time_is_not_terminated ex_installer_world
           (ex_state 0 ex_installer_fs) (seconds 42) None 0%nat);
    try reflexivity.
  unfold seconds. lia.
Defined.

Lemma install_mt5_configured_witness :
  exists st' o,
    @install_mt5 ex_installer_world ex_configured_settings (ex_state 0 empty_fs)
      = (st', o) /\
    o <> Diverged /\
    (commands st' = [] \/
     commands st' = [] ++ [reg_add_command "win10"] \/
     commands st' = [] ++ [reg_add_command "win10"; installer_command]) /\
    forall p, o = Return (Some p) ->
      args p = installer_command /\
      clock st' - started_at p <= seconds 300 /\
      (running p (clock st') = false \/ calls p = [Terminate]).
Proof.
  apply (@install_mt5_configured ex_installer_world ex_configured_settings
           "win10" (ex_state 0 empty_fs));
    reflexivity.
Defined.
